(** * TaskFlow: the task routes and the client-side task list

    A shallow embedding of [server/routes/tasks.js] (the Express handlers
    over the PostgreSQL tables [profiles], [tasks], [task_collaborators]
    and the Socket.IO broadcast) and of the socket listeners of
    [src/contexts/TaskContext.tsx].

    Conventions.
    - A table is the list of its rows, in table order.  A handler is a
      function from the request and the world (tables and the log of
      emitted events) to the response and the new world.
    - The generated primary key of an inserted row and the reading of
      [NOW()] are inputs of the handler ([newid], [now]).
    - Route parameters and ids are well-formed UUID text; the store is
      reachable.  A rejected statement throws, and the handler's [catch]
      answers 500: text that the [uuid] type does not read ([Sql.uuid_in])
      is rejected so.  A theorem on what a route answers to a parameter
      that names no stored row takes the well-formedness of the parameter
      as a hypothesis.
    - Request bodies carry strings: a field is absent or a string.  Text
      is ASCII, one character per [ascii]. *)

From stdpp Require Import base list strings gmap sorting.
From Stdlib Require Import ZArith Ascii String.

Local Open Scope string_scope.
Local Open Scope Z_scope.
Local Open Scope list_scope.

(** ** express-validator: the sanitizer and validators of the chains *)

Module Validator.

(** [\s] on the characters modelled here. *)
Definition is_space (c : ascii) : bool :=
  match Ascii.nat_of_ascii c with
  | 9%nat | 10%nat | 11%nat | 12%nat | 13%nat | 32%nat => true
  | _ => false
  end.

Fixpoint ltrim (s : string) : string :=
  match s with
  | EmptyString => EmptyString
  | String c s' => if is_space c then ltrim s' else s
  end.

Definition rtrim (s : string) : string := String.rev (ltrim (String.rev s)).

(** [.trim()]: the sanitized value replaces the field of [req.body]. *)
Definition trim (s : string) : string := rtrim (ltrim s).

(** [.isLength({ min, max })] *)
Definition isLength (min max : nat) (s : string) : bool :=
  (min <=? String.length s)%nat && (String.length s <=? max)%nat.

(** [.isIn([...])] *)
Definition isIn (values : list string) (s : string) : bool :=
  bool_decide (s ∈ values).

(** A chain under [.optional()] is skipped when the field is absent. *)
Definition optional (check : string → bool) (field : option string) : bool :=
  match field with
  | None => true
  | Some s => check s
  end.

(** One entry of [errors.array()]: the field and its message. *)
Definition failure (ok : bool) (param msg : string) : list (string * string) :=
  if ok then [] else [(param, msg)].

End Validator.

(** ** Rows of the three tables *)

Record profile := {
  p_id : string;
  p_email : string;
  p_name : string;
  p_avatar_url : option string
}.

Record task := {
  t_id : string;
  t_title : string;
  t_description : string;
  t_status : string;
  t_priority : string;
  t_due_date : option Z;
  t_created_by : string;
  t_created_at : Z;
  t_updated_at : Z
}.

Record task_collaborator := {
  tc_id : string;
  tc_task_id : string;
  tc_user_id : string;
  tc_permission : string;
  tc_created_at : Z
}.

#[global] Instance profile_eq_dec : EqDecision profile.
Proof. solve_decision. Defined.

#[global] Instance task_eq_dec : EqDecision task.
Proof. solve_decision. Defined.

#[global] Instance task_collaborator_eq_dec : EqDecision task_collaborator.
Proof. solve_decision. Defined.

(** ** Payloads of [req.io.emit] *)

Inductive event :=
  | task_created (task : task) (creator : profile)
  | task_updated (task : option task) (updatedBy : profile)
  | task_deleted (taskId : string) (deletedBy : profile)
  | collaborator_added (taskId : string) (collaborator : task_collaborator)
      (user : profile) (addedBy : profile)
  | collaborator_removed (taskId userId : string) (removedBy : profile).

(** ** The world: the tables and the events emitted so far, oldest first *)

Record world := {
  profiles : list profile;
  tasks : list task;
  task_collaborators : list task_collaborator;
  emitted : list event
}.

Definition emit (e : event) (w : world) : world :=
  {| profiles := profiles w; tasks := tasks w;
     task_collaborators := task_collaborators w;
     emitted := emitted w ++ [e] |}.

Definition with_tasks (ts : list task) (w : world) : world :=
  {| profiles := profiles w; tasks := ts;
     task_collaborators := task_collaborators w; emitted := emitted w |}.

Definition with_task_collaborators (tcs : list task_collaborator) (w : world) : world :=
  {| profiles := profiles w; tasks := tasks w;
     task_collaborators := tcs; emitted := emitted w |}.

(** ** Request bodies and responses *)

(** The recognised keys of the body of POST / and PUT /:id; other keys
    are never read. *)
Record task_body := {
  title : option string;
  description : option string;
  status : option string;
  priority : option string;
  due_date : option string
}.

Record collaborator_body := {
  email : string;
  permission : string
}.

(** One element of the [collaborators] array built by [json_build_object]. *)
Record collaborator_json := {
  cj_id : string;
  cj_user_id : string;
  cj_permission : string;
  cj_user_name : option string;
  cj_user_email : option string;
  cj_user_avatar : option string
}.

(** A [json] column: SQL NULL or an array. *)
Inductive json_column :=
  | json_null
  | json_array (elements : list collaborator_json).

(** One row of the result of GET /. *)
Record task_listing := {
  l_task : task;
  creator_name : option string;
  creator_email : option string;
  creator_avatar : option string;
  collaborators : json_column
}.

Inductive json :=
  | errors_json (errors : list (string * string))   (* { errors: [...] } *)
  | error_json (error : string)                     (* { error: msg }   *)
  | message_json (message : string)                 (* { message: msg } *)
  | listing_json (rows : list task_listing)
  | task_json (row : option task)
  | collaborator_row_json (row : task_collaborator) (user : profile)
  | users_json (rows : list profile).

Record response := {
  res_status : nat;
  res_json : json
}.

Definition res (code : nat) (body : json) : response :=
  {| res_status := code; res_json := body |}.

(** ** SQL fragments shared by the queries *)

(** [a LEFT JOIN bs ON on]: the matching rows, or one NULL row. *)
Definition left_join {A B} (on : A → B → bool) (a : A) (bs : list B) : list (option B) :=
  match List.filter (on a) bs with
  | [] => [None]
  | m => Some <$> m
  end.

(** The rows of a LEFT JOIN that are not the NULL row
    ([FILTER (WHERE tc.id IS NOT NULL)]). *)
Definition not_null {B} (rows : list (option B)) : list B := omap id rows.

(** [json_agg] is NULL over no rows. *)
Definition json_agg (rows : list collaborator_json) : json_column :=
  match rows with
  | [] => json_null
  | _ => json_array rows
  end.

Definition COALESCE (c d : json_column) : json_column :=
  match c with
  | json_null => d
  | _ => c
  end.

(** [LEFT JOIN profiles p ON ... = p.id]: [id] is the primary key. *)
Definition profile_by_id (id : string) (w : world) : option profile :=
  List.find (λ p, bool_decide (p_id p = id)) (profiles w).

(** [SELECT * FROM tasks WHERE id = $1 AND created_by = $2] *)
Definition ownerQuery (taskId userId : string) (w : world) : list task :=
  List.filter (λ t, bool_decide (t_id t = taskId) && bool_decide (t_created_by t = userId))
    (tasks w).

(** ** GET / *)

Definition json_build_object (w : world) (tc : task_collaborator) : collaborator_json :=
  let cp := profile_by_id (tc_user_id tc) w in
  {| cj_id := tc_id tc;
     cj_user_id := tc_user_id tc;
     cj_permission := tc_permission tc;
     cj_user_name := p_name <$> cp;
     cj_user_email := p_email <$> cp;
     cj_user_avatar := cp ≫= p_avatar_url |}.

(** The WHERE clause: own tasks and tasks shared with [userId]. *)
Definition listed_for (userId : string) (w : world) (t : task) : bool :=
  bool_decide (t_created_by t = userId)
  || bool_decide (t_id t ∈ tc_task_id <$>
       List.filter (λ tc, bool_decide (tc_user_id tc = userId)) (task_collaborators w)).

(** One group of [GROUP BY t.id, p.name, p.email, p.avatar_url]. *)
Definition listing (w : world) (t : task) : task_listing :=
  let p := profile_by_id (t_created_by t) w in
  let tcs := left_join (λ t tc, bool_decide (t_id t = tc_task_id tc)) t (task_collaborators w) in
  {| l_task := t;
     creator_name := p_name <$> p;
     creator_email := p_email <$> p;
     creator_avatar := p ≫= p_avatar_url;
     collaborators :=
       COALESCE (json_agg (json_build_object w <$> not_null tcs)) (json_array []) |}.

(** [ORDER BY t.created_at DESC] *)
Definition created_at_desc (a b : task_listing) : Prop :=
  t_created_at (l_task b) ≤ t_created_at (l_task a).

#[global] Instance created_at_desc_dec : RelDecision created_at_desc :=
  λ a b, decide (t_created_at (l_task b) ≤ t_created_at (l_task a)).

Definition list_query (userId : string) (w : world) : list task_listing :=
  merge_sort created_at_desc (listing w <$> List.filter (listed_for userId w) (tasks w)).

Definition get_tasks (user : profile) (w : world) : response * world :=
  (res 200 (listing_json (list_query (p_id user) w)), w).

Section Routes.

(** Library functions the routes call, whose code is outside this
    repository: validator.js's [isEmail] and [isISO8601], and [new Date(s)]
    as it reaches the store ([None] for an Invalid Date, which the store
    rejects). *)
Variable isEmail : string → bool.
Variable isISO8601 : string → bool.
Variable toDate : string → option Z.

(** ** POST / *)

(** The validation chains of POST /; the second component is [req.body]
    after the sanitizers. *)
Definition validate_create (b : task_body) : list (string * string) * task_body :=
  let title' := Validator.trim (default "" (title b)) in
  ((Validator.failure (Validator.isLength 1 255 title') "title"
     "Title is required and must be less than 255 characters"
   ++ Validator.failure (Validator.optional (Validator.isLength 0 1000) (description b))
        "description" "Description must be less than 1000 characters"
   ++ Validator.failure
        (Validator.optional (Validator.isIn ["pending"; "in_progress"; "completed"]) (status b))
        "status" "Invalid status"
   ++ Validator.failure
        (Validator.optional (Validator.isIn ["low"; "medium"; "high"]) (priority b))
        "priority" "Invalid priority"
   ++ Validator.failure (Validator.optional isISO8601 (due_date b))
        "due_date" "Invalid due date format")%list,
   {| title := Some title'; description := description b; status := status b;
      priority := priority b; due_date := due_date b |}).

(** [due_date ? new Date(due_date) : null]; the outer [None] is a value
    the store rejects. *)
Definition create_due_date (d : option string) : option (option Z) :=
  match d with
  | None => Some None
  | Some s => if bool_decide (s = "") then Some None else Some <$> toDate s
  end.

(** [INSERT INTO tasks ... RETURNING *]; [id] is the primary key. *)
Definition insert_task (row : task) (w : world) : option world :=
  if bool_decide (t_id row ∈ t_id <$> tasks w) then None
  else Some (with_tasks (tasks w ++ [row]) w).

Definition post_task (user : profile) (body : task_body) (newid : string) (now : Z)
    (w : world) : response * world :=
  let '(errors, body) := validate_create body in
  if negb (bool_decide (errors = [])) then (res 400 (errors_json errors), w) else
  let failed := (res 500 (error_json "Failed to create task"), w) in
  match create_due_date (due_date body) with
  | None => failed
  | Some due =>
    let row :=
      {| t_id := newid;
         t_title := default "" (title body);
         t_description := default "" (description body);
         t_status := default "pending" (status body);
         t_priority := default "medium" (priority body);
         t_due_date := due;
         t_created_by := p_id user;
         t_created_at := now;
         t_updated_at := now |} in
    match insert_task row w with
    | None => failed
    | Some w' => (res 201 (task_json (Some row)), emit (task_created row user) w')
    end
  end.

(** ** PUT /:id *)

Definition validate_update (b : task_body) : list (string * string) * task_body :=
  let title' := Validator.trim <$> title b in
  ((Validator.failure (Validator.optional (Validator.isLength 1 255) title')
      "title" "Invalid value"
    ++ Validator.failure (Validator.optional (Validator.isLength 0 1000) (description b))
         "description" "Invalid value"
    ++ Validator.failure
         (Validator.optional (Validator.isIn ["pending"; "in_progress"; "completed"]) (status b))
         "status" "Invalid value"
    ++ Validator.failure
         (Validator.optional (Validator.isIn ["low"; "medium"; "high"]) (priority b))
         "priority" "Invalid value"
    ++ Validator.failure (Validator.optional isISO8601 (due_date b))
         "due_date" "Invalid value")%list,
   {| title := title'; description := description b; status := status b;
      priority := priority b; due_date := due_date b |}).

(** [SELECT t.*, tc.permission FROM tasks t
     LEFT JOIN task_collaborators tc ON t.id = tc.task_id AND tc.user_id = $2
     WHERE t.id = $1 AND (t.created_by = $2 OR tc.permission = 'write')] *)
Definition permissionQuery (taskId userId : string) (w : world)
    : list (task * option task_collaborator) :=
  List.filter
    (λ '(t, tc),
       bool_decide (t_id t = taskId)
       && (bool_decide (t_created_by t = userId)
           || bool_decide (tc_permission <$> tc = Some "write")))
    (t ← tasks w;
     pair t <$> left_join
       (λ t tc, bool_decide (t_id t = tc_task_id tc) && bool_decide (tc_user_id tc = userId))
       t (task_collaborators w)).

(** The SET clauses pushed by the loop over [Object.keys(req.body)]. *)
Definition updates (b : task_body) : list string :=
  ((if title b is Some _ then ["title"] else [])
   ++ (if description b is Some _ then ["description"] else [])
   ++ (if status b is Some _ then ["status"] else [])
   ++ (if priority b is Some _ then ["priority"] else [])
   ++ (if due_date b is Some _ then ["due_date"] else []))%list.

(** [key === 'due_date' && req.body[key] ? new Date(req.body[key]) : req.body[key]]:
    [None] is a value the store rejects, [Some None] no assignment. *)
Definition update_due_date (d : option string) : option (option Z) :=
  match d with
  | None => Some None
  | Some s => if bool_decide (s = "") then None else Some <$> toDate s
  end.

Definition set_columns (b : task_body) (due : option Z) (now : Z) (t : task) : task :=
  {| t_id := t_id t;
     t_title := default (t_title t) (title b);
     t_description := default (t_description t) (description b);
     t_status := default (t_status t) (status b);
     t_priority := default (t_priority t) (priority b);
     t_due_date := if due is Some z then Some z else t_due_date t;
     t_created_by := t_created_by t;
     t_created_at := t_created_at t;
     t_updated_at := now |}.

(** [UPDATE tasks SET ..., updated_at = NOW() WHERE id = $n RETURNING *] *)
Definition update_tasks (taskId : string) (b : task_body) (due : option Z) (now : Z)
    (w : world) : list task * world :=
  let ts := (λ t, if bool_decide (t_id t = taskId) then set_columns b due now t else t)
              <$> tasks w in
  (List.filter (λ t, bool_decide (t_id t = taskId)) ts, with_tasks ts w).

(** The handler on a [taskId] that the store reads as a [uuid]
    ([Sql.uuid_in], below).  On other text the permission query throws,
    and a body that passed validation is answered 500 "Failed to update
    task". *)
Definition put_task (user : profile) (taskId : string) (body : task_body) (now : Z)
    (w : world) : response * world :=
  let '(errors, body) := validate_update body in
  if negb (bool_decide (errors = [])) then (res 400 (errors_json errors), w) else
  if bool_decide (List.length (permissionQuery taskId (p_id user) w) = 0%nat)
  then (res 403 (error_json "Permission denied"), w) else
  if bool_decide (List.length (updates body) = 0%nat)
  then (res 400 (error_json "No valid fields to update"), w) else
  match update_due_date (due_date body) with
  | None => (res 500 (error_json "Failed to update task"), w)
  | Some due =>
    let '(rows, w') := update_tasks taskId body due now w in
    (res 200 (task_json (head rows)), emit (task_updated (head rows) user) w')
  end.

(** ** DELETE /:id *)

(** Modelled from the spec: [server/database/schema.sql] is not among the
    sources; deleting a task removes all collaborator grants for that task
    (the cascade of the foreign key of [task_collaborators]). *)
Definition delete_tasks (taskId : string) (w : world) : world :=
  {| profiles := profiles w;
     tasks := List.filter (λ t, negb (bool_decide (t_id t = taskId))) (tasks w);
     task_collaborators :=
       List.filter (λ tc, negb (bool_decide (tc_task_id tc = taskId))) (task_collaborators w);
     emitted := emitted w |}.

Definition delete_task (user : profile) (taskId : string) (w : world) : response * world :=
  if bool_decide (List.length (ownerQuery taskId (p_id user) w) = 0%nat)
  then (res 403 (error_json "Permission denied"), w) else
  (res 200 (message_json "Task deleted successfully"),
   emit (task_deleted taskId user) (delete_tasks taskId w)).

(** ** POST /:id/collaborators *)

Definition validate_collaborator (b : collaborator_body) : list (string * string) :=
  (Validator.failure (isEmail (email b)) "email" "Valid email is required"
   ++ Validator.failure (Validator.isIn ["read"; "write"] (permission b))
        "permission" "Permission must be read or write")%list.

(** [SELECT * FROM profiles WHERE email = $1] *)
Definition userQuery (e : string) (w : world) : list profile :=
  List.filter (λ p, bool_decide (p_email p = e)) (profiles w).

(** [SELECT * FROM task_collaborators WHERE task_id = $1 AND user_id = $2] *)
Definition existingQuery (taskId userId : string) (w : world) : list task_collaborator :=
  List.filter (λ tc, bool_decide (tc_task_id tc = taskId) && bool_decide (tc_user_id tc = userId))
    (task_collaborators w).

(** [INSERT INTO task_collaborators ... RETURNING *]; [id] is the primary key. *)
Definition insert_collaborator (row : task_collaborator) (w : world) : option world :=
  if bool_decide (tc_id row ∈ tc_id <$> task_collaborators w) then None
  else Some (with_task_collaborators (task_collaborators w ++ [row]) w).

Definition post_collaborator (user : profile) (taskId : string) (body : collaborator_body)
    (newid : string) (now : Z) (w : world) : response * world :=
  let errors := validate_collaborator body in
  if negb (bool_decide (errors = [])) then (res 400 (errors_json errors), w) else
  if bool_decide (List.length (ownerQuery taskId (p_id user) w) = 0%nat)
  then (res 403 (error_json "Permission denied"), w) else
  match userQuery (email body) w with
  | [] => (res 404 (error_json "User not found"), w)
  | collaboratorUser :: _ =>
    if bool_decide (0 < List.length (existingQuery taskId (p_id collaboratorUser) w))%nat
    then (res 400 (error_json "User is already a collaborator"), w) else
    let row :=
      {| tc_id := newid; tc_task_id := taskId; tc_user_id := p_id collaboratorUser;
         tc_permission := permission body; tc_created_at := now |} in
    match insert_collaborator row w with
    | None => (res 500 (error_json "Failed to add collaborator"), w)
    | Some w' =>
      (res 201 (collaborator_row_json row collaboratorUser),
       emit (collaborator_added taskId row collaboratorUser user) w')
    end
  end.

End Routes.

(** ** DELETE /:id/collaborators/:userId *)

(** [DELETE FROM task_collaborators WHERE task_id = $1 AND user_id = $2] *)
Definition delete_collaborators (taskId userId : string) (w : world) : world :=
  with_task_collaborators
    (List.filter
       (λ tc, negb (bool_decide (tc_task_id tc = taskId) && bool_decide (tc_user_id tc = userId)))
       (task_collaborators w)) w.

(** The handler on a [taskId] and a [userId] that the store reads as a
    [uuid] ([Sql.uuid_in], below).  On other text for [userId] the owner's
    removal throws and is answered 500 "Failed to remove collaborator",
    nothing being emitted. *)
Definition delete_collaborator (user : profile) (taskId userId : string) (w : world)
    : response * world :=
  if bool_decide (List.length (ownerQuery taskId (p_id user) w) = 0%nat)
  then (res 403 (error_json "Permission denied"), w) else
  (res 200 (message_json "Collaborator removed successfully"),
   emit (collaborator_removed taskId userId user) (delete_collaborators taskId userId w)).

(** ** GET /search-users *)

Module Sql.

(** [string LIKE pattern] with the default escape character: [%] matches
    any run of characters, [_] any one character, and a backslash makes
    the next pattern character literal.  (A pattern that ends in a lone
    backslash is an error in PostgreSQL; [%q%] never does.) *)
Fixpoint like (pattern : string) : string → bool :=
  match pattern with
  | EmptyString => λ s, bool_decide (s = "")
  | String c p =>
    if Ascii.eqb c "%" then
      fix any (s : string) : bool :=
        like p s || match s with
                    | EmptyString => false
                    | String _ s' => any s'
                    end
    else if Ascii.eqb c "_" then
      λ s, match s with
           | EmptyString => false
           | String _ s' => like p s'
           end
    else if Ascii.eqb c "\" then
      match p with
      | EmptyString => λ _, false
      | String e p' =>
        λ s, match s with
             | EmptyString => false
             | String x s' => Ascii.eqb e x && like p' s'
             end
      end
    else
      λ s, match s with
           | EmptyString => false
           | String x s' => Ascii.eqb c x && like p s'
           end
  end.

Definition lower_ascii (c : ascii) : ascii :=
  let n := Ascii.nat_of_ascii c in
  if (65 <=? n)%nat && (n <=? 90)%nat then Ascii.ascii_of_nat (n + 32) else c.

Fixpoint lower (s : string) : string :=
  match s with
  | EmptyString => EmptyString
  | String c s' => String (lower_ascii c) (lower s')
  end.

(** [string ILIKE pattern]: LIKE on the lower-cased operands. *)
Definition ILIKE (s pattern : string) : bool := like (lower pattern) (lower s).

(** The text a [uuid] column reads (PostgreSQL's [uuid_in]): sixteen
    bytes of two hexadecimal digits each, in either case; a hyphen may
    follow a byte of odd index other than the last, that is, any group
    of four digits; the whole may stand in braces.  A parameter compared
    with [tasks.id], [tasks.created_by], [task_collaborators.task_id] or
    [task_collaborators.user_id] is read so, and any other text makes
    the statement throw. *)
Definition is_xdigit (c : ascii) : bool :=
  let n := Ascii.nat_of_ascii c in
  ((48 <=? n)%nat && (n <=? 57)%nat)
  || ((65 <=? n)%nat && (n <=? 70)%nat)
  || ((97 <=? n)%nat && (n <=? 102)%nat).

(** Reads [n] bytes, the next one of index [i]; returns what follows. *)
Fixpoint uuid_bytes (n i : nat) (src : string) : option string :=
  match n with
  | O => Some src
  | S n' =>
    match src with
    | String a (String b src') =>
      if is_xdigit a && is_xdigit b then
        match src' with
        | String c rest =>
          if Ascii.eqb c "-" && Nat.odd i && (i <? 15)%nat
          then uuid_bytes n' (S i) rest
          else uuid_bytes n' (S i) src'
        | EmptyString => uuid_bytes n' (S i) src'
        end
      else None
    | _ => None
    end
  end.

Definition uuid_in (source : string) : bool :=
  match source with
  | String c src =>
    if Ascii.eqb c "{"
    then bool_decide (uuid_bytes 16 0 src = Some "}")
    else bool_decide (uuid_bytes 16 0 source = Some "")
  | EmptyString => false
  end.

End Sql.

(** [SELECT id, email, name, avatar_url FROM profiles
     WHERE (email ILIKE $1 OR name ILIKE $1) AND id != $2 LIMIT 10] *)
Definition search_query (pattern userId : string) (w : world) : list profile :=
  take 10
    (List.filter
       (λ p, (Sql.ILIKE (p_email p) pattern || Sql.ILIKE (p_name p) pattern)
             && negb (bool_decide (p_id p = userId)))
       (profiles w)).

Definition get_search_users (user : profile) (q : option string) (w : world)
    : response * world :=
  match q with
  | None => (res 200 (users_json []), w)
  | Some q =>
    if bool_decide (q = "") || (String.length q <? 2)%nat
    then (res 200 (users_json []), w)
    else (res 200 (users_json (search_query ("%" +:+ q +:+ "%") (p_id user) w)), w)
  end.

(** ** The socket listeners of TaskContext.tsx *)

Module TaskContext.

(** A value received over the socket or from the API. *)
#[local] Set Warnings "-register-all".
Inductive value :=
  | null
  | boolean (b : bool)
  | num (n : Z)
  | str (s : string)
  | array (elements : list value)
  | object (fields : list (string * value)).
#[local] Set Warnings "register-all".

(** A task of the local state: a JS object, from property name to value.
    A property that is not set reads as [undefined] ([None]). *)
Abbreviation Task := (gmap string value).

(** [a === b] on property reads.  Arrays and objects are compared by
    reference, and those of an incoming payload are fresh. *)
Definition strict_eq (a b : option value) : bool :=
  match a, b with
  | None, None => true
  | Some null, Some null => true
  | Some (boolean x), Some (boolean y) => bool_decide (x = y)
  | Some (num x), Some (num y) => bool_decide (x = y)
  | Some (str x), Some (str y) => bool_decide (x = y)
  | _, _ => false
  end.

(** [{ ...task, ...data.task }]: the properties of [data.task] win. *)
Definition spread (task data_task : Task) : Task := data_task ∪ task.

(** [setTasks(prev => [data.task, ...prev])] *)
Definition on_task_created (data_task : Task) (prev : list Task) : list Task :=
  data_task :: prev.

(** [setTasks(prev => prev.map(task =>
       task.id === data.task.id ? { ...task, ...data.task } : task))] *)
Definition on_task_updated (data_task : Task) (prev : list Task) : list Task :=
  (λ task, if strict_eq (task !! "id") (data_task !! "id")
           then spread task data_task else task) <$> prev.

(** [setTasks(prev => prev.filter(task => task.id !== data.taskId))] *)
Definition on_task_deleted (taskId : string) (prev : list Task) : list Task :=
  List.filter (λ task, negb (strict_eq (task !! "id") (Some (str taskId)))) prev.

(** The ids of the local list, in order. *)
Definition ids (prev : list Task) : list (option value) := (λ task, task !! "id") <$> prev.

Section Payload.

(** [Date.prototype.toJSON], which serialises the timestamps of a row. *)
Variable toISOString : Z → string.

(** The JSON of a row of [tasks] ([result.rows[0]] of [RETURNING *]), as
    the [task] of a [task_created] or [task_updated] payload. *)
Definition row_object (t : task) : Task :=
  list_to_map
    [ ("id", str (t_id t));
      ("title", str (t_title t));
      ("description", str (t_description t));
      ("status", str (t_status t));
      ("priority", str (t_priority t));
      ("due_date", if t_due_date t is Some d then str (toISOString d) else null);
      ("created_by", str (t_created_by t));
      ("created_at", str (toISOString (t_created_at t)));
      ("updated_at", str (toISOString (t_updated_at t))) ].

End Payload.

End TaskContext.

(** ** The vocabulary of the specification *)

Module Spec.

(** [principal] holds a collaborator grant on [t], with any permission. *)
Definition holds_grant (userId : string) (t : task) (w : world) : Prop :=
  ∃ tc, tc ∈ task_collaborators w ∧ tc_task_id tc = t_id t ∧ tc_user_id tc = userId.

(** [can(principal, task, write)]: the owner, or the holder of a [write]
    collaborator grant. *)
Definition can_write (userId : string) (t : task) (w : world) : bool :=
  bool_decide (t_created_by t = userId)
  || bool_decide (Exists (λ tc, tc_task_id tc = t_id t ∧ tc_user_id tc = userId
                               ∧ tc_permission tc = "write") (task_collaborators w)).

(** The field constraints of a task, on a create request: title of 1 to
    255 characters once trimmed, description of at most 1000 characters,
    status and priority in their enumerations, an ISO-8601 due date. *)
Definition create_constraints (isISO8601 : string → bool) (b : task_body) : bool :=
  Validator.isLength 1 255 (Validator.trim (default "" (title b)))
  && Validator.optional (Validator.isLength 0 1000) (description b)
  && Validator.optional (Validator.isIn ["pending"; "in_progress"; "completed"]) (status b)
  && Validator.optional (Validator.isIn ["low"; "medium"; "high"]) (priority b)
  && Validator.optional isISO8601 (due_date b).

(** [q] occurs in [s]. *)
Fixpoint includes (q s : string) : bool :=
  String.prefix q s
  || match s with
     | EmptyString => false
     | String _ s' => includes q s'
     end.

(** [s] contains [q] case-insensitively. *)
Definition contains (s q : string) : bool := includes (Sql.lower q) (Sql.lower s).

(** The characters that LIKE does not read literally. *)
Definition meta (c : ascii) : bool :=
  Ascii.eqb c "%" || Ascii.eqb c "_" || Ascii.eqb c "\".

(** [q] has no such character. *)
Fixpoint plain (q : string) : bool :=
  match q with
  | EmptyString => true
  | String c q' => negb (meta c) && plain q'
  end.

End Spec.

(** ** The router: method and path to handler *)

(** A request that reaches a route of the file, with the values the
    store generates while serving it. *)
Inductive request :=
  | GET_tasks
  | POST_task (body : task_body) (newid : string) (now : Z)
  | PUT_task (taskId : string) (body : task_body) (now : Z)
  | DELETE_task (taskId : string)
  | POST_collaborator (taskId : string) (body : collaborator_body) (newid : string) (now : Z)
  | DELETE_collaborator (taskId userId : string)
  | GET_search_users (q : option string).

(** The requests that are not reads. *)
Definition mutating (req : request) : bool :=
  match req with
  | GET_tasks | GET_search_users _ => false
  | _ => true
  end.

Section Router.

Variable isEmail : string → bool.
Variable isISO8601 : string → bool.
Variable toDate : string → option Z.

(** [router.use(authenticateToken)] supplies [req.user]. *)
Definition handle (user : profile) (req : request) (w : world) : response * world :=
  match req with
  | GET_tasks => get_tasks user w
  | POST_task body newid now => post_task isISO8601 toDate user body newid now w
  | PUT_task taskId body now => put_task isISO8601 toDate user taskId body now w
  | DELETE_task taskId => delete_task user taskId w
  | POST_collaborator taskId body newid now =>
      post_collaborator isEmail user taskId body newid now w
  | DELETE_collaborator taskId userId => delete_collaborator user taskId userId w
  | GET_search_users q => get_search_users user q w
  end.

(** Requests served one after the other. *)
Fixpoint serve (reqs : list (profile * request)) (w : world) : world :=
  match reqs with
  | [] => w
  | (user, req) :: reqs => serve reqs (handle user req w).2
  end.

End Router.

(** ** Conditions on the tables that the routes maintain *)

(** The primary keys of [tasks] and [task_collaborators]. *)
Definition keys_unique (w : world) : Prop :=
  NoDup (t_id <$> tasks w) ∧ NoDup (tc_id <$> task_collaborators w).

(** At most one grant per task and user. *)
Definition grants_unique (w : world) : Prop :=
  NoDup ((λ tc, (tc_task_id tc, tc_user_id tc)) <$> task_collaborators w).

(** The values that the validation chains let through. *)
Definition stored_task_valid (t : task) : Prop :=
  Validator.isLength 1 255 (t_title t) = true
  ∧ Validator.isLength 0 1000 (t_description t) = true
  ∧ t_status t ∈ ["pending"; "in_progress"; "completed"]
  ∧ t_priority t ∈ ["low"; "medium"; "high"].

Definition fields_valid (w : world) : Prop :=
  Forall stored_task_valid (tasks w)
  ∧ Forall (λ tc, tc_permission tc ∈ ["read"; "write"]) (task_collaborators w).

(** Every grant is held by a registered profile. *)
Definition grants_registered (w : world) : Prop :=
  Forall (λ tc, tc_user_id tc ∈ p_id <$> profiles w) (task_collaborators w).

(** ** TaskCard: what the card of a listed task offers *)

Module TaskCard.

(** [user?.id] *)
Definition user_id (user : option profile) : option string := p_id <$> user.

(** [const isOwner = user?.id === task.created_by] *)
Definition isOwner (user : option profile) (task : task_listing) : bool :=
  bool_decide (user_id user = Some (t_created_by (l_task task))).

(** [const canEdit = isOwner || task.collaborators?.some(c =>
       c.user_id === user?.id && c.permission === 'write')] *)
Definition canEdit (user : option profile) (task : task_listing) : bool :=
  isOwner user task
  || match collaborators task with
     | json_null => false
     | json_array cs =>
       existsb (λ c, bool_decide (Some (cj_user_id c) = user_id user)
                     && bool_decide (cj_permission c = "write")) cs
     end.

(** The status that a click on the status badge asks for. *)
Definition next_status (s : string) : string :=
  if bool_decide (s = "pending") then "in_progress"
  else if bool_decide (s = "in_progress") then "completed"
  else "pending".

(** [handleStatusChange]: the update it sends, if any. *)
Definition handleStatusChange (user : option profile) (task : task_listing)
    (newStatus : string) : option (string * task_body) :=
  if negb (canEdit user task) then None
  else Some (t_id (l_task task),
             {| title := None; description := None; status := Some newStatus;
                priority := None; due_date := None |}).

(** The click on the badge: [canEdit && handleStatusChange(...)]. *)
Definition status_click (user : option profile) (task : task_listing)
    : option (string * task_body) :=
  if canEdit user task
  then handleStatusChange user task (next_status (t_status (l_task task)))
  else None.

(** [handleDelete]: the id it asks to delete, if any, given the answer to
    [window.confirm]. *)
Definition handleDelete (user : option profile) (task : task_listing) (confirmed : bool)
    : option string :=
  if negb (isOwner user task) then None
  else if confirmed then Some (t_id (l_task task)) else None.

End TaskCard.

(** ** Dashboard: the filters and the counters *)

Module Dashboard.

Inductive filter := all | my | shared | today | completed.

(** [String.prototype.toLowerCase] and [includes] on ASCII text. *)
Definition toLowerCase (s : string) : string := Sql.lower s.

Fixpoint includes (s q : string) : bool :=
  String.prefix q s
  || match s with
     | EmptyString => false
     | String _ s' => includes s' q
     end.

Section Dates.

(** [Date.prototype.toDateString], on the instant of a timestamp. *)
Variable toDateString : Z → string.

(** The predicate of [tasks.filter(task => ...)]; [now] is [new Date()]. *)
Definition shown (user : option profile) (searchQuery : string) (f : filter) (now : Z)
    (task : task_listing) : bool :=
  if negb (bool_decide (searchQuery = ""))
     && negb (includes (toLowerCase (t_title (l_task task))) (toLowerCase searchQuery))
  then false
  else
    match f with
    | my => bool_decide (Some (t_created_by (l_task task)) = p_id <$> user)
    | shared => negb (bool_decide (Some (t_created_by (l_task task)) = p_id <$> user))
    | today =>
      match t_due_date (l_task task) with
      | Some d => bool_decide (toDateString d = toDateString now)
      | None => false
      end
    | completed => bool_decide (t_status (l_task task) = "completed")
    | all => true
    end.

Definition filteredTasks (user : option profile) (searchQuery : string) (f : filter)
    (now : Z) (tasks : list task_listing) : list task_listing :=
  List.filter (shown user searchQuery f now) tasks.

End Dates.

Record stats := {
  total : nat;
  pending : nat;
  inProgress : nat;
  completed_count : nat;
  shared_count : nat
}.

Definition count_status (s : string) (tasks : list task_listing) : nat :=
  List.length (List.filter (λ t, bool_decide (t_status (l_task t) = s)) tasks).

(** [const taskStats = { total, pending, inProgress, completed, shared }] *)
Definition taskStats (user : option profile) (tasks : list task_listing) : stats :=
  {| total := List.length tasks;
     pending := count_status "pending" tasks;
     inProgress := count_status "in_progress" tasks;
     completed_count := count_status "completed" tasks;
     shared_count :=
       List.length
         (List.filter
            (λ t, negb (bool_decide (Some (t_created_by (l_task t)) = p_id <$> user)))
            tasks) |}.

End Dashboard.

(** ** SocketManager: the registry of listeners of lib/socket.ts *)

Module SocketManager.

(** A function given to [on]; functions are compared by identity. *)
Inductive callback :=
  | listener (n : nat)
  | connect_handler (userId : option string)
  | disconnect_handler.

#[global] Instance callback_eq_dec : EqDecision callback.
Proof. solve_decision. Defined.

(** A call that the manager makes on its socket.io socket. *)
Inductive call :=
  | socket_on (event : string) (cb : callback)
  | socket_off (event : string) (cb : option callback)
  | socket_emit (event data : string)
  | socket_disconnect.

(** [Map<string, Function[]>], in insertion order. *)
Abbreviation registry := (list (string * list callback)).

Definition has (event : string) (m : registry) : bool :=
  bool_decide (event ∈ m.*1).

Definition get (event : string) (m : registry) : option (list callback) :=
  snd <$> List.find (λ kv, bool_decide (kv.1 = event)) m.

Definition set (event : string) (cbs : list callback) (m : registry) : registry :=
  if has event m
  then (λ kv, if bool_decide (kv.1 = event) then (event, cbs) else kv) <$> m
  else m ++ [(event, cbs)].

Definition delete (event : string) (m : registry) : registry :=
  List.filter (λ kv, negb (bool_decide (kv.1 = event))) m.

(** [index = callbacks.indexOf(callback); if (index > -1) callbacks.splice(index, 1)] *)
Fixpoint splice_first (cb : callback) (cbs : list callback) : list callback :=
  match cbs with
  | [] => []
  | x :: cbs' => if bool_decide (x = cb) then cbs' else x :: splice_first cb cbs'
  end.

(** The manager: the calls made on the current socket, if there is one,
    and the registry. *)
Record manager := {
  socket : option (list call);
  listeners : registry
}.

Definition on_socket (c : call) (m : manager) : option (list call) :=
  (λ calls, calls ++ [c]) <$> socket m.

Definition on (event : string) (cb : callback) (m : manager) : manager :=
  let m1 := if has event (listeners m) then listeners m else set event [] (listeners m) in
  let m2 := match get event m1 with
            | Some cbs => set event (cbs ++ [cb]) m1
            | None => m1
            end in
  {| socket := on_socket (socket_on event cb) m; listeners := m2 |}.

Definition off (event : string) (cb : option callback) (m : manager) : manager :=
  match cb with
  | Some cb =>
    {| socket := on_socket (socket_off event (Some cb)) m;
       listeners := match get event (listeners m) with
                    | Some cbs => set event (splice_first cb cbs) (listeners m)
                    | None => listeners m
                    end |}
  | None =>
    {| socket := on_socket (socket_off event None) m;
       listeners := delete event (listeners m) |}
  end.

(** [connect(userId)]; [connected] is the [connected] flag of the current
    socket. *)
Definition connect (userId : option string) (connected : bool) (m : manager) : manager :=
  if bool_decide (is_Some (socket m)) && connected then m
  else
    {| socket :=
         Some ([socket_on "connect" (connect_handler userId);
                socket_on "disconnect" disconnect_handler]
               ++ ('(event, cbs) ← listeners m; socket_on event <$> cbs));
       listeners := listeners m |}.

Definition disconnect (m : manager) : manager :=
  {| socket := None; listeners := listeners m |}.

Definition emit (event data : string) (m : manager) : manager :=
  {| socket := on_socket (socket_emit event data) m; listeners := listeners m |}.

(** The functions passed to [socket.on(event, ...)] by a sequence of
    calls, in order. *)
Definition handlers_added (event : string) (calls : list call) : list callback :=
  omap (λ c, match c with
             | socket_on e cb => if bool_decide (e = event) then Some cb else None
             | _ => None
             end) calls.

(** [new SocketManager()] *)
Definition new : manager := {| socket := None; listeners := [] |}.

End SocketManager.

(** ** Sample data: three principals and the scenarios of the specification *)

Module Sample.

Definition isEmail (s : string) : bool := Spec.includes "@" s.
Definition isISO8601 (s : string) : bool := bool_decide (s = "2026-01-31").
Definition toDate (s : string) : option Z :=
  if bool_decide (s = "2026-01-31") then Some 1769817600000 else None.
Definition toISOString (d : Z) : string :=
  if bool_decide (d = 1769817600000) then "2026-01-31T00:00:00.000Z" else "1970-01-01T00:00:00.000Z".

Definition U1 : profile :=
  {| p_id := "u1"; p_email := "una@example.org"; p_name := "Una"; p_avatar_url := None |}.
Definition U2 : profile :=
  {| p_id := "u2"; p_email := "dos@example.org"; p_name := "Dos"; p_avatar_url := None |}.
Definition U3 : profile :=
  {| p_id := "u3"; p_email := "tres@example.org"; p_name := "Tres"; p_avatar_url := None |}.

Definition no_fields : task_body :=
  {| title := None; description := None; status := None; priority := None;
     due_date := None |}.

Definition draft_report : task_body :=
  {| title := Some "Draft report"; description := None; status := None; priority := None;
     due_date := None |}.

Definition completed : task_body :=
  {| title := None; description := None; status := Some "completed"; priority := None;
     due_date := None |}.

Definition archived : task_body :=
  {| title := None; description := None; status := Some "archived"; priority := None;
     due_date := None |}.

Definition padded_title : task_body :=
  {| title := Some " Draft report "; description := None; status := None;
     priority := None; due_date := None |}.

Definition blank_title : task_body :=
  {| title := Some " "; description := None; status := None; priority := None;
     due_date := None |}.

Definition empty_world : world :=
  {| profiles := [U1; U2; U3]; tasks := []; task_collaborators := []; emitted := [] |}.

(** Scenario A: U1 creates "Draft report". *)
Definition after_create : world :=
  snd (post_task isISO8601 toDate U1 draft_report "t1" 100 empty_world).

(** Scenario B: U1 shares the task with U2 at [write]. *)
Definition after_share : world :=
  snd (post_collaborator isEmail U1 "t1"
         {| email := "dos@example.org"; permission := "write" |} "c1" 200 after_create).

Definition the_task : task :=
  {| t_id := "t1"; t_title := "Draft report"; t_description := ""; t_status := "pending";
     t_priority := "medium"; t_due_date := None; t_created_by := "u1";
     t_created_at := 100; t_updated_at := 100 |}.

Definition the_grant : task_collaborator :=
  {| tc_id := "c1"; tc_task_id := "t1"; tc_user_id := "u2"; tc_permission := "write";
     tc_created_at := 200 |}.

(** The local task of a session that fetched the list after scenario A. *)
Definition local_task : TaskContext.Task :=
  <["creator_name" := TaskContext.str "Una"]>
    (<["creator_email" := TaskContext.str "una@example.org"]>
       (<["creator_avatar" := TaskContext.null]>
          (<["collaborators" := TaskContext.array []]>
             (TaskContext.row_object toISOString the_task)))).

(** Scenarios A and B under keys as the store generates them. *)
Definition Una : profile :=
  {| p_id := "6f1c2f0a-1d3b-4c5e-8f7a-9b0c1d2e3f40"; p_email := "una@example.org";
     p_name := "Una"; p_avatar_url := None |}.
Definition Dos : profile :=
  {| p_id := "0b9e8d7c-6a5f-4e3d-9c2b-1a0f9e8d7c6b"; p_email := "dos@example.org";
     p_name := "Dos"; p_avatar_url := None |}.
Definition Tres : profile :=
  {| p_id := "c2d3e4f5-a6b7-4c8d-9e0f-a1b2c3d4e5f6"; p_email := "tres@example.org";
     p_name := "Tres"; p_avatar_url := None |}.

Definition task_key : string := "3c4d5e6f-7a8b-4c9d-8e0f-1a2b3c4d5e6f".
Definition grant_key : string := "9a8b7c6d-5e4f-4a3b-8c2d-1e0f9a8b7c6d".

Definition created : world :=
  snd (post_task isISO8601 toDate Una draft_report task_key 100
         {| profiles := [Una; Dos; Tres]; tasks := []; task_collaborators := [];
            emitted := [] |}).

Definition shared : world :=
  snd (post_collaborator isEmail Una task_key
         {| email := "dos@example.org"; permission := "write" |} grant_key 200 created).

Definition stored_task : task :=
  {| t_id := task_key; t_title := "Draft report"; t_description := "";
     t_status := "pending"; t_priority := "medium"; t_due_date := None;
     t_created_by := p_id Una; t_created_at := 100; t_updated_at := 100 |}.

(** A second task, of U2. *)
Definition other_task : task :=
  {| t_id := "t2"; t_title := "Review budget"; t_description := ""; t_status := "in_progress";
     t_priority := "high"; t_due_date := Some 1769817600000; t_created_by := "u2";
     t_created_at := 150; t_updated_at := 150 |}.

(** Scenarios A and B, then U3's refused update and delete, U1's removal
    of the grant and U1's delete of the task. *)
Definition session : list (profile * request) :=
  [ (U1, POST_task draft_report "t1" 100);
    (U1, POST_collaborator "t1" {| email := "dos@example.org"; permission := "write" |}
           "c1" 200);
    (U2, PUT_task "t1" completed 300);
    (U3, PUT_task "t1" completed 310);
    (U3, DELETE_task "t1");
    (U1, GET_tasks);
    (U1, DELETE_collaborator "t1" "u2");
    (U1, DELETE_task "t1") ].

End Sample.

(** * Properties of the socket listeners *)

Module TaskContextFacts.
Import TaskContext.

Lemma spread_lookup (task data_task : Task) (k : string) :
  spread task data_task !! k =
    match data_task !! k with
    | Some v => Some v
    | None => task !! k
    end.
Proof.
  unfold spread. rewrite lookup_union.
  destruct (data_task !! k) as [v|] eqn:Hk.
  - by destruct (task !! k).
  - by rewrite (left_id None _).
Qed.

Lemma on_task_updated_lookup (data_task : Task) (prev : list Task) (i : nat) :
  on_task_updated data_task prev !! i =
    (λ task, if strict_eq (task !! "id") (data_task !! "id")
             then spread task data_task else task) <$> prev !! i.
Proof. unfold on_task_updated. apply list_lookup_fmap. Qed.

(** A row of [tasks] has none of the projection fields of GET /. *)
Lemma row_object_projection_fields (toISOString : Z → string) (t : task) :
  row_object toISOString t !! "creator_name" = None
  ∧ row_object toISOString t !! "creator_email" = None
  ∧ row_object toISOString t !! "creator_avatar" = None
  ∧ row_object toISOString t !! "collaborators" = None.
Proof. repeat split; reflexivity. Qed.

Lemma row_object_id (toISOString : Z → string) (t : task) :
  row_object toISOString t !! "id" = Some (str (t_id t)).
Proof. reflexivity. Qed.

(** C9, as the code has it: the [task_created] listener prepends the
    task of the record whether or not its id is already in the local list;
    the resulting list has no duplicate id exactly when the local list had
    none and the id of the record was absent from it. *)
Theorem task_created_prepends (data_task : Task) (prev : list Task) :
  on_task_created data_task prev = data_task :: prev
  ∧ (NoDup (ids (on_task_created data_task prev))
     ↔ (data_task !! "id" ∉ ids prev) ∧ NoDup (ids prev)).
Proof.
  split; [reflexivity|].
  unfold on_task_created, ids. rewrite fmap_cons. apply NoDup_cons.
Qed.

(** C9 fails as stated: re-applying the echo of a task that is already in
    the local list yields the task twice. *)
Lemma task_created_echo_duplicates :
  let echo := row_object Sample.toISOString Sample.the_task in
  ids [echo] = [Some (str "t1")]
  ∧ on_task_created echo [echo] = [echo; echo]
  ∧ ¬ NoDup (ids (on_task_created echo [echo])).
Proof.
  intros echo. split; [reflexivity|]. split; [reflexivity|].
  intros Hnd. apply NoDup_cons in Hnd as [Hnotin _].
  apply Hnotin. apply list_elem_of_here.
Qed.

(** C10: the [task_updated] listener keeps the list's positions; the task
    at a position whose id is not that of the record is left as it was;
    in the task whose id matches, each property present in the record's
    snapshot takes the snapshot's value and every other property keeps the
    local value.  For a snapshot that is a row of [tasks], as the server
    emits it, [creator_name], [creator_email], [creator_avatar] and
    [collaborators] keep their local values. *)
Theorem task_updated_frame (data_task : Task) (prev : list Task) (i : nat) (task : Task)
    (Hi : prev !! i = Some task) :
  (∃ task', on_task_updated data_task prev !! i = Some task'
     ∧ if strict_eq (task !! "id") (data_task !! "id")
       then ∀ k, task' !! k = match data_task !! k with
                               | Some v => Some v
                               | None => task !! k
                               end
       else task' = task)
  ∧ (∀ toISOString row, ∃ task',
       on_task_updated (row_object toISOString row) prev !! i = Some task'
       ∧ task' !! "creator_name" = task !! "creator_name"
       ∧ task' !! "creator_email" = task !! "creator_email"
       ∧ task' !! "creator_avatar" = task !! "creator_avatar"
       ∧ task' !! "collaborators" = task !! "collaborators").
Proof.
  split.
  - rewrite on_task_updated_lookup, Hi. simpl.
    destruct (strict_eq (task !! "id") (data_task !! "id")) eqn:Hid.
    + eexists. split; [reflexivity|]. intros k. apply spread_lookup.
    + eexists. split; reflexivity.
  - intros toISOString row.
    rewrite on_task_updated_lookup, Hi. simpl.
    destruct (strict_eq _ _).
    + eexists. split; [reflexivity|].
      rewrite !spread_lookup.
      destruct (row_object_projection_fields toISOString row) as (-> & -> & -> & ->).
      done.
    + eexists. split; [reflexivity|]. done.
Qed.

Lemma task_updated_frame_witness :
  let snapshot :=
    row_object Sample.toISOString
      (set_columns Sample.completed None 300 Sample.the_task) in
  [Sample.local_task] !! 0%nat = Some Sample.local_task
  ∧ ∃ task', on_task_updated snapshot [Sample.local_task] !! 0%nat = Some task'
      ∧ task' !! "status" = Some (str "completed")
      ∧ task' !! "creator_name" = Some (str "Una").
Proof.
  intros snapshot. split; [reflexivity|].
  destruct (task_updated_frame snapshot [Sample.local_task] 0 Sample.local_task eq_refl)
    as [(task' & Hlook & Hfields) _].
  exists task'. split; [exact Hlook|].
  change (strict_eq (Sample.local_task !! "id") (snapshot !! "id")) with true in Hfields.
  split; rewrite Hfields; reflexivity.
Defined.

End TaskContextFacts.

(** * Properties of the routes *)

(** Closes a decidable closed goal by evaluation. *)
Ltac by_evaluation := apply (bool_decide_unpack _); vm_compute; exact I.

(** ** Rows selected by the queries *)

Lemma filter_nil_iff {A} (f : A → bool) (l : list A) :
  List.filter f l = [] ↔ ∀ x, x ∈ l → f x = false.
Proof.
  induction l as [|a l IH]; simpl.
  - split; [|done]. intros _ x Hx. by apply elem_of_nil in Hx.
  - destruct (f a) eqn:Hfa.
    + split; [done|]. intros H. specialize (H a (list_elem_of_here _ _)). congruence.
    + rewrite IH. split.
      * intros H x [->|Hx]%elem_of_cons; auto.
      * intros H x Hx. apply H. by right.
Qed.

Lemma filter_filter_same {A} (f : A → bool) (l : list A) :
  List.filter f (List.filter f l) = List.filter f l.
Proof.
  induction l as [|a l IH]; simpl; [done|].
  destruct (f a) eqn:Hfa; simpl; [|done]. by rewrite Hfa, IH.
Qed.

Lemma length_zero_iff {A} (l : list A) : List.length l = 0%nat ↔ l = [].
Proof. destruct l; simpl; split; intros; done. Qed.

Lemma ownerQuery_nil_iff (taskId userId : string) (w : world) :
  ownerQuery taskId userId w = [] ↔
  ∀ t, t ∈ tasks w → ¬ (t_id t = taskId ∧ t_created_by t = userId).
Proof.
  unfold ownerQuery. rewrite filter_nil_iff.
  split; intros H t Ht.
  - intros [H1 H2]. specialize (H t Ht).
    rewrite !bool_decide_eq_true_2 in H by done. done.
  - apply not_true_is_false.
    intros [H1%bool_decide_eq_true H2%bool_decide_eq_true]%andb_prop.
    by apply (H t Ht).
Qed.

Lemma ownerQuery_owner (taskId userId : string) (w : world) (t : task) :
  t ∈ tasks w → t_id t = taskId → t_created_by t = userId →
  bool_decide (List.length (ownerQuery taskId userId w) = 0%nat) = false.
Proof.
  intros Ht Hid Hown. apply bool_decide_eq_false_2.
  rewrite length_zero_iff, ownerQuery_nil_iff. intros Hnone. by apply (Hnone t Ht).
Qed.

Lemma ownerQuery_deleted (taskId userId : string) (w : world) (e : event) :
  ownerQuery taskId userId (emit e (delete_tasks taskId w)) = [].
Proof.
  apply ownerQuery_nil_iff. simpl. intros t Ht [Hid _].
  apply list_elem_of_In, filter_In in Ht as [_ Hkeep].
  rewrite (bool_decide_eq_true_2 _ Hid) in Hkeep. done.
Qed.

Lemma left_join_rows {A B} (on : A → B → bool) (a : A) (bs : list B) (o : option B) :
  o ∈ left_join on a bs ↔
    match o with
    | Some b => b ∈ bs ∧ on a b = true
    | None => ∀ b, b ∈ bs → on a b = false
    end.
Proof.
  unfold left_join.
  destruct (List.filter (on a) bs) as [|b0 m] eqn:Hf.
  - pose proof (proj1 (filter_nil_iff _ _) Hf) as Hnil.
    rewrite list_elem_of_singleton. destruct o as [b|].
    + split; [done|]. intros [Hb Hon]. rewrite (Hnil b Hb) in Hon. done.
    + split; done.
  - rewrite <- Hf. destruct o as [b|].
    + rewrite list_elem_of_fmap. split.
      * intros (b' & [= ->] & Hb'). apply list_elem_of_In, filter_In in Hb'.
        by rewrite <- list_elem_of_In in Hb'.
      * intros [Hb Hon]. exists b. split; [done|].
        apply list_elem_of_In, filter_In. by rewrite <- list_elem_of_In.
    + split.
      * intros (b' & [=] & _)%list_elem_of_fmap.
      * intros Hnone. exfalso.
        assert (b0 ∈ List.filter (on a) bs) as Hb0 by (rewrite Hf; left).
        apply list_elem_of_In, filter_In in Hb0 as [Hb0 Hon].
        rewrite Hnone in Hon; [done|]. by apply list_elem_of_In.
Qed.

Lemma left_join_inhabited {A B} (on : A → B → bool) (a : A) (bs : list B) :
  ∃ o, o ∈ left_join on a bs.
Proof.
  unfold left_join. destruct (List.filter (on a) bs) as [|b m].
  - exists None. left.
  - exists (Some b). left.
Qed.

Lemma not_null_Some {B} (l : list B) : not_null (Some <$> l) = l.
Proof. induction l as [|x l IH]; [done|]. cbn. f_equal. exact IH. Qed.

Lemma not_null_left_join {A B} (on : A → B → bool) (a : A) (bs : list B) :
  not_null (left_join on a bs) = List.filter (on a) bs.
Proof.
  unfold left_join.
  destruct (List.filter (on a) bs) as [|b m]; [done|].
  apply not_null_Some.
Qed.

Lemma permissionQuery_row (taskId userId : string) (w : world) (t : task)
    (o : option task_collaborator) :
  (t, o) ∈ permissionQuery taskId userId w ↔
    t ∈ tasks w ∧ t_id t = taskId
    ∧ o ∈ left_join
        (λ t tc, bool_decide (t_id t = tc_task_id tc) && bool_decide (tc_user_id tc = userId))
        t (task_collaborators w)
    ∧ (t_created_by t = userId ∨ tc_permission <$> o = Some "write").
Proof.
  unfold permissionQuery.
  rewrite list_elem_of_In, filter_In, <- list_elem_of_In, list_elem_of_bind.
  split.
  - intros [(t' & Hrow & Ht') Hwhere].
    apply list_elem_of_fmap in Hrow as (o' & [= <- <-] & Ho).
    apply andb_prop in Hwhere as [Hid%bool_decide_eq_true Hor].
    apply orb_prop in Hor.
    repeat split; try done.
    destruct Hor as [H%bool_decide_eq_true|H%bool_decide_eq_true]; auto.
  - intros (Ht & Hid & Ho & Hor). split.
    + exists t. split; [|done]. apply list_elem_of_fmap. by exists o.
    + rewrite (bool_decide_eq_true_2 _ Hid). simpl.
      apply orb_true_iff.
      destruct Hor as [H|H]; [left|right]; by apply bool_decide_eq_true_2.
Qed.

Lemma can_write_iff (userId : string) (t : task) (w : world) :
  Spec.can_write userId t w = true ↔
    t_created_by t = userId
    ∨ ∃ tc, tc ∈ task_collaborators w ∧ tc_task_id tc = t_id t
            ∧ tc_user_id tc = userId ∧ tc_permission tc = "write".
Proof.
  unfold Spec.can_write.
  rewrite orb_true_iff, !bool_decide_eq_true, Exists_exists. done.
Qed.

(** The permission query of PUT /:id selects a row exactly when a task
    with that id is writable by the principal. *)
Lemma permissionQuery_nil_iff (taskId userId : string) (w : world) :
  permissionQuery taskId userId w = [] ↔
    ∀ t, t ∈ tasks w → t_id t = taskId → Spec.can_write userId t w = false.
Proof.
  split.
  - intros Hnil t Ht Hid. apply not_true_is_false. intros Hcan%can_write_iff.
    assert (∃ o, (t, o) ∈ permissionQuery taskId userId w) as [o Ho].
    { destruct Hcan as [Hown|(tc & Htc & Htask & Huser & Hperm)].
      - destruct (left_join_inhabited
          (λ t tc, bool_decide (t_id t = tc_task_id tc) && bool_decide (tc_user_id tc = userId))
          t (task_collaborators w)) as [o Ho].
        exists o. apply permissionQuery_row. auto.
      - exists (Some tc). apply permissionQuery_row. repeat split; try done.
        + apply left_join_rows. split; [done|].
          by rewrite !bool_decide_eq_true_2.
        + right. simpl. by rewrite Hperm. }
    rewrite Hnil in Ho. by apply elem_of_nil in Ho.
  - intros Hnone. destruct (permissionQuery taskId userId w) as [|[t o] rows] eqn:Hq; [done|].
    assert ((t, o) ∈ permissionQuery taskId userId w) as Hrow by (rewrite Hq; left).
    apply permissionQuery_row in Hrow as (Ht & Hid & Ho & Hor).
    specialize (Hnone t Ht Hid). apply not_true_iff_false in Hnone.
    exfalso. apply Hnone, can_write_iff.
    destruct Hor as [Hown|Hwrite]; [by left|right].
    destruct o as [tc|]; [|done]. simpl in Hwrite.
    apply left_join_rows in Ho
      as [Htc [H1%bool_decide_eq_true H2%bool_decide_eq_true]%andb_prop].
    exists tc. repeat split; try done. congruence.
Qed.

Lemma permissionQuery_unknown (taskId userId : string) (w : world) :
  taskId ∉ t_id <$> tasks w → permissionQuery taskId userId w = [].
Proof.
  intros Hunknown. apply permissionQuery_nil_iff. intros t Ht Hid.
  exfalso. apply Hunknown. apply list_elem_of_fmap. by exists t.
Qed.

Lemma userQuery_rows (e : string) (w : world) (p : profile) :
  p ∈ userQuery e w ↔ p ∈ profiles w ∧ p_email p = e.
Proof.
  unfold userQuery. rewrite list_elem_of_In, filter_In, <- list_elem_of_In.
  by rewrite bool_decide_eq_true.
Qed.

Lemma existingQuery_rows (taskId userId : string) (w : world) (tc : task_collaborator) :
  tc ∈ existingQuery taskId userId w ↔
    tc ∈ task_collaborators w ∧ tc_task_id tc = taskId ∧ tc_user_id tc = userId.
Proof.
  unfold existingQuery. rewrite list_elem_of_In, filter_In, <- list_elem_of_In.
  by rewrite andb_true_iff, !bool_decide_eq_true.
Qed.

(** ** Validation *)

Lemma failure_nil_iff (ok : bool) (param msg : string) :
  Validator.failure ok param msg = [] ↔ ok = true.
Proof. destruct ok; simpl; split; intros; done. Qed.

Lemma validate_create_ok (isISO8601 : string → bool) (b : task_body) :
  (validate_create isISO8601 b).1 = [] ↔ Spec.create_constraints isISO8601 b = true.
Proof.
  unfold validate_create, Spec.create_constraints. simpl.
  rewrite !app_nil, !failure_nil_iff, !andb_true_iff. tauto.
Qed.

Lemma validate_collaborator_ok (isEmail : string → bool) (b : collaborator_body) :
  isEmail (email b) = true → permission b ∈ ["read"; "write"] →
  validate_collaborator isEmail b = [].
Proof.
  intros HisEmail Hperm. unfold validate_collaborator, Validator.isIn.
  by rewrite HisEmail, (bool_decide_eq_true_2 _ Hperm).
Qed.

(** A body that fails validation is answered 400 before any query. *)
Lemma put_task_invalid (isISO8601 : string → bool) (toDate : string → option Z)
    (user : profile) (taskId : string) (body : task_body) (now : Z) (w : world) :
  (validate_update isISO8601 body).1 ≠ [] →
  put_task isISO8601 toDate user taskId body now w
  = (res 400 (errors_json (validate_update isISO8601 body).1), w).
Proof.
  intros Hne. unfold put_task.
  destruct (validate_update isISO8601 body) as [errors body']. simpl in *.
  by rewrite (bool_decide_eq_false_2 _ Hne).
Qed.

(** ** PUT /:id *)

Section UpdateByKey.

Variable f : task → task.
Hypothesis f_id : ∀ x, t_id (f x) = t_id x.

(** Under the primary key, updating the rows with the id of [t] updates
    the row [t] alone. *)
Lemma update_by_id_insert (ts : list task) (i : nat) (t : task) :
  NoDup (t_id <$> ts) → ts !! i = Some t →
  (λ x, if bool_decide (t_id x = t_id t) then f x else x) <$> ts = <[i := f t]> ts.
Proof.
  intros Hpk Hi. apply list_eq. intros j.
  rewrite list_lookup_fmap.
  destruct (decide (i = j)) as [<-|Hne].
  - rewrite list_lookup_insert_eq by (by eapply lookup_lt_Some).
    rewrite Hi. simpl. by rewrite bool_decide_eq_true_2.
  - rewrite list_lookup_insert_ne by done.
    destruct (ts !! j) as [x|] eqn:Hj; [|done]. simpl.
    rewrite bool_decide_eq_false_2; [done|].
    intros Heq. apply Hne.
    apply (NoDup_lookup (t_id <$> ts) i j (t_id t)); [done| |].
    + by rewrite list_lookup_fmap, Hi.
    + rewrite list_lookup_fmap, Hj. simpl. by rewrite Heq.
Qed.

(** ... and [RETURNING *] is the updated row. *)
Lemma returning_updated (ts : list task) (t : task) :
  NoDup (t_id <$> ts) → t ∈ ts →
  List.filter (λ x, bool_decide (t_id x = t_id t))
    ((λ x, if bool_decide (t_id x = t_id t) then f x else x) <$> ts) = [f t].
Proof.
  induction ts as [|x ts IH]; intros Hpk Ht.
  - by apply elem_of_nil in Ht.
  - rewrite fmap_cons in Hpk. apply NoDup_cons in Hpk as [Hx Hpk].
    rewrite fmap_cons. simpl.
    apply elem_of_cons in Ht as [->|Ht].
    + rewrite (bool_decide_eq_true_2 (t_id x = t_id x)) by done.
      rewrite (bool_decide_eq_true_2 _ (f_id x)). f_equal.
      apply filter_nil_iff. intros y Hy.
      apply list_elem_of_fmap in Hy as (z & -> & Hz).
      apply bool_decide_eq_false_2. intros Heq. apply Hx.
      apply list_elem_of_fmap. exists z. split; [|done].
      destruct (bool_decide (t_id z = t_id x)) eqn:Hzx.
      * by apply bool_decide_eq_true_1 in Hzx.
      * done.
    + assert (t_id x ≠ t_id t) as Hne.
      { intros Heq. apply Hx. rewrite Heq. apply list_elem_of_fmap. by exists t. }
      rewrite (bool_decide_eq_false_2 _ Hne).
      rewrite (bool_decide_eq_false_2 _ Hne). by apply IH.
Qed.

End UpdateByKey.

Lemma set_columns_id (b : task_body) (due : option Z) (now : Z) (t : task) :
  t_id (set_columns b due now t) = t_id t.
Proof. reflexivity. Qed.

(** The [uuid] type reads the canonical form, in either case, with or
    without hyphens or braces, and nothing else. *)
Lemma uuid_in_examples :
  Sql.uuid_in "a0eebc99-9c0b-4ef8-bb6d-6bb9bd380a11" = true
  ∧ Sql.uuid_in "A0EEBC99-9C0B-4EF8-BB6D-6BB9BD380A11" = true
  ∧ Sql.uuid_in "{a0eebc99-9c0b-4ef8-bb6d-6bb9bd380a11}" = true
  ∧ Sql.uuid_in "a0eebc999c0b4ef8bb6d6bb9bd380a11" = true
  ∧ Sql.uuid_in "a0ee-bc99-9c0b-4ef8-bb6d-6bb9-bd38-0a11" = true
  ∧ Sql.uuid_in "" = false
  ∧ Sql.uuid_in "t9" = false
  ∧ Sql.uuid_in "not-a-uuid" = false
  ∧ Sql.uuid_in "a0eebc99-9c0b-4ef8-bb6d-6bb9bd380a1" = false
  ∧ Sql.uuid_in "a0eebc99-9c0b-4ef8-bb6d-6bb9bd380a11-" = false
  ∧ Sql.uuid_in "a0e-ebc999c0b4ef8bb6d6bb9bd380a11" = false
  ∧ Sql.uuid_in "g0eebc99-9c0b-4ef8-bb6d-6bb9bd380a11" = false
  ∧ Sql.uuid_in " a0eebc99-9c0b-4ef8-bb6d-6bb9bd380a11" = false.
Proof. repeat split; vm_compute; reflexivity. Qed.




(** C5, as the code has it: for an existing task (ids being unique), a
    body that fails validation is answered 400 whoever asks; otherwise a
    principal who is neither the owner nor the holder of a [write] grant
    is answered 403 and the world, events included, is unchanged; the
    owner or the holder of a [write] grant is answered 400 when the body
    names no field, 500 when the store rejects the due date, and
    otherwise 200 with the updated row, which replaces the task in place,
    and exactly one [task_updated] event is appended. *)
Theorem put_task_permission (isISO8601 : string → bool) (toDate : string → option Z)
    (user : profile) (taskId : string) (body : task_body) (now : Z) (w : world)
    (i : nat) (t : task)
    (Hpk : NoDup (t_id <$> tasks w))
    (Hi : tasks w !! i = Some t)
    (Hid : t_id t = taskId) :
  let errors := (validate_update isISO8601 body).1 in
  let body' := (validate_update isISO8601 body).2 in
  put_task isISO8601 toDate user taskId body now w =
    if bool_decide (errors = []) then
      if Spec.can_write (p_id user) t w then
        if bool_decide (updates body' = []) then
          (res 400 (error_json "No valid fields to update"), w)
        else
          match update_due_date toDate (due_date body') with
          | None => (res 500 (error_json "Failed to update task"), w)
          | Some due =>
            let t' := set_columns body' due now t in
            (res 200 (task_json (Some t')),
             emit (task_updated (Some t') user) (with_tasks (<[i := t']> (tasks w)) w))
          end
      else (res 403 (error_json "Permission denied"), w)
    else (res 400 (errors_json errors), w).
Proof.
  intros errors body'. subst errors body'.
  destruct (decide ((validate_update isISO8601 body).1 = [])) as [Hvalid|Hinvalid].
  2:{ rewrite (bool_decide_eq_false_2 _ Hinvalid). by apply put_task_invalid. }
  rewrite (bool_decide_eq_true_2 _ Hvalid).
  unfold put_task.
  destruct (validate_update isISO8601 body) as [errors body'] eqn:Hv.
  simpl in *. subst errors. simpl.
  assert (t ∈ tasks w) as Ht by (by eapply list_elem_of_lookup_2).
  destruct (Spec.can_write (p_id user) t w) eqn:Hcan.
  - rewrite bool_decide_eq_false_2.
    2:{ rewrite length_zero_iff, permissionQuery_nil_iff. intros Hnone.
        rewrite (Hnone t Ht Hid) in Hcan. done. }
    destruct (updates body') as [|k ks] eqn:Hup.
    + by rewrite !bool_decide_eq_true_2.
    + rewrite !bool_decide_eq_false_2 by done.
      destruct (update_due_date toDate (due_date body')) as [due|]; [|done].
      unfold update_tasks. subst taskId.
      rewrite (returning_updated _ (set_columns_id body' due now)) by done.
      rewrite (update_by_id_insert (set_columns body' due now) _ i) by done.
      done.
  - rewrite bool_decide_eq_true_2; [done|].
    rewrite length_zero_iff, permissionQuery_nil_iff. intros t0 Ht0 Hid0.
    assert (t0 = t) as ->; [|done].
    apply list_elem_of_lookup_1 in Ht0 as [j Hj].
    assert (j = i) as ->; [|congruence].
    apply (NoDup_lookup (t_id <$> tasks w) j i taskId); [done| |].
    + by rewrite list_lookup_fmap, Hj; simpl; rewrite Hid0.
    + by rewrite list_lookup_fmap, Hi; simpl; rewrite Hid.
Qed.

(** Scenarios B and C: the write collaborator U2 completes the task; U3,
    who holds no grant, is refused. *)
Lemma put_task_permission_witness :
  NoDup (t_id <$> tasks Sample.after_share)
  ∧ tasks Sample.after_share !! 0%nat = Some Sample.the_task
  ∧ (∃ w', put_task Sample.isISO8601 Sample.toDate Sample.U2 "t1" Sample.completed 300
             Sample.after_share
           = (res 200 (task_json (Some (set_columns Sample.completed None 300
                                          Sample.the_task))), w')
         ∧ emitted w' = emitted Sample.after_share
             ++ [task_updated (Some (set_columns Sample.completed None 300 Sample.the_task))
                   Sample.U2])
  ∧ put_task Sample.isISO8601 Sample.toDate Sample.U3 "t1" Sample.completed 300
      Sample.after_share
    = (res 403 (error_json "Permission denied"), Sample.after_share).
Proof.
  assert (NoDup (t_id <$> tasks Sample.after_share)) as Hpk by by_evaluation.
  assert (tasks Sample.after_share !! 0%nat = Some Sample.the_task) as Hi by reflexivity.
  split; [exact Hpk|]. split; [exact Hi|]. split.
  - eexists. split.
    + rewrite (put_task_permission Sample.isISO8601 Sample.toDate Sample.U2 "t1"
                 Sample.completed 300 Sample.after_share 0 Sample.the_task Hpk Hi eq_refl).
      reflexivity.
    + reflexivity.
  - rewrite (put_task_permission Sample.isISO8601 Sample.toDate Sample.U3 "t1"
               Sample.completed 300 Sample.after_share 0 Sample.the_task Hpk Hi eq_refl).
    reflexivity.
Defined.

(** C5 fails as stated: a principal without write permission who sends
    an invalid field is answered 400, not 403; and the owner who sends no
    recognised field is answered 400 and no event is emitted. *)
Lemma put_task_permission_needs_valid_fields :
  Sample.the_task ∈ tasks Sample.after_share
  ∧ Spec.can_write (p_id Sample.U3) Sample.the_task Sample.after_share = false
  ∧ res_status (put_task Sample.isISO8601 Sample.toDate Sample.U3 "t1" Sample.archived 300
                  Sample.after_share).1 = 400%nat
  ∧ Spec.can_write (p_id Sample.U1) Sample.the_task Sample.after_share = true
  ∧ put_task Sample.isISO8601 Sample.toDate Sample.U1 "t1" Sample.no_fields 300
      Sample.after_share
    = (res 400 (error_json "No valid fields to update"), Sample.after_share).
Proof.
  split; [by_evaluation|].
  repeat split; vm_compute; reflexivity.
Qed.

(** ** DELETE /:id and DELETE /:id/collaborators/:userId *)

(** C3, as the code has it: the owner's first delete of a task is
    answered 200 and the second 403 "Permission denied" (never 404), the
    world being left as the first delete made it; the owner's removal of
    a collaborator, named by a user id that is well-formed UUID text
    (what the store reads as a [uuid]; on any other text the removal
    throws), is answered 200 both times, and the second removal leaves
    the three tables as they were and emits one more
    [collaborator_removed] event. *)
Theorem delete_twice (user : profile) (taskId userId : string) (w : world) (t : task)
    (Ht : t ∈ tasks w) (Hid : t_id t = taskId) (Hown : t_created_by t = p_id user)
    (Huuid : Sql.uuid_in userId = true) :
  let d1 := delete_task user taskId w in
  let d2 := delete_task user taskId d1.2 in
  let c1 := delete_collaborator user taskId userId w in
  let c2 := delete_collaborator user taskId userId c1.2 in
  d1.1 = res 200 (message_json "Task deleted successfully")
  ∧ d2 = (res 403 (error_json "Permission denied"), d1.2)
  ∧ c1.1 = res 200 (message_json "Collaborator removed successfully")
  ∧ c2.1 = res 200 (message_json "Collaborator removed successfully")
  ∧ profiles c2.2 = profiles c1.2
  ∧ tasks c2.2 = tasks c1.2
  ∧ task_collaborators c2.2 = task_collaborators c1.2
  ∧ emitted c2.2 = emitted c1.2 ++ [collaborator_removed taskId userId user].
Proof.
  intros d1 d2 c1 c2.
  pose proof (ownerQuery_owner taskId (p_id user) w t Ht Hid Hown) as Howner.
  assert (d1 = (res 200 (message_json "Task deleted successfully"),
                emit (task_deleted taskId user) (delete_tasks taskId w))) as Hd1.
  { unfold d1, delete_task. by rewrite Howner. }
  assert (c1 = (res 200 (message_json "Collaborator removed successfully"),
                emit (collaborator_removed taskId userId user)
                  (delete_collaborators taskId userId w))) as Hc1.
  { unfold c1, delete_collaborator. by rewrite Howner. }
  assert (c2 = (res 200 (message_json "Collaborator removed successfully"),
                emit (collaborator_removed taskId userId user)
                  (delete_collaborators taskId userId c1.2))) as Hc2.
  { unfold c2, delete_collaborator.
    rewrite (ownerQuery_owner taskId (p_id user) c1.2 t); [done| |done|done].
    by rewrite Hc1. }
  split; [by rewrite Hd1|].
  split.
  { unfold d2, delete_task. rewrite Hd1. simpl. by rewrite ownerQuery_deleted. }
  split; [by rewrite Hc1|].
  split; [by rewrite Hc2|].
  rewrite Hc2, Hc1. simpl. repeat split; try done.
  apply filter_filter_same.
Qed.

Lemma delete_twice_witness :
  let d1 := delete_task Sample.Una Sample.task_key Sample.shared in
  let c1 := delete_collaborator Sample.Una Sample.task_key (p_id Sample.Dos)
              Sample.shared in
  Sample.stored_task ∈ tasks Sample.shared
  ∧ Sql.uuid_in (p_id Sample.Dos) = true
  ∧ delete_task Sample.Una Sample.task_key d1.2
    = (res 403 (error_json "Permission denied"), d1.2)
  ∧ (delete_collaborator Sample.Una Sample.task_key (p_id Sample.Dos) c1.2).1
    = res 200 (message_json "Collaborator removed successfully").
Proof.
  intros d1 c1.
  assert (Sample.stored_task ∈ tasks Sample.shared) as Ht by by_evaluation.
  assert (Sql.uuid_in (p_id Sample.Dos) = true) as Huuid by (vm_compute; reflexivity).
  split; [exact Ht|]. split; [exact Huuid|].
  destruct (delete_twice Sample.Una Sample.task_key (p_id Sample.Dos) Sample.shared
              Sample.stored_task Ht eq_refl eq_refl Huuid) as (_ & Hd2 & _ & Hc2 & _).
  split; [exact Hd2|exact Hc2].
Defined.

(** C3 fails as stated: the owner's second delete is answered 403, not
    404. *)
Lemma delete_twice_not_404 :
  let d1 := delete_task Sample.Una Sample.task_key Sample.created in
  let d2 := delete_task Sample.Una Sample.task_key d1.2 in
  Sample.stored_task ∈ tasks Sample.created
  ∧ t_created_by Sample.stored_task = p_id Sample.Una
  ∧ Sql.uuid_in Sample.task_key = true
  ∧ Sql.uuid_in (p_id Sample.Una) = true
  ∧ res_status d1.1 = 200%nat
  ∧ res_status d2.1 = 403%nat
  ∧ res_status d2.1 ≠ 404%nat.
Proof.
  intros d1 d2. split; [by_evaluation|]. split; [reflexivity|].
  split; [vm_compute; reflexivity|]. split; [vm_compute; reflexivity|].
  split; [vm_compute; reflexivity|]. split; [vm_compute; reflexivity|].
  vm_compute. discriminate.
Qed.

(** ** POST /:id/collaborators *)

(** C4: when the owner of a task adds, by the collaborator's own email
    (which the validator accepts and which belongs to no other profile),
    a principal who already holds a grant on the task, the request is
    answered 400 "User is already a collaborator" and the world, the
    existing grant and its permission included, is unchanged. *)
Theorem post_collaborator_already_exists (isEmail : string → bool) (user : profile)
    (taskId : string) (body : collaborator_body) (newid : string) (now : Z) (w : world)
    (t : task) (c : profile) (tc : task_collaborator)
    (Ht : t ∈ tasks w) (Hid : t_id t = taskId) (Hown : t_created_by t = p_id user)
    (Hc : c ∈ profiles w) (Hemail : email body = p_email c)
    (Hunique : ∀ p, p ∈ profiles w → p_email p = p_email c → p_id p = p_id c)
    (Htc : tc ∈ task_collaborators w) (Htask : tc_task_id tc = taskId)
    (Huser : tc_user_id tc = p_id c)
    (HisEmail : isEmail (p_email c) = true)
    (Hperm : permission body ∈ ["read"; "write"]) :
  post_collaborator isEmail user taskId body newid now w
  = (res 400 (error_json "User is already a collaborator"), w).
Proof.
  unfold post_collaborator.
  rewrite validate_collaborator_ok by (by rewrite ?Hemail).
  simpl.
  rewrite (ownerQuery_owner taskId (p_id user) w t) by done.
  destruct (userQuery (email body) w) as [|c0 rows] eqn:Hq.
  - assert (c ∈ userQuery (email body) w) as Hin by (by apply userQuery_rows).
    rewrite Hq in Hin. by apply elem_of_nil in Hin.
  - assert (c0 ∈ userQuery (email body) w) as Hc0 by (rewrite Hq; left).
    apply userQuery_rows in Hc0 as [Hc0 He0].
    rewrite (Hunique c0 Hc0) by congruence.
    rewrite bool_decide_eq_true_2; [done|].
    assert (tc ∈ existingQuery taskId (p_id c) w) as Hex by (by apply existingQuery_rows).
    destruct (existingQuery taskId (p_id c) w); [by apply elem_of_nil in Hex|simpl; lia].
Qed.

(** U1 grants [read] to U2, who already holds [write]: refused, and the
    grant is still [write]. *)
Lemma post_collaborator_already_exists_witness :
  Sample.the_grant ∈ task_collaborators Sample.after_share
  ∧ post_collaborator Sample.isEmail Sample.U1 "t1"
      {| email := "dos@example.org"; permission := "read" |} "c2" 300 Sample.after_share
    = (res 400 (error_json "User is already a collaborator"), Sample.after_share).
Proof.
  assert (Sample.the_grant ∈ task_collaborators Sample.after_share) as Htc by by_evaluation.
  split; [exact Htc|].
  apply (post_collaborator_already_exists Sample.isEmail Sample.U1 "t1"
           {| email := "dos@example.org"; permission := "read" |} "c2" 300
           Sample.after_share Sample.the_task Sample.U2 Sample.the_grant).
  - by_evaluation.
  - reflexivity.
  - reflexivity.
  - by_evaluation.
  - reflexivity.
  - apply (proj1 (Forall_forall
      (λ p, p_email p = p_email Sample.U2 → p_id p = p_id Sample.U2) _)).
    by_evaluation.
  - exact Htc.
  - reflexivity.
  - reflexivity.
  - reflexivity.
  - by_evaluation.
Defined.

(** C1 fails on the code: when the owner of a task posts their own
    email (accepted by the validator, and of no other profile) and is not
    yet a collaborator, the request is answered 201 and a grant is stored
    whose principal is the [created_by] of the task. *)
Theorem owner_becomes_collaborator (isEmail : string → bool) (user : profile)
    (taskId perm newid : string) (now : Z) (w : world) (t : task)
    (Ht : t ∈ tasks w) (Hid : t_id t = taskId) (Hown : t_created_by t = p_id user)
    (Huser : user ∈ profiles w)
    (Hunique : ∀ p, p ∈ profiles w → p_email p = p_email user → p = user)
    (HisEmail : isEmail (p_email user) = true)
    (Hperm : perm ∈ ["read"; "write"])
    (Hnone : existingQuery taskId (p_id user) w = [])
    (Hfresh : newid ∉ tc_id <$> task_collaborators w) :
  ∃ row w',
    post_collaborator isEmail user taskId {| email := p_email user; permission := perm |}
      newid now w
    = (res 201 (collaborator_row_json row user), w')
    ∧ t ∈ tasks w'
    ∧ row ∈ task_collaborators w'
    ∧ tc_task_id row = t_id t
    ∧ tc_user_id row = t_created_by t.
Proof.
  unfold post_collaborator.
  rewrite validate_collaborator_ok by done. simpl.
  rewrite (ownerQuery_owner taskId (p_id user) w t) by done.
  destruct (userQuery (p_email user) w) as [|c0 rows] eqn:Hq.
  - assert (user ∈ userQuery (p_email user) w) as Hin by (by apply userQuery_rows).
    rewrite Hq in Hin. by apply elem_of_nil in Hin.
  - assert (c0 ∈ userQuery (p_email user) w) as Hc0 by (rewrite Hq; left).
    apply userQuery_rows in Hc0 as [Hc0 He0].
    rewrite (Hunique c0 Hc0 He0). rewrite Hnone. simpl.
    unfold insert_collaborator. simpl.
    rewrite (bool_decide_eq_false_2 _ Hfresh).
    eexists _, _. split; [reflexivity|]. simpl.
    split; [done|]. split; [|by rewrite Hown].
    apply elem_of_app. right. left.
Qed.

(** After scenario A, U1 shares the task with una@example.org, their
    own address. *)
Lemma owner_becomes_collaborator_witness :
  Sample.the_task ∈ tasks Sample.after_create
  ∧ t_created_by Sample.the_task = p_id Sample.U1
  ∧ ∃ row w',
      post_collaborator Sample.isEmail Sample.U1 "t1"
        {| email := "una@example.org"; permission := "read" |} "c1" 200 Sample.after_create
      = (res 201 (collaborator_row_json row Sample.U1), w')
      ∧ row ∈ task_collaborators w'
      ∧ tc_task_id row = "t1"
      ∧ tc_user_id row = "u1".
Proof.
  assert (Sample.the_task ∈ tasks Sample.after_create) as Ht by by_evaluation.
  split; [exact Ht|]. split; [reflexivity|].
  destruct (owner_becomes_collaborator Sample.isEmail Sample.U1 "t1" "read" "c1" 200
              Sample.after_create Sample.the_task Ht eq_refl eq_refl)
    as (row & w' & Hpost & _ & Hrow & Htask & Huser).
  - by_evaluation.
  - apply (proj1 (Forall_forall (λ p, p_email p = p_email Sample.U1 → p = Sample.U1) _)).
    by_evaluation.
  - reflexivity.
  - by_evaluation.
  - reflexivity.
  - by_evaluation.
  - exists row, w'. auto.
Defined.

(** ** GET / *)

#[local] Instance created_at_desc_total : Total created_at_desc.
Proof. intros a b. unfold created_at_desc. lia. Qed.

#[local] Instance created_at_desc_trans : Transitive created_at_desc.
Proof. intros a b c. unfold created_at_desc. lia. Qed.

Lemma listing_collaborators (w : world) (t : task) :
  collaborators (listing w t) =
    json_array (json_build_object w <$>
      List.filter (λ tc, bool_decide (t_id t = tc_task_id tc)) (task_collaborators w)).
Proof.
  unfold listing. simpl. rewrite not_null_left_join.
  by destruct (List.filter _ (task_collaborators w)).
Qed.

Lemma listed_for_iff (userId : string) (w : world) (t : task) :
  listed_for userId w t = true ↔
    t_created_by t = userId ∨ Spec.holds_grant userId t w.
Proof.
  unfold listed_for, Spec.holds_grant.
  rewrite orb_true_iff, !bool_decide_eq_true, list_elem_of_fmap.
  split; (intros [Hown|Hgrant]; [by left|right]).
  - destruct Hgrant as (tc & Hid & Htc).
    apply list_elem_of_In, filter_In in Htc as [Htc Huser%bool_decide_eq_true].
    exists tc. by rewrite list_elem_of_In.
  - destruct Hgrant as (tc & Htc & Hid & Huser).
    exists tc. split; [done|].
    apply list_elem_of_In, filter_In. split; [by apply list_elem_of_In|].
    by apply bool_decide_eq_true_2.
Qed.

Lemma list_query_tasks (userId : string) (w : world) :
  l_task <$> list_query userId w ≡ₚ List.filter (listed_for userId w) (tasks w).
Proof.
  unfold list_query. rewrite merge_sort_Permutation.
  rewrite <- list_fmap_compose.
  generalize (List.filter (listed_for userId w) (tasks w)). intros l.
  induction l as [|t l IH]; [done|]. cbn. by rewrite IH.
Qed.

Lemma list_query_elem (userId : string) (w : world) (t : task) :
  t ∈ l_task <$> list_query userId w ↔
    t ∈ tasks w ∧ (t_created_by t = userId ∨ Spec.holds_grant userId t w).
Proof.
  rewrite list_query_tasks.
  rewrite list_elem_of_In, filter_In, <- list_elem_of_In.
  by rewrite listed_for_iff.
Qed.

(** C6: GET / answers 200 with rows whose tasks are, each once, the
    tasks of the table that the principal owns or on which the principal
    holds a grant of any permission; the rows are in descending order of
    [created_at]; the [collaborators] of a row is the array of the grants
    on its task, hence the empty array, never null, when there is none. *)
Theorem get_tasks_owned_or_shared (user : profile) (w : world) :
  let rows := list_query (p_id user) w in
  get_tasks user w = (res 200 (listing_json rows), w)
  ∧ l_task <$> rows ≡ₚ List.filter (listed_for (p_id user) w) (tasks w)
  ∧ (∀ t, t ∈ l_task <$> rows ↔
          t ∈ tasks w
          ∧ (t_created_by t = p_id user ∨ Spec.holds_grant (p_id user) t w))
  ∧ StronglySorted created_at_desc rows
  ∧ (∀ r, r ∈ rows →
       collaborators r =
         json_array (json_build_object w <$>
           List.filter (λ tc, bool_decide (t_id (l_task r) = tc_task_id tc))
             (task_collaborators w)))
  ∧ (∀ r, r ∈ rows →
       (∀ tc, tc ∈ task_collaborators w → tc_task_id tc ≠ t_id (l_task r)) →
       collaborators r = json_array []).
Proof.
  intros rows.
  assert (∀ r, r ∈ rows → r = listing w (l_task r)) as Hrow.
  { intros r Hr. unfold rows, list_query in Hr.
    rewrite merge_sort_Permutation in Hr.
    by apply list_elem_of_fmap in Hr as (t & -> & _). }
  assert (∀ r, r ∈ rows →
            collaborators r =
              json_array (json_build_object w <$>
                List.filter (λ tc, bool_decide (t_id (l_task r) = tc_task_id tc))
                  (task_collaborators w))) as Hcollab.
  { intros r Hr. rewrite (Hrow r Hr) at 1. apply listing_collaborators. }
  split; [reflexivity|].
  split; [apply list_query_tasks|].
  split; [intros t; apply list_query_elem|].
  split; [apply StronglySorted_merge_sort; apply _|].
  split; [exact Hcollab|].
  intros r Hr Hnone. rewrite (Hcollab r Hr). f_equal.
  replace (List.filter _ (task_collaborators w)) with (@nil task_collaborator); [done|].
  symmetry. apply filter_nil_iff. intros tc Htc.
  apply bool_decide_eq_false_2. intros Heq. by apply (Hnone tc Htc).
Qed.

(** Scenario A: U1 lists the one task, [pending], [medium], with no
    collaborators. *)
Example scenario_A :
  (get_tasks Sample.U1 Sample.after_create).1
  = res 200 (listing_json
      [ {| l_task := Sample.the_task;
           creator_name := Some "Una";
           creator_email := Some "una@example.org";
           creator_avatar := None;
           collaborators := json_array [] |} ]).
Proof. vm_compute. reflexivity. Qed.

(** ** POST / *)

(** C8, as the code has it: a create request that meets the field
    constraints (the title counted once trimmed) and whose due date and
    generated id the store accepts is answered 201 with a task whose
    [created_by] is the principal, whose status and priority are the
    supplied ones or else [pending] and [medium], whose title is the
    supplied title trimmed of surrounding white space and whose other
    fields are as supplied; the task is appended to the table, one
    [task_created] event is emitted, and the principal's list that
    follows includes the task.  When the store rejects the row the answer
    is 500.  A request that violates a constraint is answered 400 with the
    errors and the world is unchanged. *)
Theorem post_task_defaults (isISO8601 : string → bool) (toDate : string → option Z)
    (user : profile) (body : task_body) (newid : string) (now : Z) (w : world) :
  if Spec.create_constraints isISO8601 body then
    match create_due_date toDate (due_date body) with
    | Some due =>
      if bool_decide (newid ∈ t_id <$> tasks w) then
        post_task isISO8601 toDate user body newid now w
        = (res 500 (error_json "Failed to create task"), w)
      else
        ∃ row w',
          post_task isISO8601 toDate user body newid now w
          = (res 201 (task_json (Some row)), w')
          ∧ row = {| t_id := newid;
                     t_title := Validator.trim (default "" (title body));
                     t_description := default "" (description body);
                     t_status := default "pending" (status body);
                     t_priority := default "medium" (priority body);
                     t_due_date := due;
                     t_created_by := p_id user;
                     t_created_at := now;
                     t_updated_at := now |}
          ∧ tasks w' = tasks w ++ [row]
          ∧ emitted w' = emitted w ++ [task_created row user]
          ∧ row ∈ l_task <$> list_query (p_id user) w'
    | None =>
      post_task isISO8601 toDate user body newid now w
      = (res 500 (error_json "Failed to create task"), w)
    end
  else
    ∃ errors, errors ≠ []
      ∧ post_task isISO8601 toDate user body newid now w
        = (res 400 (errors_json errors), w).
Proof.
  pose proof (validate_create_ok isISO8601 body) as Hok.
  unfold post_task.
  destruct (validate_create isISO8601 body) as [errors body'] eqn:Hv.
  assert (body' = {| title := Some (Validator.trim (default "" (title body)));
                     description := description body; status := status body;
                     priority := priority body; due_date := due_date body |}) as ->.
  { unfold validate_create in Hv. by injection Hv as _ <-. }
  simpl in *.
  destruct (Spec.create_constraints isISO8601 body).
  - rewrite (proj2 Hok eq_refl). simpl.
    destruct (create_due_date toDate (due_date body)) as [due|]; [|done].
    unfold insert_task. simpl.
    destruct (bool_decide (newid ∈ t_id <$> tasks w)); [done|].
    eexists _, _. split; [reflexivity|]. split; [reflexivity|]. simpl.
    split; [done|]. split; [done|].
    apply list_query_elem. simpl.
    split; [|by left]. apply elem_of_app. right. left.
  - exists errors.
    assert (errors ≠ []) as Hne.
    { intros Hnil. apply Hok in Hnil. done. }
    split; [done|]. by rewrite (bool_decide_eq_false_2 _ Hne).
Qed.

(** C8 fails as stated: a title supplied with surrounding white space is
    not listed intact, and a title of one character, a space, is
    rejected. *)
Lemma post_task_title_trimmed :
  let created :=
    post_task Sample.isISO8601 Sample.toDate Sample.U1 Sample.padded_title "t1" 100
      Sample.empty_world in
  let titles := t_title <$> (l_task <$> list_query (p_id Sample.U1) created.2) in
  title Sample.padded_title = Some " Draft report "
  ∧ res_status created.1 = 201%nat
  ∧ titles = ["Draft report"]
  ∧ (" Draft report " ∉ titles)
  ∧ String.length " " = 1%nat
  ∧ res_status (post_task Sample.isISO8601 Sample.toDate Sample.U1 Sample.blank_title "t1"
                  100 Sample.empty_world).1 = 400%nat.
Proof.
  intros created titles.
  split; [reflexivity|]. split; [vm_compute; reflexivity|].
  split; [vm_compute; reflexivity|]. split; [by_evaluation|].
  split; [reflexivity|]. vm_compute. reflexivity.
Qed.

(** ** GET /search-users *)

Lemma like_percent (p s : string) :
  Sql.like (String "%" p) s =
    Sql.like p s || match s with
                    | EmptyString => false
                    | String _ s' => Sql.like (String "%" p) s'
                    end.
Proof. destruct s; reflexivity. Qed.

Lemma like_plain_char (c : ascii) (p s : string) :
  Spec.meta c = false →
  Sql.like (String c p) s =
    match s with
    | EmptyString => false
    | String x s' => Ascii.eqb c x && Sql.like p s'
    end.
Proof.
  unfold Spec.meta. intros [[H1 H2]%orb_false_elim H3]%orb_false_elim.
  simpl. rewrite H1, H2, H3. reflexivity.
Qed.

Lemma like_any (s : string) : Sql.like "%" s = true.
Proof.
  induction s as [|c s IH]; [reflexivity|].
  rewrite like_percent. simpl Sql.like at 1. exact IH.
Qed.

Lemma like_plain_prefix (p s : string) :
  Spec.plain p = true → Sql.like (p +:+ "%") s = String.prefix p s.
Proof.
  revert s. induction p as [|c p IH]; intros s Hp.
  - simpl String.append. rewrite like_any. by destruct s.
  - simpl in Hp. apply andb_prop in Hp as [Hc%negb_true_iff Hp].
    change (String c p +:+ "%") with (String c (p +:+ "%")).
    rewrite (like_plain_char _ _ _ Hc).
    destruct s as [|x s]; [reflexivity|]. simpl String.prefix.
    destruct (ascii_dec c x) as [->|Hne].
    + rewrite Ascii.eqb_refl. simpl. by apply IH.
    + by rewrite (proj2 (Ascii.eqb_neq c x) Hne).
Qed.

Lemma like_plain_includes (p s : string) :
  Spec.plain p = true → Sql.like ("%" +:+ p +:+ "%") s = Spec.includes p s.
Proof.
  intros Hp. change ("%" +:+ p +:+ "%") with (String "%" (p +:+ "%")).
  induction s as [|c s IH].
  - rewrite like_percent, (like_plain_prefix _ _ Hp). simpl. by rewrite orb_false_r.
  - rewrite like_percent, (like_plain_prefix _ _ Hp), IH. reflexivity.
Qed.

Lemma lower_app (a b : string) : Sql.lower (a +:+ b) = Sql.lower a +:+ Sql.lower b.
Proof. induction a as [|c a IH]; [reflexivity|]. simpl. by rewrite IH. Qed.

Lemma meta_lower (c : ascii) : Spec.meta c = false → Spec.meta (Sql.lower_ascii c) = false.
Proof. destruct c as [[] [] [] [] [] [] [] []]; vm_compute; done. Qed.

Lemma plain_lower (q : string) : Spec.plain q = true → Spec.plain (Sql.lower q) = true.
Proof.
  induction q as [|c q IH]; [done|]. simpl.
  intros [Hc%negb_true_iff Hq]%andb_prop.
  by rewrite (meta_lower _ Hc), IH.
Qed.

(** For a query without [%], [_] and backslash, the pattern [%q%] is
    case-insensitive containment. *)
Lemma ILIKE_plain (s q : string) :
  Spec.plain q = true → Sql.ILIKE s ("%" +:+ q +:+ "%") = Spec.contains s q.
Proof.
  intros Hq. unfold Sql.ILIKE, Spec.contains.
  rewrite !lower_app. change (Sql.lower "%") with "%".
  by apply like_plain_includes, plain_lower.
Qed.

Lemma search_query_rows (pattern userId : string) (w : world) (p : profile) :
  p ∈ search_query pattern userId w →
  p ∈ profiles w ∧ p_id p ≠ userId
  ∧ Sql.ILIKE (p_email p) pattern || Sql.ILIKE (p_name p) pattern = true.
Proof.
  unfold search_query. intros (i & Hi & _)%elem_of_take.
  apply list_elem_of_lookup_2, list_elem_of_In, filter_In in Hi as [Hp Hwhere].
  apply andb_prop in Hwhere as [Hlike Hid%negb_true_iff%bool_decide_eq_false].
  by rewrite list_elem_of_In.
Qed.

Lemma search_query_limit (pattern userId : string) (w : world) :
  (List.length (search_query pattern userId w) ≤ 10)%nat.
Proof. unfold search_query. rewrite length_take. lia. Qed.

(** The part of C7 that holds: nothing for a query of fewer than two
    characters. *)
Lemma get_search_users_short (user : profile) (q : string) (w : world) :
  (String.length q < 2)%nat →
  get_search_users user (Some q) w = (res 200 (users_json []), w).
Proof.
  intros Hq. unfold get_search_users.
  rewrite (proj2 (Nat.ltb_lt _ _) Hq). by rewrite orb_true_r.
Qed.

(** The part of C7 that holds: at most 10 principals, never the
    requester; and for a query without [%], [_] and backslash, each
    contains the query in its email or name, case-insensitively. *)
Lemma get_search_users_plain (user : profile) (q : string) (w : world) :
  (2 ≤ String.length q)%nat →
  ∃ rows,
    get_search_users user (Some q) w = (res 200 (users_json rows), w)
    ∧ (List.length rows ≤ 10)%nat
    ∧ ∀ p, p ∈ rows →
        p ∈ profiles w ∧ p_id p ≠ p_id user
        ∧ (Spec.plain q = true →
           Spec.contains (p_email p) q || Spec.contains (p_name p) q = true).
Proof.
  intros Hq. unfold get_search_users.
  rewrite bool_decide_eq_false_2 by (intros ->; simpl in Hq; lia).
  rewrite (proj2 (Nat.ltb_ge _ _) Hq). simpl.
  eexists. split; [reflexivity|]. split; [apply search_query_limit|].
  intros p (Hp & Hid & Hlike)%search_query_rows.
  repeat split; try done. intros Hplain.
  by rewrite <- !(ILIKE_plain _ _ Hplain).
Qed.

(** C7 fails on the code: the query of two underscores, which are LIKE
    wildcards, returns U2 and U3, whose emails and names do not contain
    it. *)
Theorem search_users_wildcard_query :
  (get_search_users Sample.U1 (Some "__") Sample.empty_world).1
  = res 200 (users_json [Sample.U2; Sample.U3])
  ∧ Spec.contains (p_email Sample.U2) "__" = false
  ∧ Spec.contains (p_name Sample.U2) "__" = false
  ∧ Spec.contains (p_email Sample.U3) "__" = false
  ∧ Spec.contains (p_name Sample.U3) "__" = false.
Proof. repeat split; vm_compute; reflexivity. Qed.

(** * Further properties of the routes *)

(** ** What a request can do to the world *)

Lemma post_task_cases (isISO8601 : string → bool) (toDate : string → option Z)
    (user : profile) (body : task_body) (newid : string) (now : Z) (w : world) :
  let out := post_task isISO8601 toDate user body newid now w in
  ((400 ≤ res_status out.1)%nat ∧ out.2 = w)
  ∨ ∃ due,
      let row :=
        {| t_id := newid;
           t_title := Validator.trim (default "" (title body));
           t_description := default "" (description body);
           t_status := default "pending" (status body);
           t_priority := default "medium" (priority body);
           t_due_date := due;
           t_created_by := p_id user;
           t_created_at := now;
           t_updated_at := now |} in
      out = (res 201 (task_json (Some row)),
             emit (task_created row user) (with_tasks (tasks w ++ [row]) w))
      ∧ Spec.create_constraints isISO8601 body = true
      ∧ newid ∉ t_id <$> tasks w.
Proof.
  intros out. subst out.
  pose proof (validate_create_ok isISO8601 body) as Hok.
  unfold post_task.
  destruct (validate_create isISO8601 body) as [errors body'] eqn:Hv.
  assert (body' = {| title := Some (Validator.trim (default "" (title body)));
                     description := description body; status := status body;
                     priority := priority body; due_date := due_date body |}) as ->.
  { unfold validate_create in Hv. by injection Hv as _ <-. }
  simpl in *.
  destruct (decide (errors = [])) as [->|Hne].
  - simpl. destruct (create_due_date toDate (due_date body)) as [due|].
    2:{ left. simpl. split; [lia|done]. }
    unfold insert_task. simpl.
    destruct (decide (newid ∈ t_id <$> tasks w)) as [Hin|Hfresh].
    + rewrite (bool_decide_eq_true_2 _ Hin). left. simpl. split; [lia|done].
    + rewrite (bool_decide_eq_false_2 _ Hfresh). right. exists due.
      split; [done|]. split; [by apply Hok|done].
  - rewrite (bool_decide_eq_false_2 _ Hne). left. simpl. split; [lia|done].
Qed.

Lemma validate_update_ok (isISO8601 : string → bool) (b : task_body) :
  (validate_update isISO8601 b).1 = [] ↔
    Validator.optional (Validator.isLength 1 255) (Validator.trim <$> title b) = true
    ∧ Validator.optional (Validator.isLength 0 1000) (description b) = true
    ∧ Validator.optional (Validator.isIn ["pending"; "in_progress"; "completed"]) (status b)
      = true
    ∧ Validator.optional (Validator.isIn ["low"; "medium"; "high"]) (priority b) = true
    ∧ Validator.optional isISO8601 (due_date b) = true.
Proof.
  unfold validate_update. simpl.
  rewrite !app_nil, !failure_nil_iff. tauto.
Qed.

Lemma put_task_cases (isISO8601 : string → bool) (toDate : string → option Z)
    (user : profile) (taskId : string) (body : task_body) (now : Z) (w : world) :
  let out := put_task isISO8601 toDate user taskId body now w in
  let body' := (validate_update isISO8601 body).2 in
  ((400 ≤ res_status out.1)%nat ∧ out.2 = w)
  ∨ ∃ due,
      let ts := (λ t, if bool_decide (t_id t = taskId) then set_columns body' due now t
                       else t) <$> tasks w in
      let row := head (List.filter (λ t, bool_decide (t_id t = taskId)) ts) in
      out = (res 200 (task_json row), emit (task_updated row user) (with_tasks ts w))
      ∧ (validate_update isISO8601 body).1 = []
      ∧ permissionQuery taskId (p_id user) w ≠ []
      ∧ updates body' ≠ [].
Proof.
  intros out body'. subst out body'. unfold put_task.
  destruct (validate_update isISO8601 body) as [errors body'] eqn:Hv. simpl.
  destruct (decide (errors = [])) as [->|Hne].
  2:{ rewrite (bool_decide_eq_false_2 _ Hne). left. simpl. split; [lia|done]. }
  simpl.
  destruct (decide (List.length (permissionQuery taskId (p_id user) w) = 0%nat))
    as [Hnone|Hsome].
  { rewrite (bool_decide_eq_true_2 _ Hnone). left. simpl. split; [lia|done]. }
  rewrite (bool_decide_eq_false_2 _ Hsome).
  destruct (decide (List.length (updates body') = 0%nat)) as [Hno|Hup].
  { rewrite (bool_decide_eq_true_2 _ Hno). left. simpl. split; [lia|done]. }
  rewrite (bool_decide_eq_false_2 _ Hup).
  destruct (update_due_date toDate (due_date body')) as [due|].
  2:{ left. simpl. split; [lia|done]. }
  right. exists due. unfold update_tasks. simpl.
  split; [done|]. split; [done|].
  split; intros Hnil; [apply Hsome|apply Hup]; by rewrite Hnil.
Qed.

Lemma delete_task_cases (user : profile) (taskId : string) (w : world) :
  let out := delete_task user taskId w in
  (out = (res 403 (error_json "Permission denied"), w)
   ∧ ownerQuery taskId (p_id user) w = [])
  ∨ (out = (res 200 (message_json "Task deleted successfully"),
            emit (task_deleted taskId user) (delete_tasks taskId w))
     ∧ ownerQuery taskId (p_id user) w ≠ []).
Proof.
  intros out. subst out. unfold delete_task.
  destruct (decide (List.length (ownerQuery taskId (p_id user) w) = 0%nat)) as [Hnone|Hsome].
  - rewrite (bool_decide_eq_true_2 _ Hnone). left. split; [done|].
    by apply length_zero_iff.
  - rewrite (bool_decide_eq_false_2 _ Hsome). right. split; [done|].
    intros Hnil. apply Hsome. by rewrite Hnil.
Qed.

Lemma delete_collaborator_cases (user : profile) (taskId userId : string) (w : world) :
  let out := delete_collaborator user taskId userId w in
  (out = (res 403 (error_json "Permission denied"), w)
   ∧ ownerQuery taskId (p_id user) w = [])
  ∨ (out = (res 200 (message_json "Collaborator removed successfully"),
            emit (collaborator_removed taskId userId user)
              (delete_collaborators taskId userId w))
     ∧ ownerQuery taskId (p_id user) w ≠ []).
Proof.
  intros out. subst out. unfold delete_collaborator.
  destruct (decide (List.length (ownerQuery taskId (p_id user) w) = 0%nat)) as [Hnone|Hsome].
  - rewrite (bool_decide_eq_true_2 _ Hnone). left. split; [done|].
    by apply length_zero_iff.
  - rewrite (bool_decide_eq_false_2 _ Hsome). right. split; [done|].
    intros Hnil. apply Hsome. by rewrite Hnil.
Qed.

Lemma validate_collaborator_nil (isEmail : string → bool) (b : collaborator_body) :
  validate_collaborator isEmail b = [] ↔
    isEmail (email b) = true ∧ permission b ∈ ["read"; "write"].
Proof.
  unfold validate_collaborator, Validator.isIn.
  rewrite app_nil, !failure_nil_iff, bool_decide_eq_true. done.
Qed.

Lemma post_collaborator_cases (isEmail : string → bool) (user : profile)
    (taskId : string) (body : collaborator_body) (newid : string) (now : Z) (w : world) :
  let out := post_collaborator isEmail user taskId body newid now w in
  ((400 ≤ res_status out.1)%nat ∧ out.2 = w)
  ∨ ∃ c,
      let row :=
        {| tc_id := newid; tc_task_id := taskId; tc_user_id := p_id c;
           tc_permission := permission body; tc_created_at := now |} in
      out = (res 201 (collaborator_row_json row c),
             emit (collaborator_added taskId row c user)
               (with_task_collaborators (task_collaborators w ++ [row]) w))
      ∧ isEmail (email body) = true
      ∧ permission body ∈ ["read"; "write"]
      ∧ ownerQuery taskId (p_id user) w ≠ []
      ∧ head (userQuery (email body) w) = Some c
      ∧ existingQuery taskId (p_id c) w = []
      ∧ newid ∉ tc_id <$> task_collaborators w.
Proof.
  intros out. subst out. unfold post_collaborator.
  destruct (decide (validate_collaborator isEmail body = [])) as [Hv|Hne].
  2:{ rewrite (bool_decide_eq_false_2 _ Hne). left. simpl. split; [lia|done]. }
  rewrite Hv. simpl. apply validate_collaborator_nil in Hv as [HisEmail Hperm].
  destruct (decide (List.length (ownerQuery taskId (p_id user) w) = 0%nat)) as [Hnone|Hsome].
  { rewrite (bool_decide_eq_true_2 _ Hnone). left. simpl. split; [lia|done]. }
  rewrite (bool_decide_eq_false_2 _ Hsome).
  destruct (userQuery (email body) w) as [|c rows] eqn:Hq.
  { left. simpl. split; [lia|done]. }
  destruct (existingQuery taskId (p_id c) w) as [|tc tcs] eqn:Hex.
  2:{ left. simpl. split; [lia|done]. }
  simpl. unfold insert_collaborator. simpl.
  destruct (decide (newid ∈ tc_id <$> task_collaborators w)) as [Hin|Hfresh].
  { rewrite (bool_decide_eq_true_2 _ Hin). left. simpl. split; [lia|done]. }
  rewrite (bool_decide_eq_false_2 _ Hfresh). right. exists c.
  repeat split; try done.
  intros Hnil. apply Hsome. by rewrite Hnil.
Qed.

(** ** Requests that change nothing, and what the others emit *)

Section Outcome.

Variable isEmail : string → bool.
Variable isISO8601 : string → bool.
Variable toDate : string → option Z.

(** X1: A request that is a read ([GET /], [GET /search-users]) or that is
    answered with a status of 400 or more leaves the world as it was: the
    three tables and the log of emitted events. *)
Theorem rejected_or_read_changes_nothing (user : profile) (req : request) (w : world)
    (H : mutating req = false
         ∨ (400 ≤ res_status (handle isEmail isISO8601 toDate user req w).1)%nat) :
  (handle isEmail isISO8601 toDate user req w).2 = w.
Proof.
  destruct req as [|body newid now|taskId body now|taskId|taskId body newid now
                   |taskId userId|q]; simpl in *.
  - done.
  - destruct H as [?|H]; [done|].
    destruct (post_task_cases isISO8601 toDate user body newid now w)
      as [[_ ?]|(due & Hout & _)]; [done|].
    rewrite Hout in H. simpl in H. lia.
  - destruct H as [?|H]; [done|].
    destruct (put_task_cases isISO8601 toDate user taskId body now w)
      as [[_ ?]|(due & Hout & _)]; [done|].
    rewrite Hout in H. simpl in H. lia.
  - destruct H as [?|H]; [done|].
    destruct (delete_task_cases user taskId w) as [[Hout _]|[Hout _]];
      rewrite Hout in *; simpl in *; [done|lia].
  - destruct H as [?|H]; [done|].
    destruct (post_collaborator_cases isEmail user taskId body newid now w)
      as [[_ ?]|(c & Hout & _)]; [done|].
    rewrite Hout in H. simpl in H. lia.
  - destruct H as [?|H]; [done|].
    destruct (delete_collaborator_cases user taskId userId w) as [[Hout _]|[Hout _]];
      rewrite Hout in *; simpl in *; [done|lia].
  - unfold get_search_users. destruct q as [q|]; [|done].
    by destruct (_ || _).
Qed.

(** X2: A mutating request answered with a status under 400 leaves the
    profiles as they were and appends exactly one event, of the kind of the
    route, carrying the requesting user and, for a create or an update,
    the row of the answer. *)
Theorem accepted_mutation_emits_once (user : profile) (req : request) (w : world)
    (Hmut : mutating req = true)
    (Hok : (res_status (handle isEmail isISO8601 toDate user req w).1 < 400)%nat) :
  let out := handle isEmail isISO8601 toDate user req w in
  profiles out.2 = profiles w
  ∧ ∃ e, emitted out.2 = emitted w ++ [e]
      ∧ match req with
        | POST_task _ newid _ =>
            ∃ row, e = task_created row user ∧ t_id row = newid
                   ∧ out.1 = res 201 (task_json (Some row))
        | PUT_task taskId _ _ =>
            ∃ row, e = task_updated row user ∧ out.1 = res 200 (task_json row)
        | DELETE_task taskId => e = task_deleted taskId user
        | POST_collaborator taskId _ _ _ =>
            ∃ row c, e = collaborator_added taskId row c user
                     ∧ out.1 = res 201 (collaborator_row_json row c)
        | DELETE_collaborator taskId userId => e = collaborator_removed taskId userId user
        | _ => False
        end.
Proof.
  intros out. subst out.
  destruct req as [|body newid now|taskId body now|taskId|taskId body newid now
                   |taskId userId|q]; simpl in *; try done.
  - destruct (post_task_cases isISO8601 toDate user body newid now w)
      as [[? _]|(due & Hout & _)]; [lia|].
    rewrite Hout. simpl. split; [done|]. eexists. split; [done|]. by eexists.
  - destruct (put_task_cases isISO8601 toDate user taskId body now w)
      as [[? _]|(due & Hout & _)]; [lia|].
    rewrite Hout. simpl. split; [done|]. eexists. split; [done|]. by eexists.
  - destruct (delete_task_cases user taskId w) as [[Hout _]|[Hout _]];
      rewrite Hout in *; simpl in *; [lia|].
    split; [done|]. by eexists.
  - destruct (post_collaborator_cases isEmail user taskId body newid now w)
      as [[? _]|(c & Hout & _)]; [lia|].
    rewrite Hout. simpl. split; [done|]. eexists. split; [done|]. by eexists _, _.
  - destruct (delete_collaborator_cases user taskId userId w) as [[Hout _]|[Hout _]];
      rewrite Hout in *; simpl in *; [lia|].
    split; [done|]. by eexists.
Qed.

End Outcome.

Lemma rejected_or_read_changes_nothing_witness :
  (handle Sample.isEmail Sample.isISO8601 Sample.toDate Sample.U3
     (PUT_task "t1" Sample.completed 310) Sample.after_share).2
  = Sample.after_share.
Proof.
  apply rejected_or_read_changes_nothing. right. by_evaluation.
Defined.

Lemma accepted_mutation_emits_once_witness :
  let out := handle Sample.isEmail Sample.isISO8601 Sample.toDate Sample.U2
               (PUT_task "t1" Sample.completed 300) Sample.after_share in
  profiles out.2 = profiles Sample.after_share
  ∧ ∃ e, emitted out.2 = emitted Sample.after_share ++ [e]
      ∧ ∃ row, e = task_updated row Sample.U2 ∧ out.1 = res 200 (task_json row).
Proof.
  apply (accepted_mutation_emits_once Sample.isEmail Sample.isISO8601 Sample.toDate
           Sample.U2 (PUT_task "t1" Sample.completed 300) Sample.after_share).
  - reflexivity.
  - by_evaluation.
Defined.

(** ** Conditions kept by every request *)

Lemma filter_sublist {A} (f : A → bool) (l : list A) : List.filter f l `sublist_of` l.
Proof.
  induction l as [|a l IH]; simpl; [done|].
  destruct (f a); [by apply sublist_skip|by apply sublist_cons].
Qed.

Lemma NoDup_fmap_filter {A B} (g : A → B) (f : A → bool) (l : list A) :
  NoDup (g <$> l) → NoDup (g <$> List.filter f l).
Proof.
  intros H. apply (sublist_NoDup _ _ H). apply fmap_sublist, filter_sublist.
Qed.

Lemma Forall_filter_keep {A} (P : A → Prop) (f : A → bool) (l : list A) :
  Forall P l → Forall P (List.filter f l).
Proof.
  intros H. apply Forall_forall. intros x Hx.
  apply list_elem_of_In, filter_In in Hx as [Hx _].
  apply list_elem_of_In in Hx. by eapply (proj1 (Forall_forall P l)).
Qed.

Lemma update_keeps_ids (taskId : string) (b : task_body) (due : option Z) (now : Z)
    (ts : list task) :
  t_id <$> ((λ t, if bool_decide (t_id t = taskId) then set_columns b due now t else t)
              <$> ts) = t_id <$> ts.
Proof.
  rewrite <- list_fmap_compose. apply list_fmap_ext. intros i t _. simpl.
  by destruct (bool_decide _).
Qed.

Section Kept.

Variable isEmail : string → bool.
Variable isISO8601 : string → bool.
Variable toDate : string → option Z.

Lemma handle_profiles (user : profile) (req : request) (w : world) :
  profiles (handle isEmail isISO8601 toDate user req w).2 = profiles w.
Proof.
  destruct req as [|body newid now|taskId body now|taskId|taskId body newid now
                   |taskId userId|q]; simpl.
  - done.
  - destruct (post_task_cases isISO8601 toDate user body newid now w)
      as [[_ ->]|(due & -> & _)]; done.
  - destruct (put_task_cases isISO8601 toDate user taskId body now w)
      as [[_ ->]|(due & -> & _)]; done.
  - destruct (delete_task_cases user taskId w) as [[-> _]|[-> _]]; done.
  - destruct (post_collaborator_cases isEmail user taskId body newid now w)
      as [[_ ->]|(c & -> & _)]; done.
  - destruct (delete_collaborator_cases user taskId userId w) as [[-> _]|[-> _]]; done.
  - unfold get_search_users. destruct q as [q|]; [|done]. by destruct (_ || _).
Qed.

Lemma handle_keys_unique (user : profile) (req : request) (w : world) :
  keys_unique w → keys_unique (handle isEmail isISO8601 toDate user req w).2.
Proof.
  intros [Htasks Htcs].
  destruct req as [|body newid now|taskId body now|taskId|taskId body newid now
                   |taskId userId|q]; simpl.
  - done.
  - destruct (post_task_cases isISO8601 toDate user body newid now w)
      as [[_ ->]|(due & -> & _ & Hfresh)]; [done|].
    split; [|done]. simpl. rewrite fmap_app. simpl.
    apply NoDup_app. split; [done|]. split; [|apply NoDup_singleton].
    intros x Hx ->%list_elem_of_singleton. done.
  - destruct (put_task_cases isISO8601 toDate user taskId body now w)
      as [[_ ->]|(due & -> & _)]; [done|].
    split; [|done]. simpl. by rewrite update_keeps_ids.
  - destruct (delete_task_cases user taskId w) as [[-> _]|[-> _]]; [done|].
    split; simpl; by apply NoDup_fmap_filter.
  - destruct (post_collaborator_cases isEmail user taskId body newid now w)
      as [[_ ->]|(c & -> & _ & _ & _ & _ & _ & Hfresh)]; [done|].
    split; [done|]. simpl. rewrite fmap_app. simpl.
    apply NoDup_app. split; [done|]. split; [|apply NoDup_singleton].
    intros x Hx ->%list_elem_of_singleton. done.
  - destruct (delete_collaborator_cases user taskId userId w) as [[-> _]|[-> _]]; [done|].
    split; simpl; [done|]. by apply NoDup_fmap_filter.
  - unfold get_search_users. destruct q as [q|]; [|done]. by destruct (_ || _).
Qed.

Lemma handle_grants_unique (user : profile) (req : request) (w : world) :
  grants_unique w → grants_unique (handle isEmail isISO8601 toDate user req w).2.
Proof.
  unfold grants_unique. intros Hu.
  destruct req as [|body newid now|taskId body now|taskId|taskId body newid now
                   |taskId userId|q]; simpl.
  - done.
  - destruct (post_task_cases isISO8601 toDate user body newid now w)
      as [[_ ->]|(due & -> & _)]; done.
  - destruct (put_task_cases isISO8601 toDate user taskId body now w)
      as [[_ ->]|(due & -> & _)]; done.
  - destruct (delete_task_cases user taskId w) as [[-> _]|[-> _]]; [done|].
    simpl. by apply NoDup_fmap_filter.
  - destruct (post_collaborator_cases isEmail user taskId body newid now w)
      as [[_ ->]|(c & -> & _ & _ & _ & _ & Hnone & _)]; [done|].
    simpl. rewrite fmap_app. simpl.
    apply NoDup_app. split; [done|]. split; [|apply NoDup_singleton].
    intros x Hx ->%list_elem_of_singleton.
    apply list_elem_of_fmap in Hx as (tc & [= Htask Huser] & Htc).
    assert (tc ∈ existingQuery taskId (p_id c) w) as Hin
      by (by apply existingQuery_rows).
    rewrite Hnone in Hin. by apply elem_of_nil in Hin.
  - destruct (delete_collaborator_cases user taskId userId w) as [[-> _]|[-> _]]; [done|].
    simpl. by apply NoDup_fmap_filter.
  - unfold get_search_users. destruct q as [q|]; [|done]. by destruct (_ || _).
Qed.

Lemma set_columns_valid (body : task_body) (due : option Z) (now : Z) (t : task) :
  (validate_update isISO8601 body).1 = [] → stored_task_valid t →
  stored_task_valid (set_columns (validate_update isISO8601 body).2 due now t).
Proof.
  intros (Ht & Hd & Hs & Hp & _)%validate_update_ok (Vt & Vd & Vs & Vp).
  unfold stored_task_valid, validate_update. simpl.
  repeat split.
  - by destruct (title body).
  - by destruct (description body).
  - destruct (status body) as [s|]; [|done]. simpl in *.
    by apply bool_decide_eq_true in Hs.
  - destruct (priority body) as [s|]; [|done]. simpl in *.
    by apply bool_decide_eq_true in Hp.
Qed.

Lemma handle_fields_valid (user : profile) (req : request) (w : world) :
  fields_valid w → fields_valid (handle isEmail isISO8601 toDate user req w).2.
Proof.
  intros [Htasks Htcs].
  destruct req as [|body newid now|taskId body now|taskId|taskId body newid now
                   |taskId userId|q]; simpl.
  - done.
  - destruct (post_task_cases isISO8601 toDate user body newid now w)
      as [[_ ->]|(due & -> & Hc & _)]; [done|].
    split; [|done]. simpl. apply Forall_app. split; [done|].
    apply Forall_singleton.
    unfold Spec.create_constraints in Hc.
    apply andb_prop in Hc as [[[[Ht Hd]%andb_prop Hs]%andb_prop Hp]%andb_prop _].
    unfold stored_task_valid. simpl. repeat split.
    + done.
    + by destruct (description body).
    + destruct (status body) as [s|]; simpl in *.
      * by apply bool_decide_eq_true in Hs.
      * set_solver.
    + destruct (priority body) as [s|]; simpl in *.
      * by apply bool_decide_eq_true in Hp.
      * set_solver.
  - destruct (put_task_cases isISO8601 toDate user taskId body now w)
      as [[_ ->]|(due & -> & Hv & _)]; [done|].
    split; [|done]. simpl. apply Forall_fmap.
    eapply Forall_impl; [exact Htasks|]. intros t Ht. simpl.
    destruct (bool_decide _); [by apply set_columns_valid|done].
  - destruct (delete_task_cases user taskId w) as [[-> _]|[-> _]]; [done|].
    split; simpl; by apply Forall_filter_keep.
  - destruct (post_collaborator_cases isEmail user taskId body newid now w)
      as [[_ ->]|(c & -> & _ & Hperm & _)]; [done|].
    split; [done|]. simpl. apply Forall_app. split; [done|]. by apply Forall_singleton.
  - destruct (delete_collaborator_cases user taskId userId w) as [[-> _]|[-> _]]; [done|].
    split; simpl; [done|]. by apply Forall_filter_keep.
  - unfold get_search_users. destruct q as [q|]; [|done]. by destruct (_ || _).
Qed.

Lemma handle_grants_registered (user : profile) (req : request) (w : world) :
  grants_registered w → grants_registered (handle isEmail isISO8601 toDate user req w).2.
Proof.
  unfold grants_registered. intros Hr.
  destruct req as [|body newid now|taskId body now|taskId|taskId body newid now
                   |taskId userId|q]; simpl.
  - done.
  - destruct (post_task_cases isISO8601 toDate user body newid now w)
      as [[_ ->]|(due & -> & _)]; done.
  - destruct (put_task_cases isISO8601 toDate user taskId body now w)
      as [[_ ->]|(due & -> & _)]; done.
  - destruct (delete_task_cases user taskId w) as [[-> _]|[-> _]]; [done|].
    simpl. by apply Forall_filter_keep.
  - destruct (post_collaborator_cases isEmail user taskId body newid now w)
      as [[_ ->]|(c & -> & _ & _ & _ & Hc & _)]; [done|].
    simpl. apply Forall_app. split; [done|]. apply Forall_singleton. simpl.
    apply list_elem_of_fmap. exists c. split; [done|].
    assert (c ∈ userQuery (email body) w) as Hin.
    { destruct (userQuery (email body) w); [done|]. injection Hc as ->. left. }
    by apply userQuery_rows in Hin as [? _].
  - destruct (delete_collaborator_cases user taskId userId w) as [[-> _]|[-> _]]; [done|].
    simpl. by apply Forall_filter_keep.
  - unfold get_search_users. destruct q as [q|]; [|done]. by destruct (_ || _).
Qed.

End Kept.

Section Sequences.

Variable isEmail : string → bool.
Variable isISO8601 : string → bool.
Variable toDate : string → option Z.

Abbreviation serve' := (serve isEmail isISO8601 toDate).

Lemma serve_kept (P : world → Prop) :
  (∀ user req w, P w → P (handle isEmail isISO8601 toDate user req w).2) →
  ∀ reqs w, P w → P (serve' reqs w).
Proof.
  intros Hstep reqs. induction reqs as [|[user req] reqs IH]; intros w Hw; [done|].
  simpl. apply IH, Hstep, Hw.
Qed.

(** X3: Whatever requests are served, task ids stay pairwise distinct and so
    do collaborator ids. *)
Theorem serve_keys_unique (reqs : list (profile * request)) (w : world)
    (H : keys_unique w) :
  keys_unique (serve' reqs w).
Proof. revert reqs w H. apply serve_kept. apply handle_keys_unique. Qed.

(** X4: Whatever requests are served, there is at most one grant per task and
    user. *)
Theorem serve_grants_unique (reqs : list (profile * request)) (w : world)
    (H : grants_unique w) :
  grants_unique (serve' reqs w).
Proof. revert reqs w H. apply serve_kept. apply handle_grants_unique. Qed.

(** X5: Whatever requests are served, every stored task has a title of 1 to
    255 characters, a description of at most 1000, a status and a priority
    of their enumerations, and every grant has permission [read] or
    [write]. *)
Theorem serve_fields_valid (reqs : list (profile * request)) (w : world)
    (H : fields_valid w) :
  fields_valid (serve' reqs w).
Proof. revert reqs w H. apply serve_kept. apply handle_fields_valid. Qed.

(** Whatever requests are served, every grant stays held by a registered
    profile. *)
Lemma serve_grants_registered (reqs : list (profile * request)) (w : world)
    (H : grants_registered w) :
  grants_registered (serve' reqs w).
Proof. revert reqs w H. apply serve_kept. apply handle_grants_registered. Qed.

Lemma handle_emitted (user : profile) (req : request) (w : world) :
  ∃ es, emitted (handle isEmail isISO8601 toDate user req w).2 = emitted w ++ es
        ∧ (List.length es ≤ if mutating req then 1 else 0)%nat.
Proof.
  assert (∃ es, emitted w = emitted w ++ es ∧ (List.length es ≤ 0)%nat) as Hsame.
  { exists []. by rewrite app_nil_r. }
  assert (∀ e, ∃ es, emitted w ++ [e] = emitted w ++ es ∧ (List.length es ≤ 1)%nat)
    as Hone.
  { intros e. by exists [e]. }
  assert (∃ es, emitted w = emitted w ++ es ∧ (List.length es ≤ 1)%nat) as Hsame1.
  { exists []. rewrite app_nil_r. split; [done|]. simpl. lia. }
  destruct req as [|body newid now|taskId body now|taskId|taskId body newid now
                   |taskId userId|q]; simpl.
  - done.
  - destruct (post_task_cases isISO8601 toDate user body newid now w)
      as [[_ ->]|(due & -> & _)]; [done|apply Hone].
  - destruct (put_task_cases isISO8601 toDate user taskId body now w)
      as [[_ ->]|(due & -> & _)]; [done|apply Hone].
  - destruct (delete_task_cases user taskId w) as [[-> _]|[-> _]]; [done|apply Hone].
  - destruct (post_collaborator_cases isEmail user taskId body newid now w)
      as [[_ ->]|(c & -> & _)]; [done|apply Hone].
  - destruct (delete_collaborator_cases user taskId userId w) as [[-> _]|[-> _]];
      [done|apply Hone].
  - unfold get_search_users. destruct q as [q|]; [|done]. by destruct (_ || _).
Qed.

(** X6: Whatever requests are served, the profiles are unchanged and the log
    of events only grows at its end, by at most one event per mutating
    request. *)
Theorem serve_appends_events (reqs : list (profile * request)) (w : world) :
  profiles (serve' reqs w) = profiles w
  ∧ ∃ es, emitted (serve' reqs w) = emitted w ++ es
          ∧ (List.length es ≤ List.length (List.filter (λ r, mutating r.2) reqs))%nat.
Proof.
  revert w. induction reqs as [|[user req] reqs IH]; intros w.
  - split; [done|]. exists []. by rewrite app_nil_r.
  - simpl. destruct (IH (handle isEmail isISO8601 toDate user req w).2)
      as (Hp & es & Hes & Hlen).
    destruct (handle_emitted user req w) as (es0 & Hes0 & Hlen0).
    split; [by rewrite Hp, handle_profiles|].
    exists (es0 ++ es). rewrite Hes, Hes0, app_assoc. split; [done|].
    rewrite length_app. destruct (mutating req); simpl; lia.
Qed.

End Sequences.

Lemma serve_keys_unique_witness :
  keys_unique (serve Sample.isEmail Sample.isISO8601 Sample.toDate Sample.session
                 Sample.empty_world).
Proof.
  apply serve_keys_unique. split; by_evaluation.
Defined.

Lemma serve_grants_unique_witness :
  grants_unique (serve Sample.isEmail Sample.isISO8601 Sample.toDate Sample.session
                   Sample.after_share).
Proof.
  apply serve_grants_unique. unfold grants_unique. by_evaluation.
Defined.

Lemma serve_fields_valid_witness :
  fields_valid (serve Sample.isEmail Sample.isISO8601 Sample.toDate Sample.session
                  Sample.empty_world).
Proof.
  apply serve_fields_valid. split; constructor.
Defined.

(** ** Who passes the gates *)

Lemma ownerQuery_rows (taskId userId : string) (w : world) (t : task) :
  t ∈ ownerQuery taskId userId w ↔
    t ∈ tasks w ∧ t_id t = taskId ∧ t_created_by t = userId.
Proof.
  unfold ownerQuery. rewrite list_elem_of_In, filter_In, <- list_elem_of_In.
  by rewrite andb_true_iff, !bool_decide_eq_true.
Qed.

Lemma unique_task (w : world) (t t' : task) :
  NoDup (t_id <$> tasks w) → t ∈ tasks w → t' ∈ tasks w → t_id t = t_id t' → t = t'.
Proof.
  intros Hpk [i Hi]%list_elem_of_lookup_1 [j Hj]%list_elem_of_lookup_1 Hid.
  assert (i = j) as ->; [|congruence].
  apply (NoDup_lookup (t_id <$> tasks w) i j (t_id t)); [done| |].
  - by rewrite list_lookup_fmap, Hi.
  - rewrite list_lookup_fmap, Hj. simpl. by rewrite Hid.
Qed.

Lemma ownerQuery_not_owner (w : world) (t : task) (userId : string) :
  NoDup (t_id <$> tasks w) → t ∈ tasks w → t_created_by t ≠ userId →
  ownerQuery (t_id t) userId w = [].
Proof.
  intros Hpk Ht Hne. apply ownerQuery_nil_iff. intros t' Ht' [Hid Hown].
  apply Hne. by rewrite <- (unique_task w t' t Hpk Ht' Ht Hid).
Qed.

Lemma put_task_refused (isISO8601 : string → bool) (toDate : string → option Z)
    (user : profile) (taskId : string) (body : task_body) (now : Z) (w : world) :
  (validate_update isISO8601 body).1 = [] →
  permissionQuery taskId (p_id user) w = [] →
  put_task isISO8601 toDate user taskId body now w
  = (res 403 (error_json "Permission denied"), w).
Proof.
  intros Hv Hnone. unfold put_task.
  destruct (validate_update isISO8601 body) as [errors body']. simpl in Hv. subst errors.
  simpl. by rewrite Hnone.
Qed.

Lemma put_task_admitted (isISO8601 : string → bool) (toDate : string → option Z)
    (user : profile) (taskId : string) (body : task_body) (now : Z) (w : world) :
  permissionQuery taskId (p_id user) w ≠ [] →
  res_status (put_task isISO8601 toDate user taskId body now w).1 ≠ 403%nat.
Proof.
  intros Hsome. unfold put_task.
  destruct (validate_update isISO8601 body) as [errors body'].
  destruct (bool_decide (errors = [])); simpl; [|done].
  rewrite bool_decide_eq_false_2 by (by rewrite length_zero_iff).
  destruct (bool_decide _); simpl; [done|].
  destruct (update_due_date toDate (due_date body')); simpl; [|done].
  unfold update_tasks. simpl. done.
Qed.

(** A principal who is not the owner of the task is refused by the
    three owner-only routes. *)
(** X7: A principal who is not the owner of a task, a write collaborator
    included, is answered 403 by the delete, the remove-collaborator and
    the add-collaborator routes, and the world is unchanged. *)
Theorem owner_only_routes (isEmail : string → bool) (user : profile) (w : world)
    (t : task) (userId : string) (body : collaborator_body) (newid : string) (now : Z)
    (Hpk : NoDup (t_id <$> tasks w)) (Ht : t ∈ tasks w)
    (Hnot : t_created_by t ≠ p_id user)
    (HisEmail : isEmail (email body) = true)
    (Hperm : permission body ∈ ["read"; "write"]) :
  delete_task user (t_id t) w = (res 403 (error_json "Permission denied"), w)
  ∧ delete_collaborator user (t_id t) userId w
    = (res 403 (error_json "Permission denied"), w)
  ∧ post_collaborator isEmail user (t_id t) body newid now w
    = (res 403 (error_json "Permission denied"), w).
Proof.
  pose proof (ownerQuery_not_owner w t (p_id user) Hpk Ht Hnot) as Hnone.
  unfold delete_task, delete_collaborator, post_collaborator.
  rewrite validate_collaborator_ok by done. rewrite Hnone. done.
Qed.

Lemma owner_only_routes_witness :
  delete_task Sample.U2 "t1" Sample.after_share
  = (res 403 (error_json "Permission denied"), Sample.after_share)
  ∧ delete_collaborator Sample.U2 "t1" "u2" Sample.after_share
    = (res 403 (error_json "Permission denied"), Sample.after_share)
  ∧ post_collaborator Sample.isEmail Sample.U2 "t1"
      {| email := "tres@example.org"; permission := "read" |} "c2" 400 Sample.after_share
    = (res 403 (error_json "Permission denied"), Sample.after_share).
Proof.
  apply (owner_only_routes Sample.isEmail Sample.U2 Sample.after_share Sample.the_task).
  - by_evaluation.
  - by_evaluation.
  - by_evaluation.
  - reflexivity.
  - by_evaluation.
Defined.

(** Scenario D in general. *)
(** X8: When the owner shares a task with a well-formed email that no
    profile has, the answer is 404 "User not found" and the world is
    unchanged. *)
Theorem unknown_email_not_found (isEmail : string → bool) (user : profile) (w : world)
    (t : task) (body : collaborator_body) (newid : string) (now : Z)
    (Ht : t ∈ tasks w) (Hown : t_created_by t = p_id user)
    (HisEmail : isEmail (email body) = true)
    (Hperm : permission body ∈ ["read"; "write"])
    (Hunknown : email body ∉ p_email <$> profiles w) :
  post_collaborator isEmail user (t_id t) body newid now w
  = (res 404 (error_json "User not found"), w).
Proof.
  unfold post_collaborator.
  rewrite validate_collaborator_ok by done. simpl.
  rewrite (ownerQuery_owner (t_id t) (p_id user) w t) by done.
  destruct (userQuery (email body) w) as [|c rows] eqn:Hq; [done|].
  assert (c ∈ userQuery (email body) w) as Hc by (rewrite Hq; left).
  apply userQuery_rows in Hc as [Hc He].
  exfalso. apply Hunknown. apply list_elem_of_fmap. by exists c.
Qed.

Lemma unknown_email_not_found_witness :
  post_collaborator Sample.isEmail Sample.U1 "t1"
    {| email := "nobody@example.org"; permission := "read" |} "c1" 200 Sample.after_create
  = (res 404 (error_json "User not found"), Sample.after_create).
Proof.
  apply (unknown_email_not_found Sample.isEmail Sample.U1 Sample.after_create
           Sample.the_task).
  - by_evaluation.
  - reflexivity.
  - reflexivity.
  - by_evaluation.
  - by_evaluation.
Defined.

Lemma permissionQuery_some_iff (taskId userId : string) (w : world) :
  permissionQuery taskId userId w ≠ [] ↔
    ∃ t, t ∈ tasks w ∧ t_id t = taskId ∧ Spec.can_write userId t w = true.
Proof.
  split.
  - intros Hsome.
    destruct (permissionQuery taskId userId w) as [|[t o] rows] eqn:Hq; [done|].
    assert ((t, o) ∈ permissionQuery taskId userId w) as Hrow by (rewrite Hq; left).
    exists t. apply permissionQuery_row in Hrow as (Ht & Hid & Ho & Hor).
    split; [done|]. split; [done|]. apply can_write_iff.
    destruct Hor as [Hown|Hwrite]; [by left|right].
    destruct o as [tc|]; [|done]. simpl in Hwrite.
    apply left_join_rows in Ho
      as [Htc [H1%bool_decide_eq_true H2%bool_decide_eq_true]%andb_prop].
    exists tc. repeat split; try done. congruence.
  - intros (t & Ht & Hid & Hcan) Hnil.
    rewrite (proj1 (permissionQuery_nil_iff taskId userId w) Hnil t Ht Hid) in Hcan.
    done.
Qed.

(** X9: After an accepted share the grant is stored with the permission
    given, for the profile of the email given; that profile lists the task;
    and the permission query of an update selects a row for that profile
    exactly when the permission given is [write] (or the profile owns the
    task). *)
Theorem share_takes_effect (isEmail : string → bool) (user : profile) (body : collaborator_body)
    (newid : string) (now : Z) (w w' : world) (t : task) (row : task_collaborator)
    (c : profile)
    (Hpk : NoDup (t_id <$> tasks w)) (Ht : t ∈ tasks w)
    (Hout : post_collaborator isEmail user (t_id t) body newid now w
            = (res 201 (collaborator_row_json row c), w')) :
  p_email c = email body
  ∧ row ∈ task_collaborators w'
  ∧ tc_user_id row = p_id c
  ∧ tc_permission row = permission body
  ∧ t ∈ l_task <$> list_query (p_id c) w'
  ∧ (permissionQuery (t_id t) (p_id c) w' ≠ []
     ↔ permission body = "write" ∨ t_created_by t = p_id c).
Proof.
  destruct (post_collaborator_cases isEmail user (t_id t) body newid now w)
    as [[Hrej _]|(c0 & Hcase & _ & Hperm & _ & Hc0 & Hnone & Hfresh)].
  { rewrite Hout in Hrej. simpl in Hrej. lia. }
  rewrite Hout in Hcase. injection Hcase as -> -> ->.
  assert (c0 ∈ userQuery (email body) w) as Hin.
  { destruct (userQuery (email body) w); [done|]. injection Hc0 as ->. left. }
  apply userQuery_rows in Hin as [Hc He].
  set (row := {| tc_id := newid; tc_task_id := t_id t; tc_user_id := p_id c0;
                 tc_permission := permission body; tc_created_at := now |}).
  assert (row ∈ task_collaborators w ++ [row]) as Hrow.
  { apply elem_of_app. right. left. }
  split; [done|]. split; [done|]. split; [done|]. split; [done|].
  split.
  { apply list_query_elem. simpl. split; [done|]. right. exists row. by simpl. }
  rewrite permissionQuery_some_iff. simpl. split.
  - intros (t0 & Ht0 & Hid0 & Hcan).
    assert (t0 = t) as -> by (by apply (unique_task w)).
    apply can_write_iff in Hcan as [Hown|(tc & Htc & Htask & Huser & Hwrite)]; [by right|].
    left. simpl in Htc. apply elem_of_app in Htc as [Htc|Htc%list_elem_of_singleton].
    + assert (tc ∈ existingQuery (t_id t) (p_id c0) w) as Hex
        by (by apply existingQuery_rows).
      rewrite Hnone in Hex. by apply elem_of_nil in Hex.
    + by subst tc.
  - intros Hor. exists t. split; [done|]. split; [done|]. apply can_write_iff. simpl.
    destruct Hor as [Hwrite|Hown]; [right|by left].
    exists row. by simpl.
Qed.

Lemma share_takes_effect_witness :
  Sample.the_task ∈ l_task <$> list_query (p_id Sample.U2) Sample.after_share
  ∧ permissionQuery "t1" (p_id Sample.U2) Sample.after_share ≠ [].
Proof.
  destruct (share_takes_effect Sample.isEmail Sample.U1
              {| email := "dos@example.org"; permission := "write" |} "c1" 200
              Sample.after_create Sample.after_share Sample.the_task Sample.the_grant
              Sample.U2) as (_ & _ & _ & _ & Hlisted & Hgate).
  - by_evaluation.
  - by_evaluation.
  - vm_compute. reflexivity.
  - split; [exact Hlisted|]. apply Hgate. by left.
Defined.

(** X10: After the owner removes the grant of another principal, no grant of
    that principal on the task is left, the principal no longer lists the
    task, and the principal's update of it, with a valid body, is answered
    403. *)
Theorem revoke_takes_effect (isISO8601 : string → bool) (toDate : string → option Z)
    (user u : profile) (w : world) (t : task) (body : task_body) (now : Z)
    (Hpk : NoDup (t_id <$> tasks w)) (Ht : t ∈ tasks w)
    (Hown : t_created_by t = p_id user) (Hother : p_id u ≠ p_id user)
    (Hvalid : (validate_update isISO8601 body).1 = []) :
  let out := delete_collaborator user (t_id t) (p_id u) w in
  out.1 = res 200 (message_json "Collaborator removed successfully")
  ∧ existingQuery (t_id t) (p_id u) out.2 = []
  ∧ (t ∉ l_task <$> list_query (p_id u) out.2)
  ∧ put_task isISO8601 toDate u (t_id t) body now out.2
    = (res 403 (error_json "Permission denied"), out.2).
Proof.
  intros out. subst out. unfold delete_collaborator.
  rewrite (ownerQuery_owner (t_id t) (p_id user) w t) by done. simpl.
  set (w' := emit _ _).
  assert (∀ tc, tc ∈ task_collaborators w' →
            ¬ (tc_task_id tc = t_id t ∧ tc_user_id tc = p_id u)) as Hgone.
  { intros tc Htc [H1 H2]. simpl in Htc.
    apply list_elem_of_In, filter_In in Htc as [_ Hkeep].
    rewrite !bool_decide_eq_true_2 in Hkeep by done. done. }
  split; [done|]. split.
  { apply filter_nil_iff. intros tc Htc. apply not_true_is_false.
    intros [H1%bool_decide_eq_true H2%bool_decide_eq_true]%andb_prop.
    by apply (Hgone tc Htc). }
  split.
  { intros (_ & [Hown'|(tc & Htc & H1 & H2)])%list_query_elem; [congruence|].
    by apply (Hgone tc Htc). }
  apply put_task_refused; [done|].
  apply permissionQuery_nil_iff. intros t0 Ht0 Hid0.
  assert (t0 = t) as -> by (by apply (unique_task w)).
  apply not_true_is_false.
  intros [Hown'|(tc & Htc & H1 & H2 & _)]%can_write_iff; [congruence|].
  by apply (Hgone tc Htc).
Qed.

Lemma revoke_takes_effect_witness :
  let out := delete_collaborator Sample.U1 "t1" "u2" Sample.after_share in
  out.1 = res 200 (message_json "Collaborator removed successfully")
  ∧ existingQuery "t1" "u2" out.2 = []
  ∧ (Sample.the_task ∉ l_task <$> list_query "u2" out.2)
  ∧ put_task Sample.isISO8601 Sample.toDate Sample.U2 "t1" Sample.completed 300 out.2
    = (res 403 (error_json "Permission denied"), out.2).
Proof.
  apply (revoke_takes_effect Sample.isISO8601 Sample.toDate Sample.U1 Sample.U2
           Sample.after_share Sample.the_task Sample.completed 300).
  - by_evaluation.
  - by_evaluation.
  - reflexivity.
  - by_evaluation.
  - reflexivity.
Defined.

Lemma delete_tasks_no_id (taskId : string) (w : world) :
  taskId ∉ t_id <$> tasks (delete_tasks taskId w).
Proof.
  intros (t & Hid & Ht)%list_elem_of_fmap. simpl in Ht.
  apply list_elem_of_In, filter_In in Ht as [_ Hkeep].
  rewrite bool_decide_eq_true_2 in Hkeep by done. done.
Qed.

(** X11: After the owner deletes a task, no principal lists a task of that
    id, and every principal's update (with a valid body), delete and
    remove-collaborator on that id is answered 403 without changing the
    world. *)
Theorem deleted_task_is_gone (isISO8601 : string → bool) (toDate : string → option Z)
    (user u : profile) (w : world) (t : task) (body : task_body) (now : Z)
    (userId : string)
    (Ht : t ∈ tasks w) (Hown : t_created_by t = p_id user)
    (Hvalid : (validate_update isISO8601 body).1 = []) :
  let out := delete_task user (t_id t) w in
  out.1 = res 200 (message_json "Task deleted successfully")
  ∧ (t_id t ∉ t_id <$> (l_task <$> list_query (p_id u) out.2))
  ∧ put_task isISO8601 toDate u (t_id t) body now out.2
    = (res 403 (error_json "Permission denied"), out.2)
  ∧ delete_task u (t_id t) out.2 = (res 403 (error_json "Permission denied"), out.2)
  ∧ delete_collaborator u (t_id t) userId out.2
    = (res 403 (error_json "Permission denied"), out.2).
Proof.
  intros out.
  assert (out = (res 200 (message_json "Task deleted successfully"),
                 emit (task_deleted (t_id t) user) (delete_tasks (t_id t) w))) as ->.
  { unfold out, delete_task.
    by rewrite (ownerQuery_owner (t_id t) (p_id user) w t). }
  simpl. set (w' := emit _ _).
  assert (t_id t ∉ t_id <$> tasks w') as Hgone by apply delete_tasks_no_id.
  assert (ownerQuery (t_id t) (p_id u) w' = []) as Hnone.
  { apply ownerQuery_nil_iff. intros t0 Ht0 [Hid0 _]. apply Hgone.
    apply list_elem_of_fmap. by exists t0. }
  split; [done|]. split.
  { intros (t0 & Hid0 & Ht0)%list_elem_of_fmap.
    apply list_query_elem in Ht0 as [Ht0 _]. apply Hgone.
    apply list_elem_of_fmap. by exists t0. }
  split.
  { apply put_task_refused; [done|]. by apply permissionQuery_unknown. }
  unfold delete_task, delete_collaborator. by rewrite Hnone.
Qed.

Lemma deleted_task_is_gone_witness :
  let out := delete_task Sample.U1 "t1" Sample.after_share in
  out.1 = res 200 (message_json "Task deleted successfully")
  ∧ ("t1" ∉ t_id <$> (l_task <$> list_query "u2" out.2))
  ∧ put_task Sample.isISO8601 Sample.toDate Sample.U2 "t1" Sample.completed 300 out.2
    = (res 403 (error_json "Permission denied"), out.2)
  ∧ delete_task Sample.U2 "t1" out.2 = (res 403 (error_json "Permission denied"), out.2)
  ∧ delete_collaborator Sample.U2 "t1" "u3" out.2
    = (res 403 (error_json "Permission denied"), out.2).
Proof.
  apply (deleted_task_is_gone Sample.isISO8601 Sample.toDate Sample.U1 Sample.U2
           Sample.after_share Sample.the_task Sample.completed 300 "u3").
  - by_evaluation.
  - reflexivity.
  - reflexivity.
Defined.

(** X12: After an accepted create, the owner query on the new id selects the
    new row for the creator and nothing for anyone else: the creator's
    delete of it is answered 200 and any other principal's 403. *)
Theorem creator_is_the_owner (isISO8601 : string → bool) (toDate : string → option Z)
    (user u : profile) (body : task_body) (newid : string) (now : Z) (w w' : world)
    (row : task)
    (Hout : post_task isISO8601 toDate user body newid now w
            = (res 201 (task_json (Some row)), w')) :
  t_id row = newid
  ∧ t_created_by row = p_id user
  ∧ ownerQuery newid (p_id u) w'
    = (if bool_decide (p_id u = p_id user) then [row] else [])
  ∧ (delete_task u newid w').1
    = (if bool_decide (p_id u = p_id user)
       then res 200 (message_json "Task deleted successfully")
       else res 403 (error_json "Permission denied")).
Proof.
  destruct (post_task_cases isISO8601 toDate user body newid now w)
    as [[Hrej _]|(due & Hcase & _ & Hfresh)].
  { rewrite Hout in Hrej. simpl in Hrej. lia. }
  rewrite Hout in Hcase. injection Hcase as -> ->.
  split; [done|]. split; [done|].
  match goal with |- ownerQuery _ _ ?w0 = _ ∧ _ =>
    assert (ownerQuery newid (p_id u) w0
            = if bool_decide (p_id u = p_id user)
              then [{| t_id := newid;
                       t_title := Validator.trim (default "" (title body));
                       t_description := default "" (description body);
                       t_status := default "pending" (status body);
                       t_priority := default "medium" (priority body);
                       t_due_date := due; t_created_by := p_id user;
                       t_created_at := now; t_updated_at := now |}]
              else []) as Hq
  end.
  { unfold ownerQuery. simpl. rewrite List.filter_app. simpl.
    rewrite (bool_decide_eq_true_2 (newid = newid)) by done. simpl.
    replace (List.filter _ (tasks w)) with (@nil task).
    - simpl. destruct (decide (p_id u = p_id user)) as [He|Hne].
      + rewrite (bool_decide_eq_true_2 _ He).
        by rewrite (bool_decide_eq_true_2 (p_id user = p_id u)).
      + rewrite (bool_decide_eq_false_2 _ Hne).
        by rewrite (bool_decide_eq_false_2 (p_id user = p_id u)).
    - symmetry. apply filter_nil_iff. intros t0 Ht0.
      rewrite bool_decide_eq_false_2; [done|].
      intros Hid. apply Hfresh. apply list_elem_of_fmap. by exists t0. }
  split; [exact Hq|].
  unfold delete_task. rewrite Hq. by destruct (bool_decide (p_id u = p_id user)).
Qed.

Lemma creator_is_the_owner_witness :
  ownerQuery "t1" (p_id Sample.U2) Sample.after_create = []
  ∧ (delete_task Sample.U2 "t1" Sample.after_create).1
    = res 403 (error_json "Permission denied").
Proof.
  destruct (creator_is_the_owner Sample.isISO8601 Sample.toDate Sample.U1 Sample.U2
              Sample.draft_report "t1" 100 Sample.empty_world Sample.after_create
              Sample.the_task) as (_ & _ & Hq & Hd).
  - vm_compute. reflexivity.
  - split; [exact Hq|exact Hd].
Defined.

(** X13: When an update is answered 200 (task ids being unique), the answer
    carries a row of the id asked for whose [updated_at] is the time of
    the update, and the updating principal's list includes that row. *)
Theorem writer_has_task_listed (isISO8601 : string → bool) (toDate : string → option Z)
    (user : profile) (taskId : string) (body : task_body) (now : Z) (w w' : world)
    (row : option task)
    (Hpk : NoDup (t_id <$> tasks w))
    (Hout : put_task isISO8601 toDate user taskId body now w
            = (res 200 (task_json row), w')) :
  ∃ t', row = Some t'
    ∧ t_id t' = taskId
    ∧ t_updated_at t' = now
    ∧ t' ∈ l_task <$> list_query (p_id user) w'.
Proof.
  destruct (put_task_cases isISO8601 toDate user taskId body now w)
    as [[Hrej _]|(due & Hcase & _ & Hsome & _)].
  { rewrite Hout in Hrej. simpl in Hrej. lia. }
  rewrite Hout in Hcase. injection Hcase as -> ->.
  apply permissionQuery_some_iff in Hsome as (t & Ht & <- & Hcan).
  set (body' := (validate_update isISO8601 body).2) in *.
  rewrite (returning_updated _ (set_columns_id body' due now)) by done.
  exists (set_columns body' due now t). simpl.
  split; [done|]. split; [done|]. split; [done|].
  apply list_query_elem. simpl. split.
  - apply list_elem_of_fmap. exists t. by rewrite bool_decide_eq_true_2.
  - apply can_write_iff in Hcan as [Hown|(tc & Htc & Htask & Huser & _)]; [by left|].
    right. by exists tc.
Qed.

Lemma writer_has_task_listed_witness :
  let out := put_task Sample.isISO8601 Sample.toDate Sample.U2 "t1" Sample.completed 300
               Sample.after_share in
  ∃ t', Some (set_columns Sample.completed None 300 Sample.the_task) = Some t'
    ∧ t_id t' = "t1"
    ∧ t_updated_at t' = 300
    ∧ t' ∈ l_task <$> list_query (p_id Sample.U2) out.2.
Proof.
  apply (writer_has_task_listed Sample.isISO8601 Sample.toDate Sample.U2 "t1"
           Sample.completed 300 Sample.after_share).
  - by_evaluation.
  - vm_compute. reflexivity.
Defined.

(** X14: A create by one principal leaves the list of any other principal as
    it was, provided no grant refers to the generated id. *)
Theorem create_leaves_other_lists (isISO8601 : string → bool) (toDate : string → option Z)
    (user u : profile) (body : task_body) (newid : string) (now : Z) (w : world)
    (Hu : p_id u ≠ p_id user)
    (Hno : newid ∉ tc_task_id <$> task_collaborators w) :
  list_query (p_id u) (post_task isISO8601 toDate user body newid now w).2
  = list_query (p_id u) w.
Proof.
  destruct (post_task_cases isISO8601 toDate user body newid now w)
    as [[_ ->]|(due & -> & _)]; [done|].
  unfold list_query. simpl. f_equal.
  rewrite List.filter_app. simpl.
  match goal with |- context [listed_for _ ?w0 ?r] =>
    assert (listed_for (p_id u) w0 r = false) as ->
  end.
  { unfold listed_for. simpl.
    rewrite (bool_decide_eq_false_2 (p_id user = p_id u)) by done. simpl.
    apply bool_decide_eq_false_2.
    intros (tc & Hid & Htc)%list_elem_of_fmap.
    apply list_elem_of_In, filter_In in Htc as [Htc _].
    apply Hno. apply list_elem_of_fmap. exists tc. by rewrite <- list_elem_of_In in Htc. }
  rewrite app_nil_r. done.
Qed.

Lemma create_leaves_other_lists_witness :
  list_query (p_id Sample.U2)
    (post_task Sample.isISO8601 Sample.toDate Sample.U1 Sample.draft_report "t1" 100
       Sample.empty_world).2
  = list_query (p_id Sample.U2) Sample.empty_world.
Proof.
  apply create_leaves_other_lists; by_evaluation.
Defined.

(** X15: No request changes the owner or the creation time of a task: a task
    of the world after a request has the id, [created_by] and [created_at]
    of a task of the world before, unless it is the row that a create
    request has just inserted for its own user. *)
Theorem owner_never_changes (isEmail isISO8601 : string → bool)
    (toDate : string → option Z) (user : profile) (req : request) (w : world) (t' : task)
    (Ht' : t' ∈ tasks (handle isEmail isISO8601 toDate user req w).2) :
  (∃ t, t ∈ tasks w ∧ t_id t = t_id t' ∧ t_created_by t = t_created_by t'
        ∧ t_created_at t = t_created_at t')
  ∨ (∃ body newid now, req = POST_task body newid now
       ∧ t_id t' = newid ∧ (newid ∉ t_id <$> tasks w)
       ∧ t_created_by t' = p_id user ∧ t_created_at t' = now).
Proof.
  assert (∀ t, t ∈ tasks w →
            ∃ t0, t0 ∈ tasks w ∧ t_id t0 = t_id t ∧ t_created_by t0 = t_created_by t
                  ∧ t_created_at t0 = t_created_at t) as Hsame.
  { intros t Ht. by exists t. }
  destruct req as [|body newid now|taskId body now|taskId|taskId body newid now
                   |taskId userId|q]; simpl in Ht'.
  - left. by apply Hsame.
  - destruct (post_task_cases isISO8601 toDate user body newid now w)
      as [[_ Hw]|(due & Hcase & _ & Hfresh)].
    + rewrite Hw in Ht'. left. by apply Hsame.
    + rewrite Hcase in Ht'. simpl in Ht'.
      apply elem_of_app in Ht' as [Ht'|Heq%list_elem_of_singleton].
      * left. by apply Hsame.
      * subst t'. right. by exists body, newid, now.
  - destruct (put_task_cases isISO8601 toDate user taskId body now w)
      as [[_ Hw]|(due & Hcase & _)].
    + rewrite Hw in Ht'. left. by apply Hsame.
    + rewrite Hcase in Ht'. simpl in Ht'.
      apply list_elem_of_fmap in Ht' as (t & -> & Ht).
      left. exists t. split; [done|]. by destruct (bool_decide _).
  - destruct (delete_task_cases user taskId w) as [[Hcase _]|[Hcase _]];
      rewrite Hcase in Ht'; simpl in Ht'.
    + left. by apply Hsame.
    + apply list_elem_of_In, filter_In in Ht' as [Ht' _].
      left. apply Hsame. by apply list_elem_of_In.
  - destruct (post_collaborator_cases isEmail user taskId body newid now w)
      as [[_ Hw]|(c & Hcase & _)].
    + rewrite Hw in Ht'. left. by apply Hsame.
    + rewrite Hcase in Ht'. left. by apply Hsame.
  - destruct (delete_collaborator_cases user taskId userId w) as [[Hcase _]|[Hcase _]];
      rewrite Hcase in Ht'; left; by apply Hsame.
  - left. apply Hsame. revert Ht'. unfold get_search_users.
    destruct q as [q|]; [|done]. by destruct (_ || _).
Qed.

Lemma owner_never_changes_witness :
  let t' := set_columns Sample.completed None 300 Sample.the_task in
  (∃ t, t ∈ tasks Sample.after_share ∧ t_id t = t_id t'
        ∧ t_created_by t = t_created_by t' ∧ t_created_at t = t_created_at t')
  ∨ (∃ body newid now, PUT_task "t1" Sample.completed 300 = POST_task body newid now
       ∧ t_id t' = newid ∧ (newid ∉ t_id <$> tasks Sample.after_share)
       ∧ t_created_by t' = p_id Sample.U2 ∧ t_created_at t' = now).
Proof.
  apply (owner_never_changes Sample.isEmail Sample.isISO8601 Sample.toDate Sample.U2
           (PUT_task "t1" Sample.completed 300) Sample.after_share).
  by_evaluation.
Defined.


Lemma get_search_users_rows (user : profile) (q : option string) (w : world) :
  get_search_users user q w
  = (res 200 (users_json
       (match q with
        | Some s =>
          if (String.length s <? 2)%nat then []
          else search_query ("%" +:+ s +:+ "%") (p_id user) w
        | None => []
        end)), w).
Proof.
  unfold get_search_users. destruct q as [s|]; [|done].
  destruct (String.length s <? 2)%nat eqn:Hlen.
  - by rewrite orb_true_r.
  - rewrite bool_decide_eq_false_2; [done|].
    intros ->. simpl in Hlen. done.
Qed.

(** X17: A search answers 200 with at most 10 profiles, taken in table order
    from the profiles, none of them the requester; with no profile at all
    when the query is absent or shorter than two characters; and it never
    changes the world. *)
Theorem search_users_bounds (user : profile) (q : option string) (w : world) :
  ∃ rows,
    get_search_users user q w = (res 200 (users_json rows), w)
    ∧ (List.length rows ≤ 10)%nat
    ∧ rows `sublist_of` profiles w
    ∧ Forall (λ p, p_id p ≠ p_id user) rows
    ∧ match q with
      | Some s => if (String.length s <? 2)%nat then rows = [] else True
      | None => rows = []
      end.
Proof.
  rewrite get_search_users_rows. eexists. split; [reflexivity|].
  assert ((List.length (@nil profile) ≤ 10)%nat
          ∧ @nil profile `sublist_of` profiles w
          ∧ Forall (λ p, p_id p ≠ p_id user) (@nil profile)
          ∧ @nil profile = []) as Hempty.
  { split; [simpl; lia|]. split; [apply sublist_nil_l|]. split; [constructor|done]. }
  destruct q as [s|]; [|exact Hempty].
  destruct (String.length s <? 2)%nat; [exact Hempty|].
  split; [apply search_query_limit|]. split.
  - unfold search_query. etrans; [apply sublist_take|apply filter_sublist].
  - split; [|done]. apply Forall_forall. intros p Hp.
    by apply search_query_rows in Hp as (_ & ? & _).
Qed.

(** X18: For a query of two characters or more without [%], [_] and
    backslash, every profile returned contains the query in its email or
    name, case-insensitively, and when fewer than 10 are returned every
    other profile that does is among them. *)
Theorem search_users_plain_query (user : profile) (s : string) (w : world)
    (Hplain : Spec.plain s = true) (Hlen : (2 ≤ String.length s)%nat) :
  ∃ rows,
    get_search_users user (Some s) w = (res 200 (users_json rows), w)
    ∧ Forall (λ p, Spec.contains (p_email p) s || Spec.contains (p_name p) s = true) rows
    ∧ ((List.length rows < 10)%nat →
       ∀ p, p ∈ profiles w → p_id p ≠ p_id user →
            Spec.contains (p_email p) s || Spec.contains (p_name p) s = true →
            p ∈ rows).
Proof.
  rewrite get_search_users_rows.
  rewrite (proj2 (Nat.ltb_ge _ _) Hlen).
  eexists. split; [reflexivity|]. split.
  - apply Forall_forall. intros p (_ & _ & Hlike)%search_query_rows.
    by rewrite <- !(ILIKE_plain _ _ Hplain).
  - unfold search_query. intros Hfew p Hp Hid Hc.
    rewrite length_take in Hfew.
    rewrite take_ge by lia.
    apply list_elem_of_In, filter_In. split; [by apply list_elem_of_In|].
    rewrite !(ILIKE_plain _ _ Hplain), Hc. simpl.
    by rewrite bool_decide_eq_false_2.
Qed.

Lemma search_users_plain_query_witness :
  ∃ rows,
    get_search_users Sample.U1 (Some "DOS") Sample.empty_world
    = (res 200 (users_json rows), Sample.empty_world)
    ∧ Forall (λ p, Spec.contains (p_email p) "DOS" || Spec.contains (p_name p) "DOS" = true)
        rows
    ∧ ((List.length rows < 10)%nat →
       ∀ p, p ∈ profiles Sample.empty_world → p_id p ≠ p_id Sample.U1 →
            Spec.contains (p_email p) "DOS" || Spec.contains (p_name p) "DOS" = true →
            p ∈ rows).
Proof.
  apply search_users_plain_query.
  - reflexivity.
  - simpl. lia.
Defined.

(** * Further properties of the socket listeners *)

Module ListenerFacts.
Import TaskContext.

Lemma strict_eq_eq (a b : option value) : strict_eq a b = true → a = b.
Proof.
  destruct a as [[]|], b as [[]|]; simpl; try done;
    by intros ->%bool_decide_eq_true.
Qed.

Lemma strict_eq_str (a : option value) (x : string) :
  strict_eq a (Some (str x)) = true ↔ a = Some (str x).
Proof.
  split; [apply strict_eq_eq|]. intros ->. simpl. by apply bool_decide_eq_true_2.
Qed.

Lemma spread_id (task data_task : Task) :
  strict_eq (task !! "id") (data_task !! "id") = true →
  spread task data_task !! "id" = task !! "id".
Proof.
  intros Heq%strict_eq_eq. rewrite TaskContextFacts.spread_lookup.
  rewrite <- Heq. by destruct (task !! "id").
Qed.

Abbreviation merge data_task :=
  (λ task : Task,
     if strict_eq (task !! "id") (data_task !! "id") then spread task data_task else task).

Lemma on_task_updated_merge (data_task : Task) (prev : list Task) :
  on_task_updated data_task prev = merge data_task <$> prev.
Proof. reflexivity. Qed.

Lemma merge_id (data_task task : Task) : merge data_task task !! "id" = task !! "id".
Proof.
  simpl. destruct (strict_eq _ _) eqn:Heq; [|done]. by apply spread_id.
Qed.

Lemma merge_idemp (data_task task : Task) :
  merge data_task (merge data_task task) = merge data_task task.
Proof.
  pose proof (merge_id data_task task) as Hid. simpl in *. rewrite Hid.
  destruct (strict_eq _ _); [|done].
  unfold spread. by rewrite (assoc_L (∪)), (idemp_L (∪)).
Qed.

(** X19: The [task_updated] listener changes neither the length of the local
    list nor the id at any position. *)
Theorem task_updated_keeps_ids (data_task : Task) (prev : list Task) :
  ids (on_task_updated data_task prev) = ids prev
  ∧ List.length (on_task_updated data_task prev) = List.length prev.
Proof.
  rewrite on_task_updated_merge. split.
  - unfold ids. rewrite <- list_fmap_compose. apply list_fmap_ext.
    intros i t _. apply merge_id.
  - apply length_fmap.
Qed.

(** X20: Applying the same [task_updated] record twice leaves the local list
    as applying it once. *)
Theorem task_updated_idempotent (data_task : Task) (prev : list Task) :
  on_task_updated data_task (on_task_updated data_task prev)
  = on_task_updated data_task prev.
Proof.
  rewrite !on_task_updated_merge, <- list_fmap_compose.
  apply list_fmap_ext. intros i t _. apply merge_idemp.
Qed.

(** A [task_updated] record of an id that no local task has leaves the
    local list as it was. *)
Lemma task_updated_unknown_id (data_task : Task) (prev : list Task) (id : string)
    (Hid : data_task !! "id" = Some (str id))
    (Habsent : Some (str id) ∉ ids prev) :
  on_task_updated data_task prev = prev.
Proof.
  rewrite on_task_updated_merge.
  rewrite <- (list_fmap_id prev) at 2. apply list_fmap_ext.
  intros i t Ht. simpl. rewrite Hid.
  destruct (strict_eq (t !! "id") (Some (str id))) eqn:Heq; [|done].
  exfalso. apply Habsent. apply strict_eq_str in Heq. rewrite <- Heq.
  apply list_elem_of_fmap. exists t. split; [done|]. by eapply list_elem_of_lookup_2.
Qed.

Lemma merge_commute (d1 d2 task : Task) (a b : string) :
  d1 !! "id" = Some (str a) → d2 !! "id" = Some (str b) → a ≠ b →
  merge d1 (merge d2 task) = merge d2 (merge d1 task).
Proof.
  intros H1 H2 Hne.
  pose proof (merge_id d1 task) as Hid1. pose proof (merge_id d2 task) as Hid2.
  simpl in *. rewrite Hid1, Hid2.
  destruct (strict_eq (task !! "id") (d1 !! "id")) eqn:E1,
           (strict_eq (task !! "id") (d2 !! "id")) eqn:E2; try done.
  rewrite H1 in E1. rewrite H2 in E2.
  apply strict_eq_str in E1. apply strict_eq_str in E2. congruence.
Qed.

(** X21: Two [task_updated] records of different ids can be applied in either
    order. *)
Theorem task_updated_commute (d1 d2 : Task) (prev : list Task) (a b : string)
    (H1 : d1 !! "id" = Some (str a)) (H2 : d2 !! "id" = Some (str b)) (Hne : a ≠ b) :
  on_task_updated d1 (on_task_updated d2 prev)
  = on_task_updated d2 (on_task_updated d1 prev).
Proof.
  rewrite !on_task_updated_merge, <- !list_fmap_compose.
  apply list_fmap_ext. intros i t _. by apply (merge_commute d1 d2 t a b).
Qed.

Lemma task_updated_commute_witness :
  let d1 := row_object Sample.toISOString Sample.the_task in
  let d2 := row_object Sample.toISOString Sample.other_task in
  on_task_updated d1 (on_task_updated d2 [Sample.local_task])
  = on_task_updated d2 (on_task_updated d1 [Sample.local_task]).
Proof.
  apply (task_updated_commute _ _ _ "t1" "t2").
  - reflexivity.
  - reflexivity.
  - by_evaluation.
Defined.

Lemma merge_overwrite (d1 d2 task : Task) :
  strict_eq (d1 !! "id") (d2 !! "id") = true →
  (∀ k, is_Some (d1 !! k) → is_Some (d2 !! k)) →
  merge d2 (merge d1 task) = merge d2 task.
Proof.
  intros Hid Hdom.
  pose proof (merge_id d1 task) as Hid1. simpl in *. rewrite Hid1.
  apply strict_eq_eq in Hid. rewrite <- Hid.
  destruct (strict_eq (task !! "id") (d1 !! "id")); [|done].
  unfold spread. apply map_eq. intros k. rewrite !lookup_union.
  specialize (Hdom k).
  destruct (d2 !! k) as [v2|], (d1 !! k) as [v1|], (task !! k) as [v|]; try done.
  - destruct Hdom as [v' Hv']; [by eexists|done].
  - destruct Hdom as [v' Hv']; [by eexists|done].
Qed.

Lemma row_object_dom (toISOString : Z → string) (r1 r2 : task) (k : string) :
  is_Some (row_object toISOString r1 !! k) → is_Some (row_object toISOString r2 !! k).
Proof.
  unfold row_object. intros [v Hv].
  apply elem_of_list_to_map_2 in Hv.
  repeat (apply elem_of_cons in Hv as [Heq|Hv];
          [injection Heq as -> _; eexists; reflexivity|]).
  by apply elem_of_nil in Hv.
Qed.

(** X22: Of two [task_updated] records of the same task, as the server emits
    them, applying both leaves the local list as applying the later one
    alone. *)
Theorem last_update_wins (toISOString : Z → string) (r1 r2 : task) (prev : list Task)
    (Hid : t_id r1 = t_id r2) :
  on_task_updated (row_object toISOString r2)
    (on_task_updated (row_object toISOString r1) prev)
  = on_task_updated (row_object toISOString r2) prev.
Proof.
  rewrite !on_task_updated_merge, <- list_fmap_compose.
  apply list_fmap_ext. intros i t _.
  apply (merge_overwrite (row_object toISOString r1) (row_object toISOString r2) t).
  - rewrite !TaskContextFacts.row_object_id. simpl. by apply bool_decide_eq_true_2.
  - apply row_object_dom.
Qed.

Lemma last_update_wins_witness :
  let r2 := set_columns Sample.completed None 300 Sample.the_task in
  on_task_updated (row_object Sample.toISOString r2)
    (on_task_updated (row_object Sample.toISOString Sample.the_task) [Sample.local_task])
  = on_task_updated (row_object Sample.toISOString r2) [Sample.local_task].
Proof.
  apply last_update_wins. reflexivity.
Defined.

Lemma on_task_deleted_elem (taskId : string) (prev : list Task) (t : Task) :
  t ∈ on_task_deleted taskId prev ↔ t ∈ prev ∧ t !! "id" ≠ Some (str taskId).
Proof.
  unfold on_task_deleted. rewrite list_elem_of_In, filter_In, <- list_elem_of_In.
  rewrite negb_true_iff, <- not_true_iff_false, strict_eq_str. done.
Qed.

(** X23: The [task_deleted] listener removes every local task of the id,
    keeps every other task, in order, and applying it twice is as applying
    it once. *)
Theorem task_deleted_removes (taskId : string) (prev : list Task) :
  (Some (str taskId) ∉ ids (on_task_deleted taskId prev))
  ∧ on_task_deleted taskId prev `sublist_of` prev
  ∧ Forall (λ t, t !! "id" = Some (str taskId) ∨ t ∈ on_task_deleted taskId prev) prev
  ∧ on_task_deleted taskId (on_task_deleted taskId prev) = on_task_deleted taskId prev.
Proof.
  split.
  { intros (t & Hid & Ht)%list_elem_of_fmap.
    apply on_task_deleted_elem in Ht as [_ Hne]. by apply Hne. }
  split; [apply filter_sublist|]. split.
  - apply Forall_forall. intros t Ht.
    destruct (strict_eq (t !! "id") (Some (str taskId))) eqn:Heq.
    + left. by apply strict_eq_str.
    + right. apply on_task_deleted_elem. split; [done|].
      intros Hid. apply strict_eq_str in Hid. congruence.
  - apply filter_filter_same.
Qed.

(** A [task_deleted] record removes the task of a [task_created] record
    of the same id, even applied twice. *)
Lemma created_then_deleted (data_task : Task) (taskId : string) (prev : list Task)
    (Hid : data_task !! "id" = Some (str taskId)) :
  on_task_deleted taskId (on_task_created data_task prev) = on_task_deleted taskId prev
  ∧ on_task_deleted taskId (on_task_created data_task (on_task_created data_task prev))
    = on_task_deleted taskId prev.
Proof.
  unfold on_task_deleted, on_task_created. simpl. rewrite Hid. simpl.
  by rewrite bool_decide_eq_true_2.
Qed.

(** X24: A [task_deleted] record and a [task_updated] record can be applied
    in either order. *)
Theorem task_deleted_updated_commute (data_task : Task) (taskId : string)
    (prev : list Task) :
  on_task_deleted taskId (on_task_updated data_task prev)
  = on_task_updated data_task (on_task_deleted taskId prev).
Proof.
  rewrite !on_task_updated_merge. unfold on_task_deleted.
  induction prev as [|t prev IH]; [done|].
  rewrite fmap_cons. cbn [List.filter].
  pose proof (merge_id data_task t) as Hid. cbn beta in Hid. rewrite Hid.
  destruct (negb (strict_eq (t !! "id") (Some (str taskId)))).
  - rewrite fmap_cons. by rewrite IH.
  - exact IH.
Qed.

End ListenerFacts.

(** * TaskCard and Dashboard against the routes *)

Lemma existsb_fmap {A B} (f : B → bool) (g : A → B) (l : list A) :
  existsb f (g <$> l) = existsb (λ x, f (g x)) l.
Proof. induction l as [|x l IH]; [done|]. cbn. by rewrite IH. Qed.

Lemma canEdit_listing (user : profile) (w : world) (t : task) :
  TaskCard.canEdit (Some user) (listing w t) = Spec.can_write (p_id user) t w.
Proof.
  unfold TaskCard.canEdit, TaskCard.isOwner, Spec.can_write. simpl TaskCard.user_id.
  rewrite listing_collaborators. simpl l_task.
  f_equal.
  - apply eq_true_iff_eq. rewrite !bool_decide_eq_true. split; congruence.
  - rewrite existsb_fmap. apply eq_true_iff_eq.
    rewrite existsb_exists, bool_decide_eq_true, Exists_exists. split.
    + intros (tc & Htc & Hc). apply filter_In in Htc as [Htc Hid%bool_decide_eq_true].
      apply andb_prop in Hc as [Hu%bool_decide_eq_true Hp%bool_decide_eq_true].
      simpl in *. exists tc. rewrite list_elem_of_In. repeat split; congruence.
    + intros (tc & Htc & Hid & Hu & Hp). exists tc. split.
      * apply filter_In. split; [by apply list_elem_of_In|].
        by apply bool_decide_eq_true_2.
      * simpl. rewrite Hu, Hp. by rewrite !bool_decide_eq_true_2.
Qed.

(** X25: On a listed task (task ids being unique), the card's [canEdit] holds
    exactly when the permission query of an update selects a row for the
    user. *)
Theorem card_edit_matches_server (user : profile) (w : world) (t : task)
    (Hpk : NoDup (t_id <$> tasks w)) (Ht : t ∈ tasks w) :
  bool_decide (List.length (permissionQuery (t_id t) (p_id user) w) = 0%nat)
  = negb (TaskCard.canEdit (Some user) (listing w t)).
Proof.
  rewrite canEdit_listing.
  destruct (Spec.can_write (p_id user) t w) eqn:Hcan; simpl.
  - apply bool_decide_eq_false_2. rewrite length_zero_iff.
    apply permissionQuery_some_iff. by exists t.
  - apply bool_decide_eq_true_2. rewrite length_zero_iff.
    apply permissionQuery_nil_iff. intros t0 Ht0 Hid0.
    by rewrite (unique_task w t0 t Hpk Ht0 Ht Hid0).
Qed.

Lemma card_edit_matches_server_witness :
  bool_decide (List.length (permissionQuery "t1" (p_id Sample.U3) Sample.after_share) = 0%nat)
  = negb (TaskCard.canEdit (Some Sample.U3) (listing Sample.after_share Sample.the_task)).
Proof.
  apply (card_edit_matches_server Sample.U3 Sample.after_share Sample.the_task);
    by_evaluation.
Defined.

(** X26: On a listed task (task ids being unique), a delete that the card
    sends is answered 200, and a confirmed delete that the card withholds
    would have been answered 403. *)
Theorem card_delete_matches_server (user : profile) (w : world) (t : task)
    (confirmed : bool)
    (Hpk : NoDup (t_id <$> tasks w)) (Ht : t ∈ tasks w) :
  match TaskCard.handleDelete (Some user) (listing w t) confirmed with
  | Some id =>
      delete_task user id w
      = (res 200 (message_json "Task deleted successfully"),
         emit (task_deleted id user) (delete_tasks id w))
  | None =>
      confirmed = false
      ∨ delete_task user (t_id t) w = (res 403 (error_json "Permission denied"), w)
  end.
Proof.
  unfold TaskCard.handleDelete, TaskCard.isOwner. simpl.
  destruct (decide (t_created_by t = p_id user)) as [Hown|Hnot].
  - rewrite bool_decide_eq_true_2 by (by rewrite Hown). simpl.
    destruct confirmed; [|by left].
    unfold delete_task. by rewrite (ownerQuery_owner (t_id t) (p_id user) w t).
  - rewrite bool_decide_eq_false_2 by congruence. simpl. right.
    unfold delete_task. by rewrite (ownerQuery_not_owner w t (p_id user)).
Qed.

Lemma card_delete_matches_server_witness :
  match TaskCard.handleDelete (Some Sample.U2)
          (listing Sample.after_share Sample.the_task) true with
  | Some id =>
      delete_task Sample.U2 id Sample.after_share
      = (res 200 (message_json "Task deleted successfully"),
         emit (task_deleted id Sample.U2) (delete_tasks id Sample.after_share))
  | None =>
      true = false
      ∨ delete_task Sample.U2 "t1" Sample.after_share
        = (res 403 (error_json "Permission denied"), Sample.after_share)
  end.
Proof.
  apply (card_delete_matches_server Sample.U2 Sample.after_share Sample.the_task true);
    by_evaluation.
Defined.

Lemma put_task_by_writer (isISO8601 : string → bool) (toDate : string → option Z)
    (user : profile) (body : task_body) (now : Z) (w : world) (i : nat) (t : task)
    (due : option Z) :
  NoDup (t_id <$> tasks w) → tasks w !! i = Some t →
  (validate_update isISO8601 body).1 = [] →
  Spec.can_write (p_id user) t w = true →
  updates (validate_update isISO8601 body).2 ≠ [] →
  update_due_date toDate (due_date (validate_update isISO8601 body).2) = Some due →
  let t' := set_columns (validate_update isISO8601 body).2 due now t in
  put_task isISO8601 toDate user (t_id t) body now w
  = (res 200 (task_json (Some t')),
     emit (task_updated (Some t') user) (with_tasks (<[i := t']> (tasks w)) w)).
Proof.
  intros Hpk Hi Hvalid Hcan Hup Hdue t'. subst t'.
  assert (t ∈ tasks w) as Ht by (by eapply list_elem_of_lookup_2).
  unfold put_task.
  destruct (validate_update isISO8601 body) as [errors body']. simpl in *. subst errors.
  simpl. rewrite bool_decide_eq_false_2.
  2:{ rewrite length_zero_iff. apply permissionQuery_some_iff. by exists t. }
  rewrite bool_decide_eq_false_2 by (by rewrite length_zero_iff).
  rewrite Hdue. unfold update_tasks.
  rewrite (returning_updated _ (set_columns_id body' due now)) by done.
  rewrite (update_by_id_insert (set_columns body' due now) _ i) by done.
  done.
Qed.

(** X27: On a listed task (task ids being unique), the update that a click on
    the status badge sends is answered 200 and sets the next status of the
    cycle and [updated_at] alone; when the card sends nothing, an update of
    the task by that user, with a valid body, would be answered 403. *)
Theorem status_click_accepted (isISO8601 : string → bool) (toDate : string → option Z)
    (user : profile) (w : world) (i : nat) (t : task) (now : Z) (body : task_body)
    (Hpk : NoDup (t_id <$> tasks w)) (Hi : tasks w !! i = Some t)
    (Hvalid : (validate_update isISO8601 body).1 = []) :
  match TaskCard.status_click (Some user) (listing w t) with
  | Some (id, click) =>
      let t' :=
        {| t_id := t_id t; t_title := t_title t; t_description := t_description t;
           t_status := TaskCard.next_status (t_status t); t_priority := t_priority t;
           t_due_date := t_due_date t; t_created_by := t_created_by t;
           t_created_at := t_created_at t; t_updated_at := now |} in
      put_task isISO8601 toDate user id click now w
      = (res 200 (task_json (Some t')),
         emit (task_updated (Some t') user) (with_tasks (<[i := t']> (tasks w)) w))
  | None =>
      put_task isISO8601 toDate user (t_id t) body now w
      = (res 403 (error_json "Permission denied"), w)
  end.
Proof.
  assert (t ∈ tasks w) as Ht by (by eapply list_elem_of_lookup_2).
  unfold TaskCard.status_click, TaskCard.handleStatusChange.
  rewrite canEdit_listing.
  destruct (Spec.can_write (p_id user) t w) eqn:Hcan; simpl.
  - set (click := {| title := None; description := None;
                     status := Some (TaskCard.next_status (t_status t));
                     priority := None; due_date := None |}).
    assert ((validate_update isISO8601 click).1 = []) as Hv.
    { apply validate_update_ok. simpl. repeat split.
      unfold Validator.isIn, TaskCard.next_status.
      apply bool_decide_eq_true_2.
      destruct (bool_decide (t_status t = "pending")); [set_solver|].
      destruct (bool_decide (t_status t = "in_progress")); set_solver. }
    by rewrite (put_task_by_writer isISO8601 toDate user click now w i t None).
  - apply put_task_refused; [done|].
    apply permissionQuery_nil_iff. intros t0 Ht0 Hid0.
    by rewrite (unique_task w t0 t Hpk Ht0 Ht Hid0).
Qed.

Lemma status_click_accepted_witness :
  TaskCard.status_click (Some Sample.U2) (listing Sample.after_share Sample.the_task)
  = Some ("t1", {| title := None; description := None; status := Some "in_progress";
                   priority := None; due_date := None |})
  ∧ res_status
      (put_task Sample.isISO8601 Sample.toDate Sample.U2 "t1"
         {| title := None; description := None; status := Some "in_progress";
            priority := None; due_date := None |} 300 Sample.after_share).1 = 200%nat.
Proof.
  split; [vm_compute; reflexivity|].
  pose proof (status_click_accepted Sample.isISO8601 Sample.toDate Sample.U2
                Sample.after_share 0 Sample.the_task 300 Sample.completed) as H.
  change (TaskCard.status_click (Some Sample.U2)
            (listing Sample.after_share Sample.the_task))
    with (Some ("t1", {| title := None; description := None;
                         status := Some "in_progress";
                         priority := None; due_date := None |})) in H.
  rewrite H; [reflexivity|by_evaluation|reflexivity|reflexivity].
Defined.

(** The status cycle goes through the three statuses. *)
Lemma status_cycle (s : string)
    (Hs : s ∈ ["pending"; "in_progress"; "completed"]) :
  TaskCard.next_status s ∈ ["pending"; "in_progress"; "completed"]
  ∧ TaskCard.next_status s ≠ s
  ∧ TaskCard.next_status (TaskCard.next_status s) ≠ s
  ∧ TaskCard.next_status (TaskCard.next_status (TaskCard.next_status s)) = s.
Proof.
  repeat (apply elem_of_cons in Hs as [->|Hs]); [..|by apply elem_of_nil in Hs];
    vm_compute; repeat split; try done; set_solver.
Qed.

Lemma filter_length_split {A} (f : A → bool) (l : list A) :
  (List.length (List.filter f l) + List.length (List.filter (λ x, negb (f x)) l)
   = List.length l)%nat.
Proof.
  induction l as [|a l IH]; [done|]. simpl.
  destruct (f a); simpl; lia.
Qed.

Lemma shown_my_shared (toDateString : Z → string) (user : option profile)
    (searchQuery : string) (now : Z) (t : task_listing) :
  Dashboard.shown toDateString user searchQuery Dashboard.all now t
  = xorb (Dashboard.shown toDateString user searchQuery Dashboard.my now t)
         (Dashboard.shown toDateString user searchQuery Dashboard.shared now t)
  ∧ Dashboard.shown toDateString user searchQuery Dashboard.my now t
    && Dashboard.shown toDateString user searchQuery Dashboard.shared now t = false.
Proof.
  unfold Dashboard.shown.
  destruct (negb (bool_decide (searchQuery = "")) && _); [done|].
  by destruct (bool_decide _).
Qed.

(** The "my" and "shared" filters split the tasks that the search shows. *)
Lemma my_and_shared_partition (toDateString : Z → string) (user : option profile)
    (searchQuery : string) (now : Z) (tasks : list task_listing) :
  (List.length (Dashboard.filteredTasks toDateString user searchQuery Dashboard.my now tasks)
   + List.length
       (Dashboard.filteredTasks toDateString user searchQuery Dashboard.shared now tasks)
   = List.length
       (Dashboard.filteredTasks toDateString user searchQuery Dashboard.all now tasks))%nat
  ∧ Dashboard.shared_count (Dashboard.taskStats user tasks)
    = List.length (Dashboard.filteredTasks toDateString user "" Dashboard.shared now tasks)
  ∧ Dashboard.filteredTasks toDateString user "" Dashboard.all now tasks = tasks.
Proof.
  unfold Dashboard.filteredTasks. split; [|split].
  - induction tasks as [|t tasks IH]; [done|]. cbn [List.filter].
    destruct (shown_my_shared toDateString user searchQuery now t) as [-> Hdisj].
    destruct (Dashboard.shown toDateString user searchQuery Dashboard.my now t),
             (Dashboard.shown toDateString user searchQuery Dashboard.shared now t);
      simpl in *; try done; lia.
  - reflexivity.
  - induction tasks as [|t tasks IH]; [done|]. cbn [List.filter].
    rewrite IH. done.
Qed.

Lemma count_status_split (tasks : list task_listing) :
  Forall (λ r, t_status (l_task r) ∈ ["pending"; "in_progress"; "completed"]) tasks →
  (Dashboard.count_status "pending" tasks + Dashboard.count_status "in_progress" tasks
   + Dashboard.count_status "completed" tasks = List.length tasks)%nat.
Proof.
  unfold Dashboard.count_status. induction 1 as [|r tasks Hr _ IH]; [done|]. simpl.
  repeat (apply elem_of_cons in Hr as [->|Hr]); [..|by apply elem_of_nil in Hr];
    simpl; lia.
Qed.

(** X28: On the list that GET / returns from a world whose stored fields are
    valid, the dashboard's pending, in-progress and completed counters add
    up to the total, and the shared counter does not exceed it. *)
Theorem stats_add_up (user : profile) (w : world) (Hvalid : fields_valid w) :
  let st := Dashboard.taskStats (Some user) (list_query (p_id user) w) in
  (Dashboard.pending st + Dashboard.inProgress st + Dashboard.completed_count st
   = Dashboard.total st)%nat
  ∧ (Dashboard.shared_count st ≤ Dashboard.total st)%nat.
Proof.
  intros st. subst st. simpl. split.
  - apply count_status_split. apply Forall_forall. intros r Hr.
    assert (l_task r ∈ l_task <$> list_query (p_id user) w) as Hin.
    { apply list_elem_of_fmap. by exists r. }
    apply list_query_elem in Hin as [Hin _].
    destruct Hvalid as [Htasks _].
    by apply (proj1 (Forall_forall _ _) Htasks) in Hin as (_ & _ & ? & _).
  - pose proof (filter_length_split
      (λ t, bool_decide (Some (t_created_by (l_task t)) = Some (p_id user)))
      (list_query (p_id user) w)). simpl in *. lia.
Qed.

Lemma stats_add_up_witness :
  let st := Dashboard.taskStats (Some Sample.U2)
              (list_query (p_id Sample.U2) Sample.after_share) in
  (Dashboard.pending st + Dashboard.inProgress st + Dashboard.completed_count st
   = Dashboard.total st)%nat
  ∧ (Dashboard.shared_count st ≤ Dashboard.total st)%nat.
Proof.
  apply stats_add_up. split.
  - change (tasks Sample.after_share) with [Sample.the_task].
    apply Forall_singleton. repeat split; try reflexivity; by_evaluation.
  - change (task_collaborators Sample.after_share) with [Sample.the_grant].
    apply Forall_singleton. by_evaluation.
Defined.

(** * Properties of the SocketManager *)

Module SocketManagerFacts.
Import SocketManager.

Lemma get_cons (event k : string) (v : list callback) (m : registry) :
  get event ((k, v) :: m) = if bool_decide (k = event) then Some v else get event m.
Proof. unfold get. simpl. by destruct (bool_decide (k = event)). Qed.

Lemma get_None (event : string) (m : registry) :
  event ∉ m.*1 → get event m = None.
Proof.
  induction m as [|[k v] m IH]; [done|]. intros Hnot.
  rewrite get_cons. rewrite fmap_cons in Hnot. apply not_elem_of_cons in Hnot as [Hne Hnot].
  rewrite bool_decide_eq_false_2 by done. by apply IH.
Qed.

Lemma get_is_Some (event : string) (m : registry) :
  event ∈ m.*1 → is_Some (get event m).
Proof.
  induction m as [|[k v] m IH]; intros Hin; [by apply elem_of_nil in Hin|].
  rewrite get_cons. destruct (decide (k = event)) as [->|Hne].
  - rewrite bool_decide_eq_true_2 by done. by eexists.
  - rewrite bool_decide_eq_false_2 by done. apply IH.
    rewrite fmap_cons in Hin. apply elem_of_cons in Hin as [Heq|Hin]; [|done].
    simpl in Heq. congruence.
Qed.

Lemma set_keys_present (event : string) (cbs : list callback) (m : registry) :
  event ∈ m.*1 →
  set event cbs m = (λ kv, if bool_decide (kv.1 = event) then (event, cbs) else kv) <$> m.
Proof. intros Hin. unfold set, has. by rewrite bool_decide_eq_true_2. Qed.

Lemma set_keys_absent (event : string) (cbs : list callback) (m : registry) :
  event ∉ m.*1 → set event cbs m = m ++ [(event, cbs)].
Proof. intros Hin. unfold set, has. by rewrite bool_decide_eq_false_2. Qed.

Lemma set_keys (event : string) (cbs : list callback) (m : registry) :
  (set event cbs m).*1 = if has event m then m.*1 else m.*1 ++ [event].
Proof.
  unfold set. destruct (has event m) eqn:Hhas.
  - rewrite <- list_fmap_compose. apply list_fmap_ext. intros i [k v] _. simpl.
    destruct (decide (k = event)) as [->|Hne].
    + by rewrite bool_decide_eq_true_2.
    + by rewrite bool_decide_eq_false_2.
  - by rewrite fmap_app.
Qed.

Lemma set_NoDup (event : string) (cbs : list callback) (m : registry) :
  NoDup m.*1 → NoDup (set event cbs m).*1.
Proof.
  intros Hm. rewrite set_keys. unfold has.
  destruct (decide (event ∈ m.*1)) as [Hin|Hnot].
  - by rewrite bool_decide_eq_true_2.
  - rewrite bool_decide_eq_false_2 by done.
    apply NoDup_app. split; [done|]. split; [|apply NoDup_singleton].
    intros x Hx ->%list_elem_of_singleton. done.
Qed.

Lemma get_set (event e : string) (cbs : list callback) (m : registry) :
  get e (set event cbs m) = if bool_decide (e = event) then Some cbs else get e m.
Proof.
  unfold set, has. destruct (decide (event ∈ m.*1)) as [Hin|Hnot].
  - rewrite bool_decide_eq_true_2 by done.
    induction m as [|[k v] m IH]; [by apply elem_of_nil in Hin|].
    rewrite fmap_cons. simpl.
    destruct (decide (k = event)) as [->|Hne].
    + rewrite bool_decide_eq_true_2 by done. rewrite !get_cons.
      destruct (decide (event = e)) as [->|Hne'].
      * by rewrite !bool_decide_eq_true_2.
      * rewrite (bool_decide_eq_false_2 (event = e)) by done.
        rewrite (bool_decide_eq_false_2 (e = event)) by done.
        destruct (decide (event ∈ m.*1)) as [Hin'|Hnot'].
        -- rewrite (IH Hin'). by rewrite bool_decide_eq_false_2.
        -- clear IH Hin.
           assert (∀ l : registry, event ∉ l.*1 →
                     (λ kv : string * list callback,
                        if bool_decide (kv.1 = event) then (event, cbs) else kv) <$> l = l)
             as Hid.
           { intros l. induction l as [|[k' v'] l IHl]; [done|]. intros Hl.
             rewrite fmap_cons in Hl. apply not_elem_of_cons in Hl as [Hk Hl].
             rewrite fmap_cons. simpl in *.
             rewrite bool_decide_eq_false_2 by done. by rewrite IHl. }
           by rewrite Hid.
    + rewrite bool_decide_eq_false_2 by done. rewrite !get_cons.
      rewrite fmap_cons in Hin. apply elem_of_cons in Hin as [Heq|Hin];
        [simpl in Heq; congruence|].
      rewrite (IH Hin).
      destruct (decide (k = e)) as [->|Hke].
      * rewrite bool_decide_eq_true_2 by done.
        by rewrite (bool_decide_eq_false_2 (e = event)).
      * by rewrite (bool_decide_eq_false_2 (k = e)).
  - rewrite bool_decide_eq_false_2 by done.
    induction m as [|[k v] m IH].
    + simpl. rewrite get_cons.
      destruct (decide (event = e)) as [->|Hne].
      * by rewrite !bool_decide_eq_true_2.
      * rewrite (bool_decide_eq_false_2 (event = e)) by done.
        by rewrite (bool_decide_eq_false_2 (e = event)).
    + rewrite fmap_cons in Hnot. apply not_elem_of_cons in Hnot as [Hk Hnot].
      simpl in Hk. rewrite <- app_comm_cons, !get_cons, (IH Hnot).
      destruct (decide (k = e)) as [->|Hke].
      * rewrite bool_decide_eq_true_2 by done.
        by rewrite (bool_decide_eq_false_2 (e = event)).
      * by rewrite (bool_decide_eq_false_2 (k = e)).
Qed.

Lemma get_default (event : string) (m : registry) :
  get event (if has event m then m else set event [] m)
  = Some (default [] (get event m)).
Proof.
  unfold has. destruct (decide (event ∈ m.*1)) as [Hin|Hnot].
  - rewrite bool_decide_eq_true_2 by done.
    by destruct (get_is_Some event m Hin) as [cbs ->].
  - rewrite bool_decide_eq_false_2 by done.
    rewrite get_set, bool_decide_eq_true_2 by done. by rewrite get_None.
Qed.

Lemma get_other (event e : string) (m : registry) :
  e ≠ event → get e (if has event m then m else set event [] m) = get e m.
Proof.
  intros Hne. destruct (has event m); [done|].
  by rewrite get_set, bool_decide_eq_false_2.
Qed.

Lemma on_get (event e : string) (cb : callback) (m : manager) :
  get e (listeners (on event cb m))
  = if bool_decide (e = event) then Some (default [] (get event (listeners m)) ++ [cb])
    else get e (listeners m).
Proof.
  unfold on. simpl. rewrite get_default, get_set.
  destruct (decide (e = event)) as [->|Hne].
  - by rewrite !bool_decide_eq_true_2.
  - rewrite bool_decide_eq_false_2 by done. by apply get_other.
Qed.

Lemma splice_first_absent (cb : callback) (cbs : list callback) :
  cb ∉ cbs → splice_first cb cbs = cbs ∧ splice_first cb (cbs ++ [cb]) = cbs.
Proof.
  induction cbs as [|x cbs IH]; intros Hnot; simpl.
  - by rewrite bool_decide_eq_true_2.
  - apply not_elem_of_cons in Hnot as [Hne Hnot].
    rewrite bool_decide_eq_false_2 by done.
    destruct (IH Hnot) as [-> ->]. done.
Qed.

Lemma off_get (event e : string) (cb : callback) (m : manager) :
  get e (listeners (off event (Some cb) m))
  = if bool_decide (e = event)
    then splice_first cb <$> get event (listeners m)
    else get e (listeners m).
Proof.
  unfold off. simpl.
  destruct (get event (listeners m)) as [cbs|] eqn:Hget.
  - rewrite get_set. by destruct (bool_decide (e = event)).
  - destruct (decide (e = event)) as [->|Hne].
    + by rewrite bool_decide_eq_true_2, Hget.
    + by rewrite bool_decide_eq_false_2.
Qed.

(** X29: [on] appends the callback to the list of its event and leaves the
    other events alone; [off] with that callback then restores the list,
    when the callback was not registered before; and [off] with a callback
    that is not registered changes no list. *)
Theorem on_then_off (event e : string) (cb : callback) (m : manager)
    (Hnew : cb ∉ default [] (get event (listeners m))) :
  get e (listeners (on event cb m))
  = (if bool_decide (e = event)
     then Some (default [] (get event (listeners m)) ++ [cb])
     else get e (listeners m))
  ∧ default [] (get e (listeners (off event (Some cb) (on event cb m))))
    = default [] (get e (listeners m))
  ∧ get e (listeners (off event (Some cb) m)) = get e (listeners m).
Proof.
  split; [apply on_get|]. split.
  - rewrite off_get, !on_get.
    destruct (decide (e = event)) as [->|Hne].
    + rewrite !bool_decide_eq_true_2 by done. simpl.
      by destruct (splice_first_absent cb _ Hnew) as [_ ->].
    + by rewrite !bool_decide_eq_false_2.
  - rewrite off_get. destruct (decide (e = event)) as [->|Hne].
    + rewrite bool_decide_eq_true_2 by done.
      destruct (get event (listeners m)) as [cbs|]; [|done]. simpl in *.
      by destruct (splice_first_absent cb _ Hnew) as [-> _].
    + by rewrite bool_decide_eq_false_2.
Qed.

Lemma on_then_off_witness :
  let m := on "task_created" (listener 0) new in
  get "task_created" (listeners (on "task_created" (listener 1) m))
  = Some [listener 0; listener 1]
  ∧ default [] (get "task_created"
                  (listeners (off "task_created" (Some (listener 1))
                                (on "task_created" (listener 1) m))))
    = [listener 0]
  ∧ get "task_created" (listeners (off "task_created" (Some (listener 1)) m))
    = Some [listener 0].
Proof.
  apply (on_then_off "task_created" "task_created" (listener 1)
           (on "task_created" (listener 0) new)).
  by_evaluation.
Defined.

Lemma handlers_added_app (event : string) (l k : list call) :
  handlers_added event (l ++ k) = handlers_added event l ++ handlers_added event k.
Proof. unfold handlers_added. apply omap_app. Qed.

Lemma handlers_added_entry (event k : string) (cbs : list callback) :
  handlers_added event (socket_on k <$> cbs)
  = if bool_decide (k = event) then cbs else [].
Proof.
  unfold handlers_added. induction cbs as [|cb cbs IH]; [by destruct (bool_decide _)|].
  cbn. destruct (bool_decide (k = event)); simpl in *; by rewrite IH.
Qed.

Lemma handlers_added_registry (event : string) (m : registry) :
  NoDup m.*1 →
  handlers_added event ('(k, cbs) ← m; socket_on k <$> cbs) = default [] (get event m).
Proof.
  induction m as [|[k v] m IH]; intros Hm; [done|].
  rewrite fmap_cons in Hm. apply NoDup_cons in Hm as [Hk Hm]. simpl in Hk.
  rewrite bind_cons, handlers_added_app, handlers_added_entry, get_cons, (IH Hm).
  destruct (decide (k = event)) as [->|Hne].
  - rewrite !bool_decide_eq_true_2 by done. simpl.
    by rewrite (get_None event m Hk), app_nil_r.
  - by rewrite !bool_decide_eq_false_2.
Qed.

(** X30: [connect] does nothing while the current socket is connected;
    otherwise it creates a socket and attaches to it, for each event, the
    callbacks registered for the event, in registration order, after its
    own [connect] and [disconnect] handlers. *)
Theorem connect_reattaches (userId : option string) (connected : bool) (m : manager)
    (event : string)
    (Hkeys : NoDup (listeners m).*1) :
  if bool_decide (is_Some (socket m)) && connected
  then connect userId connected m = m
  else ∃ calls,
         connect userId connected m = {| socket := Some calls; listeners := listeners m |}
         ∧ handlers_added event calls
           = (if bool_decide (event = "connect") then [connect_handler userId]
              else if bool_decide (event = "disconnect") then [disconnect_handler]
              else [])
             ++ default [] (get event (listeners m)).
Proof.
  unfold connect. destruct (bool_decide (is_Some (socket m)) && connected); [done|].
  eexists. split; [reflexivity|].
  rewrite handlers_added_app, (handlers_added_registry event _ Hkeys). f_equal.
  unfold handlers_added. simpl.
  destruct (decide (event = "connect")) as [->|Hc].
  - done.
  - rewrite (bool_decide_eq_false_2 ("connect" = event)) by done.
    rewrite (bool_decide_eq_false_2 (event = "connect")) by done.
    destruct (decide (event = "disconnect")) as [->|Hd].
    + done.
    + rewrite (bool_decide_eq_false_2 ("disconnect" = event)) by done.
      by rewrite (bool_decide_eq_false_2 (event = "disconnect")).
Qed.

Lemma connect_reattaches_witness :
  let m := on "task_updated" (listener 1) (on "task_created" (listener 0) new) in
  ∃ calls,
    connect (Some "u1") false m = {| socket := Some calls; listeners := listeners m |}
    ∧ handlers_added "task_updated" calls = [listener 1].
Proof.
  apply (connect_reattaches (Some "u1") false
           (on "task_updated" (listener 1) (on "task_created" (listener 0) new))
           "task_updated").
  by_evaluation.
Defined.

Lemma on_keys_unique (event : string) (cb : callback) (m : manager) :
  NoDup (listeners m).*1 → NoDup (listeners (on event cb m)).*1.
Proof.
  intros Hm. unfold on. simpl.
  assert (NoDup (if has event (listeners m) then listeners m
                 else set event [] (listeners m)).*1) as Hm1.
  { destruct (has event (listeners m)); [done|by apply set_NoDup]. }
  destruct (get event _); [by apply set_NoDup|done].
Qed.

(** A registered callback is attached to the socket of the next
    connection. *)
Lemma listener_survives_reconnect (event : string) (cb : callback)
    (userId : option string) (m : manager)
    (Hkeys : NoDup (listeners m).*1) :
  ∃ calls,
    socket (connect userId false (disconnect (on event cb m))) = Some calls
    ∧ cb ∈ handlers_added event calls.
Proof.
  pose proof (connect_reattaches_aux := handlers_added_registry event
    (listeners (on event cb m)) (on_keys_unique event cb m Hkeys)).
  unfold connect. rewrite andb_false_r. cbn [socket].
  eexists. split; [reflexivity|].
  change (listeners (disconnect (on event cb m))) with (listeners (on event cb m)).
  rewrite handlers_added_app. apply elem_of_app. right.
  rewrite connect_reattaches_aux, on_get, bool_decide_eq_true_2 by done. simpl.
  apply elem_of_app. right. left.
Qed.

End SocketManagerFacts.
